(** * Kyverno: the [apply] command of the CLI and the v1 resource-spec types

    A shallow embedding of
    - [api/kyverno/v1/resource_spec_types.go] (module [V1]) and
    - [cmd/cli/kubectl-kyverno/commands/apply/command.go] (module [Apply]),
    followed by the properties proved about them.

    Go values are embedded as follows: [string] is [string], [int] is [Z]
    (64-bit two's complement, wrap-around written out where the code does
    arithmetic), a pointer is an [option] ([None] is [nil]), a slice is a
    [list] (the nil slice is [[]]; the one field whose nil-ness the code
    tests is an [option (list _)]), an [error] result is an [option error]. *)

From Stdlib Require Import ZArith List String Ascii Bool Lia DecimalString.
Import ListNotations.

Local Open Scope string_scope.
Local Open Scope Z_scope.

(* ================================================================== *)
(** * A small Go runtime                                               *)
(* ================================================================== *)

Module GoRt.

(** ** Pointers and panics *)

Definition ptr (A : Type) : Type := option A.

Inductive outcome (A : Type) : Type :=
| Returned (a : A)
| Panicked (msg : string).
Arguments Returned {A} a.
Arguments Panicked {A} msg.

Definition bind {A B} (m : outcome A) (k : A -> outcome B) : outcome B :=
  match m with
  | Returned a => k a
  | Panicked msg => Panicked msg
  end.

(** [p.f] on a pointer [p]: a nil pointer dereference panics. *)
Definition deref {A} (p : ptr A) : outcome A :=
  match p with
  | Some a => Returned a
  | None => Panicked "invalid memory address or nil pointer dereference"
  end.

Definition isNil {A} (p : option A) : bool :=
  match p with
  | Some _ => false
  | None => true
  end.

(** ** [int] *)

Definition int_max : Z := 2 ^ 63 - 1.
Definition int_min : Z := - 2 ^ 63.
Definition wrap_int (z : Z) : Z := (z + 2 ^ 63) mod 2 ^ 64 - 2 ^ 63.

(** ** [strings] and [fmt] *)

Definition nl : string := String (ascii_of_nat 10) EmptyString.

(** [strings.Join(elems, sep)] *)
Definition Join (elems : list string) (sep : string) : string :=
  String.concat sep elems.

(** [strings.HasPrefix(s, prefix)] *)
Definition HasPrefix (s pre : string) : bool := String.prefix pre s.

(** [%d] *)
Definition itoa (z : Z) : string := NilZero.string_of_int (Z.to_int z).

(** [fmt.Sprintln]: the operands, already formatted, separated by single
    spaces and followed by a newline. *)
Definition Sprintln (operands : list string) : string :=
  Join operands " " ++ nl.

(** An [io.Writer]: the chunks written so far, oldest first, and the text
    that [%v] prints for the writer itself.  That text is taken to be the
    same before and after a write, as it is for [os.Stdout]; a writer whose
    text shows what was written to it, such as a [bytes.Buffer], is outside
    the model. *)
Record Writer : Type := mkWriter {
  written : list string;
  repr : string
}.

Definition Writer_Write (w : Writer) (chunk : string) : Writer :=
  {| written := written w ++ [chunk]; repr := repr w |}.

(** [fmt.Fprintln(w, operands...)] *)
Definition Fprintln (w : Writer) (operands : list string) : Writer :=
  Writer_Write w (Sprintln operands).

(** [strings.IndexByte(s, c) >= 0] *)
Fixpoint ContainsByte (s : string) (c : ascii) : bool :=
  match s with
  | EmptyString => false
  | String ch s' => if Ascii.eqb ch c then true else ContainsByte s' c
  end.

End GoRt.

Notation "x <- m ;; k" := (GoRt.bind m (fun x => k))
  (at level 61, m at next level, right associativity).

(* ================================================================== *)
(** * api/kyverno/v1/resource_spec_types.go                            *)
(* ================================================================== *)

Module V1.
Import GoRt.

Record ResourceSpec : Type := mkResourceSpec {
  APIVersion : string;
  Kind : string;
  Namespace : string;
  Name : string;
  UID : string
}.

Definition GetName (s : ResourceSpec) : string := Name s.
Definition GetNamespace (s : ResourceSpec) : string := Namespace s.
Definition GetKind (s : ResourceSpec) : string := Kind s.
Definition GetAPIVersion (s : ResourceSpec) : string := APIVersion s.
Definition GetUID (s : ResourceSpec) : string := UID s.

(** [func (s ResourceSpec) String() string] *)
Definition ResourceSpec_String (s : ResourceSpec) : string :=
  Join [APIVersion s; Kind s; Namespace s; Name s] "/".

Section TargetResource.
(** [metav1.LabelSelector], [ContextEntry] and the dynamic values that an
    [any] can hold are declared outside this file. *)
Variables LabelSelector ContextEntry DynValue : Type.

(** An interface value; [None] is the nil interface. *)
Definition any : Type := option DynValue.

Record ConditionsWrapper : Type := mkConditionsWrapper {
  Conditions : any
}.

Record TargetSelector : Type := mkTargetSelector {
  TS_ResourceSpec : ResourceSpec;
  Selector : ptr LabelSelector
}.

Record TargetResourceSpec : Type := mkTargetResourceSpec {
  TRS_TargetSelector : TargetSelector;
  Context : list ContextEntry;
  RawAnyAllConditions : ptr ConditionsWrapper
}.

(** [func (r *TargetResourceSpec) GetAnyAllConditions() any] *)
Definition GetAnyAllConditions (r : ptr TargetResourceSpec) : outcome any :=
  r' <- deref r ;;
  if isNil (RawAnyAllConditions r') then
    Returned None
  else
    w <- deref (RawAnyAllConditions r') ;;
    Returned (Conditions w).

(** [func (r *TargetResourceSpec) GetSelector() *metav1.LabelSelector] *)
Definition GetSelector (r : ptr TargetResourceSpec)
  : outcome (ptr LabelSelector) :=
  r' <- deref r ;;
  Returned (Selector (TRS_TargetSelector r')).

End TargetResource.

Arguments Conditions {DynValue} _.
Arguments mkConditionsWrapper {DynValue} _.
Arguments RawAnyAllConditions {LabelSelector ContextEntry DynValue} _.
Arguments mkTargetResourceSpec {LabelSelector ContextEntry DynValue} _ _ _.
Arguments mkTargetSelector {LabelSelector} _ _.
Arguments GetAnyAllConditions {LabelSelector ContextEntry DynValue} r.
Arguments GetSelector {LabelSelector ContextEntry DynValue} r.

End V1.

(* ================================================================== *)
(** * cmd/cli/kubectl-kyverno/commands/apply/command.go                *)
(* ================================================================== *)

Module Apply.
Import GoRt.

(** ** Errors *)

Record WarnExitCodeError : Type := mkWarnExitCodeError {
  ExitCode : Z
}.

(** The dynamic type of an [error] value built in this file. *)
Inductive error : Type :=
| Errorf (msg : string)
    (* fmt.Errorf without %w, or an error made elsewhere: its text *)
| ErrorfW (pre : string) (inner : error) (post : string)
    (* fmt.Errorf("pre%wpost", inner) *)
| ErrWarnExitCode (w : WarnExitCodeError).

(** [func (w WarnExitCodeError) Error() string] *)
Definition WarnExitCodeError_Error (w : WarnExitCodeError) : string :=
  "exit as warnExitCode is " ++ itoa (ExitCode w).

(** [err.Error()] *)
Fixpoint Error_text (e : error) : string :=
  match e with
  | Errorf msg => msg
  | ErrorfW pre inner post => pre ++ Error_text inner ++ post
  | ErrWarnExitCode w => WarnExitCodeError_Error w
  end.

(** ** Result counters *)

(** Modelled from the spec: [processor.ResultCounts] is declared in
    package [processor].  [exit] reads its fields [Pass], [Fail], [Warn] and
    [Error]; the spec lists the counters as pass/fail/warn/error/skip. *)
Record ResultCounts : Type := mkResultCounts {
  Pass : Z;
  Fail : Z;
  Warn : Z;
  Error : Z;
  Skip : Z
}.

(** [var rc processor.ResultCounts] *)
Definition zeroResultCounts : ResultCounts :=
  {| Pass := 0; Fail := 0; Warn := 0; Error := 0; Skip := 0 |}.

(** Modelled from the spec: the method [IncrementError] of [ResultCounts]
    is declared in package [processor]; it adds [inc] to the error
    counter. *)
Definition IncrementError (inc : Z) (rc : ResultCounts) : ResultCounts :=
  {| Pass := Pass rc; Fail := Fail rc; Warn := Warn rc;
     Error := wrap_int (Error rc + inc); Skip := Skip rc |}.

(** ** [exit] *)

(** [func exit(out io.Writer, rc *processor.ResultCounts, warnExitCode int,
    warnNoPassed bool) error].  The first component of the result is what the
    call prints on standard output ([fmt.Printf] and [fmt.Println], the
    latter with [out] itself as its first operand). *)
Definition exit (out : Writer) (rc : ptr ResultCounts) (warnExitCode : Z)
    (warnNoPassed : bool) : outcome (list string * option error) :=
  rc' <- deref rc ;;
  if Z.gtb (Fail rc') 0 then
    Returned ([], Some (Errorf "exit as there are policy violations"))
  else if Z.gtb (Error rc') 0 then
    Returned ([], Some (Errorf "exit as there are policy errors"))
  else if Z.gtb (Warn rc') 0 && negb (Z.eqb warnExitCode 0) then
    Returned (["exit as warnExitCode is " ++ itoa warnExitCode],
              Some (ErrWarnExitCode {| ExitCode := warnExitCode |}))
  else if Z.eqb (Pass rc') 0 && warnNoPassed then
    Returned ([Sprintln [repr out; "exit as no objects satisfied policy"]],
              Some (ErrWarnExitCode {| ExitCode := warnExitCode |}))
  else
    Returned ([], None).

(** The four conditions under which [exit] reports an error. *)
Definition exit_condition (rc : ResultCounts) (warnExitCode : Z)
    (warnNoPassed : bool) : Prop :=
  0 < Fail rc \/ 0 < Error rc \/ (0 < Warn rc /\ warnExitCode <> 0)
  \/ (Pass rc = 0 /\ warnNoPassed = true).

(** A run whose only findings are warnings. *)
Definition warn_only (rc : ResultCounts) : Prop :=
  0 < Warn rc /\ Fail rc = 0 /\ Error rc = 0.

(** ** Resources, policies and engine responses *)

(** Modelled from the spec: [unstructured.Unstructured] is declared in
    another package.  A resource object has a kind, a namespace and a name
    (read by [GetKind], [GetNamespace], [GetName]) and a body. *)
Record Unstructured : Type := mkUnstructured {
  u_kind : string;
  u_namespace : string;
  u_name : string;
  u_body : string
}.

(** Modelled from the spec: [kyvernov1.PolicyInterface] is declared in
    another file.  A policy is a named object; this file reads its name,
    namespace and kind. *)
Record PolicyInterface : Type := mkPolicy {
  p_kind : string;
  p_namespace : string;
  p_name : string;
  p_spec : string
}.

(** The methods [GetName], [GetNamespace], [GetKind] that resources and
    policies share. *)
Class Object (T : Type) : Type := {
  GetName : T -> string;
  GetNamespace : T -> string;
  GetKind : T -> string
}.

#[export] Instance Unstructured_Object : Object Unstructured :=
  {| GetName := u_name; GetNamespace := u_namespace; GetKind := u_kind |}.

#[export] Instance PolicyInterface_Object : Object PolicyInterface :=
  {| GetName := p_name; GetNamespace := p_namespace; GetKind := p_kind |}.

(** Modelled from the spec: [engineapi.RuleStatus], [engineapi.RuleType],
    [engineapi.RuleResponse] and [engineapi.EngineResponse] are declared
    in package [engineapi].  A rule response carries a rule name, a rule
    type, a status (Pass/Fail/Warn/Error/Skip) and a message; an engine
    response holds the resource, the originating policy and the ordered rule
    responses. *)
Inductive RuleStatus : Type :=
| RuleStatusPass
| RuleStatusFail
| RuleStatusWarn
| RuleStatusError
| RuleStatusSkip.

Inductive RuleType : Type :=
| Mutation
| Validation
| Generation
| ImageVerify.

Definition RuleStatus_eqb (a b : RuleStatus) : bool :=
  match a, b with
  | RuleStatusPass, RuleStatusPass
  | RuleStatusFail, RuleStatusFail
  | RuleStatusWarn, RuleStatusWarn
  | RuleStatusError, RuleStatusError
  | RuleStatusSkip, RuleStatusSkip => true
  | _, _ => false
  end.

Definition RuleType_eqb (a b : RuleType) : bool :=
  match a, b with
  | Mutation, Mutation
  | Validation, Validation
  | Generation, Generation
  | ImageVerify, ImageVerify => true
  | _, _ => false
  end.

Record RuleResponse : Type := mkRuleResponse {
  name : string;
  ruleType : RuleType;
  message : string;
  status : RuleStatus
}.

Definition RuleResponse_Name (r : RuleResponse) : string := name r.
Definition RuleResponse_RuleType (r : RuleResponse) : RuleType := ruleType r.
Definition RuleResponse_Message (r : RuleResponse) : string := message r.
Definition RuleResponse_Status (r : RuleResponse) : RuleStatus := status r.

Record PolicyResponse : Type := mkPolicyResponse {
  Rules : list RuleResponse
}.

(** Modelled from the spec: [kyvernov1.ValidationFailureAction] with its
    method [Audit] is declared in another file; the policy-level
    action is either Audit or Enforce. *)
Inductive ValidationFailureAction : Type :=
| ActionEnforce
| ActionAudit.

Definition ValidationFailureAction_Audit (a : ValidationFailureAction) : bool :=
  match a with
  | ActionAudit => true
  | ActionEnforce => false
  end.

Record EngineResponse : Type := mkEngineResponse {
  Resource : Unstructured;
  PolicyResponse_ : PolicyResponse;
  policy : PolicyInterface;
  validationFailureAction : ValidationFailureAction
}.

Definition EngineResponse_Policy (r : EngineResponse) : PolicyInterface :=
  policy r.
Definition EngineResponse_GetValidationFailureAction (r : EngineResponse)
  : ValidationFailureAction := validationFailureAction r.

(** ** Configuration *)

Record SkippedInvalidPolicies : Type := mkSkippedInvalidPolicies {
  skipped : list string;
  invalid : list string
}.

Record ApplyCommandConfig : Type := mkApplyCommandConfig {
  KubeConfig : string;
  Context : string;
  Namespace : string;
  MutateLogPath : string;
  Variables : option (list string);   (* [None] is the nil slice *)
  ValuesFile : string;
  UserInfoPath : string;
  Cluster : bool;
  PolicyReport : bool;
  Stdin : bool;
  RegistryAccess : bool;
  AuditWarn : bool;
  ResourcePaths : list string;
  PolicyPaths : list string;
  GitBranch : string;
  warnExitCode : Z;
  warnNoPassed : bool;
  Exception : list string;
  ContinueOnFail : bool;
  inlineExceptions : bool;
  GenerateExceptions : bool;
  GeneratedExceptionTTL : Z
}.

(** The five values that [applyCommandHelper] and the functions it calls
    return: a pointer to the result counts, the resources, the skipped and
    invalid policies, the engine responses and an error. *)
Record HelperResult : Type := mkHelperResult {
  res_rc : ptr ResultCounts;
  res_resources : list Unstructured;
  res_skipInvalidPolicies : SkippedInvalidPolicies;
  res_responses : list EngineResponse;
  res_err : option error
}.

(** ** [checkArguments] *)

Definition len {A} (l : list A) : Z := Z.of_nat (List.length l).

(** [l[0] == s], evaluated only where [len(l) > 0] holds. *)
Definition first_is (l : list string) (s : string) : bool :=
  match l with
  | x :: _ => String.eqb x s
  | [] => false
  end.

(** [func (c *ApplyCommandConfig) checkArguments()] *)
Definition checkArguments (c : ApplyCommandConfig) : HelperResult :=
  let skipInvalidPolicies := {| skipped := []; invalid := [] |} in
  let fail (msg : string) :=
    {| res_rc := None; res_resources := [];
       res_skipInvalidPolicies := skipInvalidPolicies;
       res_responses := []; res_err := Some (Errorf msg) |} in
  if negb (String.eqb (ValuesFile c) "") && negb (isNil (Variables c)) then
    fail "pass the values either using set flag or values_file flag"
  else if Z.eqb (len (PolicyPaths c)) 0 then
    fail "require policy"
  else if (Z.gtb (len (PolicyPaths c)) 0 && first_is (PolicyPaths c) "-")
          && Z.gtb (len (ResourcePaths c)) 0
          && first_is (ResourcePaths c) "-" then
    fail "a stdin pipe can be used for either policies or resources, not both"
  else if Z.eqb (len (ResourcePaths c)) 0 && negb (Cluster c) then
    fail "resource file(s) or cluster required"
  else
    {| res_rc := None; res_resources := [];
       res_skipInvalidPolicies := skipInvalidPolicies;
       res_responses := []; res_err := None |}.

(** ** [Command]: what [RunE] prints *)

(** [fmt.Sprintf("%s/%s/%s", a, b, c)] *)
Definition Sprintf_path (a b c : string) : string :=
  a ++ "/" ++ b ++ "/" ++ c.

(** The loop over [response.PolicyResponse.Rules]: collects the failed rules
    and reports skipped and failed mutations. *)
Fixpoint scanRules (out : Writer) (policyName resPath : string)
    (rules : list RuleResponse) (failedRules : list RuleResponse)
    : Writer * list RuleResponse :=
  match rules with
  | [] => (out, failedRules)
  | rule :: rules' =>
      let failedRules :=
        if RuleStatus_eqb (RuleResponse_Status rule) RuleStatusFail
        then (failedRules ++ [rule])%list
        else failedRules in
      let out :=
        if RuleType_eqb (RuleResponse_RuleType rule) Mutation then
          if RuleStatus_eqb (RuleResponse_Status rule) RuleStatusSkip then
            Fprintln out [nl ++ "skipped mutate policy"; policyName; "->";
                          "resource"; resPath]
          else if RuleStatus_eqb (RuleResponse_Status rule) RuleStatusError then
            Fprintln out [nl ++ "error while applying mutate policy";
                          policyName; "->"; "resource"; resPath;
                          nl ++ "error: "; RuleResponse_Message rule]
          else out
        else out in
      scanRules out policyName resPath rules' failedRules
  end.

(** The loop [for i, rule := range failedRules], entered at index [i]. *)
Fixpoint printFailedRules (out : Writer) (i : Z)
    (failedRules : list RuleResponse) : Writer :=
  match failedRules with
  | [] => out
  | rule :: failedRules' =>
      printFailedRules
        (Fprintln out [itoa (i + 1); "-"; RuleResponse_Name rule;
                       RuleResponse_Message rule])
        (i + 1) failedRules'
  end.

(** The path printed for the resource of a response. *)
Definition resPathOf (response : EngineResponse) : string :=
  Sprintf_path (GetNamespace (Resource response))
               (GetKind (Resource response))
               (GetName (Resource response)).


(** The body of [for _, response := range responses]. *)
Definition printResponse (c : ApplyCommandConfig) (out : Writer)
    (response : EngineResponse) : Writer :=
  let resPath := resPathOf response in
  let policyName := GetName (EngineResponse_Policy response) in
  let '(out, failedRules) :=
    scanRules out policyName resPath (Rules (PolicyResponse_ response)) [] in
  if Z.gtb (len failedRules) 0 then
    let auditWarn :=
      if AuditWarn c
         && ValidationFailureAction_Audit
              (EngineResponse_GetValidationFailureAction response)
      then true else false in
    let out :=
      if auditWarn then
        Fprintln out ["policy"; policyName; "->"; "resource"; resPath;
                      "failed as audit warning:"]
      else
        Fprintln out ["policy"; policyName; "->"; "resource"; resPath;
                      "failed:"] in
    let out := printFailedRules out 0 failedRules in
    Fprintln out [""]
  else out.

Definition printResponses (c : ApplyCommandConfig) (out : Writer)
    (responses : list EngineResponse) : Writer :=
  fold_left (printResponse c) responses out.

(** Several writes in a row. *)
Definition Writes (out : Writer) (chunks : list string) : Writer :=
  fold_left Writer_Write chunks out.

Definition with_PolicyPaths (c : ApplyCommandConfig) (args : list string)
  : ApplyCommandConfig :=
  {| KubeConfig := KubeConfig c; Context := Context c;
     Namespace := Namespace c; MutateLogPath := MutateLogPath c;
     Variables := Variables c; ValuesFile := ValuesFile c;
     UserInfoPath := UserInfoPath c; Cluster := Cluster c;
     PolicyReport := PolicyReport c; Stdin := Stdin c;
     RegistryAccess := RegistryAccess c; AuditWarn := AuditWarn c;
     ResourcePaths := ResourcePaths c; PolicyPaths := args;
     GitBranch := GitBranch c; warnExitCode := warnExitCode c;
     warnNoPassed := warnNoPassed c; Exception := Exception c;
     ContinueOnFail := ContinueOnFail c;
     inlineExceptions := inlineExceptions c;
     GenerateExceptions := GenerateExceptions c;
     GeneratedExceptionTTL := GeneratedExceptionTTL c |}.

Section Command.

(** [applyCommandHelper] runs the evaluation through loaders, clients and
    processors of other packages.  [RunE] is modelled for any behaviour of
    it: the five values it returns and the chunks it writes to [out].  Of
    the configuration it assigns [GitBranch] and [MutateLogPath] only, which
    [RunE] does not read afterwards. *)
Variable applyCommandHelper :
  ApplyCommandConfig -> Writer -> HelperResult * list string.

(** The printers of the other output modes and of the summary are declared
    in other files of the package; each is taken with the chunks it writes to
    [out]. *)
Variable printSkippedAndInvalidPolicies : SkippedInvalidPolicies -> list string.
Variable printReports : list EngineResponse -> bool -> list string.
Variable printExceptions : list EngineResponse -> bool -> Z -> list string.
Variable printTable : bool -> bool -> list EngineResponse -> list string.
Variable printViolations : ptr ResultCounts -> list string.

(** The [RunE] closure of [Command], applied to the flag values
    [detailedResults] and [table] and to the positional arguments.  It
    returns the writer [out] and, from [exit], the standard output and the
    error. *)
Definition RunE (applyCommandConfig : ApplyCommandConfig)
    (detailedResults table : bool) (args : list string) (out : Writer)
    : Writer * outcome (list string * option error) :=
  let applyCommandConfig := with_PolicyPaths applyCommandConfig args in
  let '(res, helper_chunks) := applyCommandHelper applyCommandConfig out in
  let out := Writes out helper_chunks in
  match res_err res with
  | Some err => (out, Returned ([], Some err))
  | None =>
      let rc := res_rc res in
      let responses := res_responses res in
      let out :=
        Writes out
          (printSkippedAndInvalidPolicies (res_skipInvalidPolicies res)) in
      let out :=
        if PolicyReport applyCommandConfig then
          Writes out (printReports responses (AuditWarn applyCommandConfig))
        else if GenerateExceptions applyCommandConfig then
          Writes out
            (printExceptions responses (AuditWarn applyCommandConfig)
               (GeneratedExceptionTTL applyCommandConfig))
        else if table then
          Writes out
            (printTable detailedResults (AuditWarn applyCommandConfig)
               responses)
        else
          let out := printResponses applyCommandConfig out responses in
          Writes out (printViolations rc) in
      (out, exit out rc (warnExitCode applyCommandConfig)
                  (warnNoPassed applyCommandConfig))
  end.

End Command.

(** ** Logging *)

Inductive LogEntry : Type :=
| LogError (err : string) (msg : string)
    (* log.Log.Error(err, msg) *)
| LogInfo (msg : string)
    (* log.Log.Info(msg) *)
| LogV3Info (msg : string) (keysAndValues : list string).
    (* log.Log.V(3).Info(msg, keysAndValues...) *)

(** ** [applyPolicytoResource] *)

Section Processing.

(** Types declared in other packages: [variables.Variables],
    [kyvernov2.PolicyException], [kyvernov2.RequestInfo], [dclient.Interface],
    the namespace selector map and [v1alpha1.Subresource]. *)
Variables VariablesT PolicyException RequestInfo Client : Type.
Variables NamespaceSelectorMap Subresource : Type.

(** The fields that [applyPolicytoResource] gives a
    [processor.PolicyProcessor].  Its fields [Store] and [Rc] are pointers:
    the store is part of the world below and the counters are threaded
    through the call. *)
Record PolicyProcessor : Type := mkPolicyProcessor {
  PP_Policies : list PolicyInterface;
  PP_Resource : Unstructured;
  PP_PolicyExceptions : list PolicyException;
  PP_MutateLogPath : string;
  PP_MutateLogPathIsDir : bool;
  PP_Variables : ptr VariablesT;
  PP_UserInfo : ptr RequestInfo;
  PP_PolicyReport : bool;
  PP_NamespaceSelectorMap : NamespaceSelectorMap;
  PP_Stdin : bool;
  PP_PrintPatchResource : bool;
  PP_Client : Client;
  PP_AuditWarn : bool;
  PP_Subresources : list Subresource;
  PP_Out : Writer
}.

(** Everything outside the function that a call can read or change: the
    store, the files, the cluster, what has been written to [out]. *)
Variable World : Type.

Record State : Type := mkState {
  world : World;
  logs : list LogEntry
}.

Definition log (e : LogEntry) (st : State) : State :=
  {| world := world st; logs := logs st ++ [e] |}.

(** Collaborators declared in other packages; each is assumed to
    return.  [Validate] stands for [policyvalidation.Validate(pol, nil, nil,
    nil, true, sa, sa)] with [sa] the Kyverno service account user name. *)
Variable SetInStore : VariablesT -> World -> World.
Variable NamespaceSelectors : ptr VariablesT -> NamespaceSelectorMap.
Variable Subresources : ptr VariablesT -> list Subresource.
Variable Validate : PolicyInterface -> option error.
Variable ApplyPoliciesOnResource :
  PolicyProcessor -> ResultCounts -> State ->
  (list EngineResponse * option error) * ResultCounts * State.

(** The loop [for _, pol := range policies] that validates the policies. *)
Fixpoint validatePolicies (policies : list PolicyInterface)
    (rc : ResultCounts) (skipInvalidPolicies : SkippedInvalidPolicies)
    (validPolicies : list PolicyInterface) (st : State)
    : ResultCounts * SkippedInvalidPolicies * list PolicyInterface * State :=
  match policies with
  | [] => (rc, skipInvalidPolicies, validPolicies, st)
  | pol :: policies' =>
      match Validate pol with
      | Some err =>
          let st := log (LogError (Error_text err) "policy validation error")
                        st in
          let rc := IncrementError 1 rc in
          let skipInvalidPolicies :=
            if HasPrefix (Error_text err) "variable 'element.name'" then
              {| skipped := skipped skipInvalidPolicies;
                 invalid := invalid skipInvalidPolicies ++ [GetName pol] |}
            else
              {| skipped := skipped skipInvalidPolicies ++ [GetName pol];
                 invalid := invalid skipInvalidPolicies |} in
          validatePolicies policies' rc skipInvalidPolicies validPolicies st
      | None =>
          validatePolicies policies' rc skipInvalidPolicies
            (validPolicies ++ [pol]) st
      end
  end.

(** The processor built for one resource. *)
Definition processorFor (c : ApplyCommandConfig) (out : Writer)
    (vars : ptr VariablesT) (validPolicies : list PolicyInterface)
    (exceptions : list PolicyException) (dClient : Client)
    (userInfo : ptr RequestInfo) (mutateLogPathIsDir : bool)
    (resource : Unstructured) : PolicyProcessor :=
  {| PP_Policies := validPolicies;
     PP_Resource := resource;
     PP_PolicyExceptions := exceptions;
     PP_MutateLogPath := MutateLogPath c;
     PP_MutateLogPathIsDir := mutateLogPathIsDir;
     PP_Variables := vars;
     PP_UserInfo := userInfo;
     PP_PolicyReport := PolicyReport c;
     PP_NamespaceSelectorMap := NamespaceSelectors vars;
     PP_Stdin := Stdin c;
     PP_PrintPatchResource := true;
     PP_Client := dClient;
     PP_AuditWarn := AuditWarn c;
     PP_Subresources := Subresources vars;
     PP_Out := out |}.

(** The loop [for _, resource := range resources].  The error of the result
    is set when the loop returned from the function.  The resources are the
    values that the pointers of the slice point to: a nil pointer in the
    slice, on which [Resource: *resource] panics, is outside the model. *)
Fixpoint applyResources (processorOf : Unstructured -> PolicyProcessor)
    (continueOnFail : bool) (resources : list Unstructured)
    (rc : ResultCounts) (responses : list EngineResponse) (st : State)
    : ResultCounts * list EngineResponse * option error * State :=
  match resources with
  | [] => (rc, responses, None, st)
  | resource :: resources' =>
      let '(ers, err, rc, st) :=
        ApplyPoliciesOnResource (processorOf resource) rc st in
      match err with
      | Some err =>
          if continueOnFail then
            let st :=
              log (LogInfo ("failed to apply policies on resource "
                            ++ GetName resource ++ " (" ++ Error_text err
                            ++ ")" ++ nl)) st in
            applyResources processorOf continueOnFail resources' rc
              responses st
          else
            (rc, responses,
             Some (ErrorfW ("failed to apply policies on resource "
                            ++ GetName resource ++ " (") err ")"),
             st)
      | None =>
          applyResources processorOf continueOnFail resources' rc
            (responses ++ ers) st
      end
  end.

(** The closing loop over the valid policies. *)
Fixpoint warnNoNamespace (validPolicies : list PolicyInterface) (st : State)
    : State :=
  match validPolicies with
  | [] => st
  | policy :: validPolicies' =>
      let st :=
        if String.eqb (GetNamespace policy) ""
           && String.eqb (GetKind policy) "Policy" then
          log (LogInfo ("Policy " ++ GetNamespace policy
                        ++ " has no namespace detected. Ensure that namespaced policies are correctly loaded."))
              st
        else st in
      warnNoNamespace validPolicies' st
  end.

(** What [applyPolicytoResource] returns; the pointer to the counters is
    never nil. *)
Record ApplyResult : Type := mkApplyResult {
  a_rc : ResultCounts;
  a_resources : list Unstructured;
  a_responses : list EngineResponse;
  a_err : option error
}.

(** [func (c *ApplyCommandConfig) applyPolicytoResource(...)].  The
    parameter [store] is part of the world; [skipInvalidPolicies] is a
    pointer, so the value it points to after the call is returned too. *)
Definition applyPolicytoResource (c : ApplyCommandConfig) (out : Writer)
    (vars : ptr VariablesT) (policies : list PolicyInterface)
    (resources : list Unstructured) (exceptions : list PolicyException)
    (skipInvalidPolicies : SkippedInvalidPolicies) (dClient : Client)
    (userInfo : ptr RequestInfo) (mutateLogPathIsDir : bool) (st : State)
    : ApplyResult * SkippedInvalidPolicies * State :=
  let st :=
    match vars with
    | Some v => {| world := SetInStore v (world st); logs := logs st |}
    | None => st
    end in
  let rc := zeroResultCounts in
  let '(rc, skipInvalidPolicies, validPolicies, st) :=
    validatePolicies policies rc skipInvalidPolicies [] st in
  let '(rc, responses, err, st) :=
    applyResources
      (processorFor c out vars validPolicies exceptions dClient userInfo
         mutateLogPathIsDir)
      (ContinueOnFail c) resources rc [] st in
  match err with
  | Some err =>
      ({| a_rc := rc; a_resources := resources; a_responses := responses;
          a_err := Some err |}, skipInvalidPolicies, st)
  | None =>
      let st := warnNoNamespace validPolicies st in
      ({| a_rc := rc; a_resources := resources; a_responses := responses;
          a_err := None |}, skipInvalidPolicies, st)
  end.

End Processing.

Arguments mkState {World} _ _.
Arguments world {World} _.
Arguments logs {World} _.
Arguments log {World} _ _.
Arguments PP_Policies {VariablesT PolicyException RequestInfo Client
  NamespaceSelectorMap Subresource} _.
Arguments PP_Resource {VariablesT PolicyException RequestInfo Client
  NamespaceSelectorMap Subresource} _.
Arguments validatePolicies {World} Validate policies rc skipInvalidPolicies
  validPolicies st.
Arguments warnNoNamespace {World} validPolicies st.
Arguments processorFor {VariablesT PolicyException RequestInfo Client
  NamespaceSelectorMap Subresource} NamespaceSelectors Subresources c out
  vars validPolicies exceptions dClient userInfo mutateLogPathIsDir resource.
Arguments applyResources {VariablesT PolicyException RequestInfo Client
  NamespaceSelectorMap Subresource World} ApplyPoliciesOnResource
  processorOf continueOnFail resources rc responses st.
Arguments applyPolicytoResource {VariablesT PolicyException RequestInfo
  Client NamespaceSelectorMap Subresource World} SetInStore
  NamespaceSelectors Subresources Validate ApplyPoliciesOnResource c out
  vars policies resources exceptions skipInvalidPolicies dClient userInfo
  mutateLogPathIsDir st.

(** *** How the validation loop classifies a policy *)

Section Classification.

Variable Validate : PolicyInterface -> option error.

Definition isValid (pol : PolicyInterface) : bool := isNil (Validate pol).

Definition isRejected (pol : PolicyInterface) : bool :=
  negb (isNil (Validate pol)).

(** Rejected with an error that starts with [variable 'element.name']. *)
Definition isListedInvalid (pol : PolicyInterface) : bool :=
  match Validate pol with
  | Some err => HasPrefix (Error_text err) "variable 'element.name'"
  | None => false
  end.

(** Rejected with any other error. *)
Definition isListedSkipped (pol : PolicyInterface) : bool :=
  match Validate pol with
  | Some err => negb (HasPrefix (Error_text err) "variable 'element.name'")
  | None => false
  end.

Definition validationLog (pol : PolicyInterface) : list LogEntry :=
  match Validate pol with
  | Some err => [LogError (Error_text err) "policy validation error"]
  | None => []
  end.

End Classification.

(** *** Observing the counts that the processor is given

    The counters are a local variable of [applyPolicytoResource], handed to
    the processor by pointer.  To speak of the counts that each call finds
    and leaves, the function is run with a processor that appends them, for
    each call, to a trace kept in the world. *)

Section CountsObserved.

Variables VariablesT PolicyException RequestInfo Client : Type.
Variables NamespaceSelectorMap Subresource World : Type.

(** The counts that a call was given and the counts that it left. *)
Definition CountsSeen : Type := (ResultCounts * ResultCounts)%type.

Variable SetInStore : VariablesT -> World -> World.
Variable ApplyPoliciesOnResource :
  PolicyProcessor VariablesT PolicyException RequestInfo Client
    NamespaceSelectorMap Subresource ->
  ResultCounts -> State World ->
  (list EngineResponse * option error) * ResultCounts * State World.

Definition countingSetInStore (v : VariablesT) (w : World * list CountsSeen)
  : World * list CountsSeen :=
  (SetInStore v (fst w), snd w).

Definition counting
    (p : PolicyProcessor VariablesT PolicyException RequestInfo Client
           NamespaceSelectorMap Subresource)
    (rc : ResultCounts) (st : State (World * list CountsSeen))
    : (list EngineResponse * option error) * ResultCounts
      * State (World * list CountsSeen) :=
  let '(res, rc', st') :=
    ApplyPoliciesOnResource p rc
      {| world := fst (world st); logs := logs st |} in
  (res, rc',
   {| world := (world st', (snd (world st) ++ [(rc, rc')])%list);
      logs := logs st' |}).

(** The state without the counts seen. *)
Definition uncounted (st : State (World * list CountsSeen)) : State World :=
  {| world := fst (world st); logs := logs st |}.

(** The counts go from call to call: the first call is given [start], each
    later call what the call before it left, and [final] is what the last
    call left ([start] itself when there was no call). *)
Fixpoint threaded (start : ResultCounts) (seen : list CountsSeen)
    (final : ResultCounts) : Prop :=
  match seen with
  | [] => final = start
  | (given, after) :: seen' => given = start /\ threaded after seen' final
  end.

End CountsObserved.

Arguments countingSetInStore {VariablesT World} SetInStore v w.
Arguments counting {VariablesT PolicyException RequestInfo Client
  NamespaceSelectorMap Subresource World} ApplyPoliciesOnResource p rc st.
Arguments uncounted {World} st.

(** *** Observing the calls of the processor

    The processor is a collaborator: to speak of the calls that
    [applyPolicytoResource] makes, it is run with a processor that appends
    each call, with what the call returned, to a trace kept in the world. *)

Section Recording.

Variables VariablesT PolicyException RequestInfo Client : Type.
Variables NamespaceSelectorMap Subresource World : Type.

Let Processor : Type :=
  PolicyProcessor VariablesT PolicyException RequestInfo Client
    NamespaceSelectorMap Subresource.

Definition Call : Type := Processor * (list EngineResponse * option error).

Variable SetInStore : VariablesT -> World -> World.
Variable ApplyPoliciesOnResource :
  Processor -> ResultCounts -> State World ->
  (list EngineResponse * option error) * ResultCounts * State World.

Definition recordingSetInStore (v : VariablesT) (w : World * list Call)
  : World * list Call :=
  (SetInStore v (fst w), snd w).

Definition recording (p : Processor) (rc : ResultCounts)
    (st : State (World * list Call))
    : (list EngineResponse * option error) * ResultCounts
      * State (World * list Call) :=
  let '(res, rc', st') :=
    ApplyPoliciesOnResource p rc
      {| world := fst (world st); logs := logs st |} in
  (res, rc',
   {| world := (world st', (snd (world st) ++ [(p, res)])%list);
      logs := logs st' |}).

(** The state without the trace, and the trace. *)
Definition erase (st : State (World * list Call)) : State World :=
  {| world := fst (world st); logs := logs st |}.

Definition trace (st : State (World * list Call)) : list Call :=
  snd (world st).

(** The responses that a recorded call contributes to the result: those it
    returned, unless it returned an error. *)
Definition returnedResponses (call : Call) : list EngineResponse :=
  match snd (snd call) with
  | Some _ => []
  | None => fst (snd call)
  end.

End Recording.

Arguments recordingSetInStore {VariablesT PolicyException RequestInfo Client
  NamespaceSelectorMap Subresource World} SetInStore v w.
Arguments recording {VariablesT PolicyException RequestInfo Client
  NamespaceSelectorMap Subresource World} ApplyPoliciesOnResource p rc st.
Arguments erase {VariablesT PolicyException RequestInfo Client
  NamespaceSelectorMap Subresource World} st.
Arguments trace {VariablesT PolicyException RequestInfo Client
  NamespaceSelectorMap Subresource World} st.
Arguments returnedResponses {VariablesT PolicyException RequestInfo Client
  NamespaceSelectorMap Subresource} call.

(** ** [loadPolicies] *)

Section Loading.

(** Types declared in other packages: [url.URL], the file system
    [billy.Filesystem], and the two admission registration types. *)
Variables URL FS VAP VAPBinding : Type.

Record LoaderResults : Type := mkLoaderResults {
  Policies : list PolicyInterface;
  VAPs : list VAP;
  VAPBindings : list VAPBinding;
  NonFatalErrors : list error     (* the [Error] field of each entry *)
}.

(** Collaborators declared in other packages; each is assumed to
    return, and stands for one reading of the files and of the network. *)
Variable IsGit : string -> bool.                       (* source.IsGit *)
Variable url_Parse : string -> URL + error.            (* url.Parse *)
Variable URL_Path : URL -> string.                     (* u.Path *)
Variable URL_setPath : URL -> string -> URL.           (* u.Path = ... *)
Variable URL_String : URL -> string.                   (* u.String() *)
Variable GetGitBranchOrPolicyPaths :
  string -> string -> string -> string * string.
Variable memfs_New : FS.                               (* memfs.New() *)
Variable Clone : string -> FS -> string -> FS * option error.
Variable ListYamls : FS -> string -> list string * option error.
Variable Load : ptr FS -> string -> string -> ptr LoaderResults * option error.

(** [s[1:]] *)
Definition from1 (s : string) : outcome string :=
  match s with
  | EmptyString => Panicked "slice bounds out of range [1:0]"
  | String _ s' => Returned s'
  end.

(** [strings.Split(s, sep)] for a separator of one byte. *)
Fixpoint Split (s : string) (sep : ascii) : list string :=
  match s with
  | EmptyString => [EmptyString]
  | String ch s' =>
      if Ascii.eqb ch sep then EmptyString :: Split s' sep
      else
        match Split s' sep with
        | x :: xs => String ch x :: xs
        | [] => [String ch EmptyString]
        end
  end.

Definition slash : ascii := ascii_of_nat 47.

(** The policies, admission policies and bindings loaded so far. *)
Record Loaded : Type := mkLoaded {
  policies : list PolicyInterface;
  vaps : list VAP;
  vapBindings : list VAPBinding
}.

(** [for _, err := range loaderResults.NonFatalErrors], entered when
    [loaderResults] and [NonFatalErrors] are not nil. *)
Definition logNonFatal (loaderResults : ptr LoaderResults)
    (lg : list LogEntry) : list LogEntry :=
  match loaderResults with
  | Some lr =>
      lg ++ map (fun e => LogError (Error_text e)
                            "Non-fatal parsing error for single document")
                (NonFatalErrors lr)
  | None => lg
  end.

(** The three [append]s that follow a successful [policy.Load]. *)
Definition appendLoaded (acc : Loaded) (loaderResults : ptr LoaderResults)
  : outcome Loaded :=
  lr <- deref loaderResults ;;
  Returned {| policies := policies acc ++ Policies lr;
              vaps := vaps acc ++ VAPs lr;
              vapBindings := vapBindings acc ++ VAPBindings lr |}.

(** [for _, policyYaml := range policyYamls] *)
Fixpoint loadYamls (fs : FS) (policyYamls : list string) (acc : Loaded)
    (lg : list LogEntry) : outcome (Loaded * list LogEntry) :=
  match policyYamls with
  | [] => Returned (acc, lg)
  | policyYaml :: policyYamls' =>
      let '(loaderResults, err) := Load (Some fs) "" policyYaml in
      let lg := logNonFatal loaderResults lg in
      match err with
      | Some _ => loadYamls fs policyYamls' acc lg
      | None =>
          acc <- appendLoaded acc loaderResults ;;
          loadYamls fs policyYamls' acc lg
      end
  end.

(** The loop that closes each iteration over the policy paths. *)
Definition logEmptyNamespace (ps : list PolicyInterface)
    (lg : list LogEntry) : list LogEntry :=
  lg ++ flat_map
          (fun policy =>
             if String.eqb (GetNamespace policy) ""
                && String.eqb (GetKind policy) "Policy"
             then [LogV3Info
                     ("Namespace is empty for a namespaced Policy "
                      ++ GetNamespace policy
                      ++ ". This might cause incorrect report generation.")
                     []]
             else [])
          ps.

(** What [loadPolicies] returns. *)
Record LoadResult : Type := mkLoadResult {
  l_rc : ptr ResultCounts;
  l_resources : list Unstructured;
  l_skipInvalidPolicies : SkippedInvalidPolicies;
  l_responses : list EngineResponse;
  l_policies : list PolicyInterface;
  l_vaps : list VAP;
  l_vapBindings : list VAPBinding;
  l_err : option error
}.

Definition loadFailed (skipInvalidPolicies : SkippedInvalidPolicies)
    (err : error) : LoadResult :=
  {| l_rc := None; l_resources := [];
     l_skipInvalidPolicies := skipInvalidPolicies; l_responses := [];
     l_policies := []; l_vaps := []; l_vapBindings := [];
     l_err := Some err |}.

(** How one iteration of the loop over the policy paths ends: it goes on
    to the next path, or it returns from [loadPolicies].  [gitBranch] is
    [c.GitBranch], which the iteration may assign. *)
Inductive LoopStep : Type :=
| LoopContinue (gitBranch : string) (acc : Loaded) (lg : list LogEntry)
| LoopReturn (result : LoadResult) (gitBranch : string) (lg : list LogEntry).

(** The body of [for _, path := range c.PolicyPaths]. *)
Definition loadPath (skipInvalidPolicies : SkippedInvalidPolicies)
    (path : string) (gitBranch : string) (acc : Loaded)
    (lg : list LogEntry) : outcome LoopStep :=
  if IsGit path then
    match url_Parse path with
    | inr err =>
        Returned (LoopReturn
                    (loadFailed skipInvalidPolicies
                       (ErrorfW "failed to load policies (" err ")"))
                    gitBranch lg)
    | inl gitSourceURL =>
        tail <- from1 (URL_Path gitSourceURL) ;;
        let pathElems := Split tail slash in
        if Z.leb (len pathElems) 1 then
          let err :=
            Errorf ("invalid URL path " ++ URL_Path gitSourceURL
                    ++ " - expected https://<any_git_source_domain>/:owner/:repository/:branch (without --git-branch flag) OR https://<any_git_source_domain>/:owner/:repository/:directory (with --git-branch flag)") in
          Returned (LoopReturn
                      (loadFailed skipInvalidPolicies
                         (ErrorfW "failed to parse URL (" err ")"))
                      gitBranch lg)
        else
          let gitSourceURL :=
            URL_setPath gitSourceURL
              (Join [nth 0 pathElems ""; nth 1 pathElems ""] "/") in
          let repoURL := URL_String gitSourceURL in
          let '(gitBranch, gitPathToYamls) :=
            GetGitBranchOrPolicyPaths gitBranch repoURL path in
          let '(fs, cloneErr) := Clone repoURL memfs_New gitBranch in
          match cloneErr with
          | Some err =>
              let lg :=
                (lg ++ [LogV3Info
                          ("failed to clone repository  " ++ repoURL
                           ++ " as it is not valid")
                          ["error"; Error_text err]])%list in
              Returned (LoopReturn
                          (loadFailed skipInvalidPolicies
                             (ErrorfW "failed to clone repository (" err ")"))
                          gitBranch lg)
          | None =>
              let '(policyYamls, listErr) := ListYamls fs gitPathToYamls in
              match listErr with
              | Some err =>
                  Returned (LoopReturn
                              (loadFailed skipInvalidPolicies
                                 (ErrorfW
                                    "failed to list YAMLs in repository ("
                                    err ")"))
                              gitBranch lg)
              | None =>
                  r <- loadYamls fs policyYamls acc lg ;;
                  let '(acc, lg) := r in
                  let lg := logEmptyNamespace (policies acc) lg in
                  Returned (LoopContinue gitBranch acc lg)
              end
          end
    end
  else
    let '(loaderResults, err) := Load None "" path in
    let lg := logNonFatal loaderResults lg in
    match err with
    | Some err =>
        let lg :=
          (lg ++ [LogV3Info "skipping invalid YAML file"
                    ["path"; path; "error"; Error_text err]])%list in
        let lg := logEmptyNamespace (policies acc) lg in
        Returned (LoopContinue gitBranch acc lg)
    | None =>
        acc <- appendLoaded acc loaderResults ;;
        let lg := logEmptyNamespace (policies acc) lg in
        Returned (LoopContinue gitBranch acc lg)
    end.

(** [for _, path := range c.PolicyPaths], followed by the final [return].
    The result carries the final value of [c.GitBranch] and the log. *)
Fixpoint loadPaths (skipInvalidPolicies : SkippedInvalidPolicies)
    (paths : list string) (gitBranch : string) (acc : Loaded)
    (lg : list LogEntry) : outcome (LoadResult * string * list LogEntry) :=
  match paths with
  | [] =>
      Returned ({| l_rc := None; l_resources := [];
                   l_skipInvalidPolicies := skipInvalidPolicies;
                   l_responses := [];
                   l_policies := policies acc; l_vaps := vaps acc;
                   l_vapBindings := vapBindings acc; l_err := None |},
                gitBranch, lg)
  | path :: paths' =>
      step <- loadPath skipInvalidPolicies path gitBranch acc lg ;;
      match step with
      | LoopContinue gitBranch acc lg =>
          loadPaths skipInvalidPolicies paths' gitBranch acc lg
      | LoopReturn result gitBranch lg => Returned (result, gitBranch, lg)
      end
  end.

(** [func (c *ApplyCommandConfig) loadPolicies(skipInvalidPolicies)] *)
Definition loadPolicies (c : ApplyCommandConfig)
    (skipInvalidPolicies : SkippedInvalidPolicies) (lg : list LogEntry)
    : outcome (LoadResult * string * list LogEntry) :=
  loadPaths skipInvalidPolicies (PolicyPaths c) (GitBranch c)
    {| policies := []; vaps := []; vapBindings := [] |} lg.

(** A result of [loadPolicies] without the log. *)
Definition withoutLog
    (r : outcome (LoadResult * string * list LogEntry))
  : outcome (LoadResult * string) :=
  match r with
  | Returned (result, gitBranch, _) => Returned (result, gitBranch)
  | Panicked msg => Panicked msg
  end.

End Loading.

Arguments Policies {VAP VAPBinding} _.
Arguments VAPs {VAP VAPBinding} _.
Arguments VAPBindings {VAP VAPBinding} _.
Arguments NonFatalErrors {VAP VAPBinding} _.
Arguments mkLoaderResults {VAP VAPBinding} _ _ _ _.
Arguments mkLoaded {VAP VAPBinding} _ _ _.
Arguments policies {VAP VAPBinding} _.
Arguments vaps {VAP VAPBinding} _.
Arguments vapBindings {VAP VAPBinding} _.
Arguments l_policies {VAP VAPBinding} _.
Arguments l_vaps {VAP VAPBinding} _.
Arguments l_vapBindings {VAP VAPBinding} _.
Arguments l_err {VAP VAPBinding} _.
Arguments l_rc {VAP VAPBinding} _.
Arguments l_resources {VAP VAPBinding} _.
Arguments l_responses {VAP VAPBinding} _.
Arguments l_skipInvalidPolicies {VAP VAPBinding} _.
Arguments withoutLog {VAP VAPBinding} r.
Arguments LoopContinue {VAP VAPBinding} _ _ _.
Arguments LoopReturn {VAP VAPBinding} _ _ _.
Arguments appendLoaded {VAP VAPBinding} acc loaderResults.
Arguments logNonFatal {VAP VAPBinding} loaderResults lg.
Arguments loadFailed {VAP VAPBinding} skipInvalidPolicies err.
Arguments loadYamls {FS VAP VAPBinding} Load fs policyYamls acc lg.
Arguments loadPath {URL FS VAP VAPBinding} IsGit url_Parse URL_Path
  URL_setPath URL_String GetGitBranchOrPolicyPaths memfs_New Clone ListYamls
  Load skipInvalidPolicies path gitBranch acc lg.
Arguments loadPaths {URL FS VAP VAPBinding} IsGit url_Parse URL_Path
  URL_setPath URL_String GetGitBranchOrPolicyPaths memfs_New Clone ListYamls
  Load skipInvalidPolicies paths gitBranch acc lg.
Arguments loadPolicies {URL FS VAP VAPBinding} IsGit url_Parse URL_Path
  URL_setPath URL_String GetGitBranchOrPolicyPaths memfs_New Clone ListYamls
  Load c skipInvalidPolicies lg.

(** *** What a local policy path contributes *)

Section LocalPaths.

Variables FS VAP VAPBinding : Type.
Variable Load :
  ptr FS -> string -> string -> ptr (LoaderResults VAP VAPBinding) * option error.

(** The policies, admission policies and bindings of the file at a local
    path: those that [policy.Load] returns, none when it returns an
    error. *)
Definition local_policies (path : string) : list PolicyInterface :=
  match Load None "" path with
  | (Some lr, None) => Policies lr
  | _ => []
  end.

Definition local_vaps (path : string) : list VAP :=
  match Load None "" path with
  | (Some lr, None) => VAPs lr
  | _ => []
  end.

Definition local_bindings (path : string) : list VAPBinding :=
  match Load None "" path with
  | (Some lr, None) => VAPBindings lr
  | _ => []
  end.

End LocalPaths.

Arguments local_policies {FS VAP VAPBinding} Load path.
Arguments local_vaps {FS VAP VAPBinding} Load path.
Arguments local_bindings {FS VAP VAPBinding} Load path.

(** ** [applyValidatingAdmissionPolicytoResource] *)

Section VAPProcessing.

Variables Client NamespaceSelectorMap VAP VAPBinding World : Type.

(** The fields that [applyValidatingAdmissionPolicytoResource] gives a
    [processor.ValidatingAdmissionPolicyProcessor].  Its field [Rc] is the
    pointer [rc] of the caller: the counts are threaded through the call. *)
Record ValidatingAdmissionPolicyProcessor : Type := mkVAPProcessor {
  VP_Policies : list VAP;
  VP_Bindings : list VAPBinding;
  VP_Resource : Unstructured;
  VP_NamespaceSelectorMap : NamespaceSelectorMap;
  VP_PolicyReport : bool;
  VP_Client : Client
}.

(** [processor.ValidatingAdmissionPolicyProcessor.ApplyPolicyOnResource],
    declared in package [processor] and assumed to return. *)
Variable ApplyPolicyOnResource :
  ValidatingAdmissionPolicyProcessor -> ResultCounts -> State World ->
  (list EngineResponse * option error) * ResultCounts * State World.

(** The loop [for _, resource := range resources], entered with the
    responses gathered and the lines printed on standard output so far.  The
    error of the result is set when the loop returned from the function. *)
Fixpoint applyVAPResources (c : ApplyCommandConfig) (vaps : list VAP)
    (vapBindings : list VAPBinding)
    (namespaceSelectorMap : NamespaceSelectorMap) (dClient : Client)
    (resources : list Unstructured) (rc : ResultCounts)
    (responses : list EngineResponse) (stdout : list string)
    (st : State World)
    : (list EngineResponse * option error) * ResultCounts * list string
      * State World :=
  match resources with
  | [] => ((responses, None), rc, stdout, st)
  | resource :: resources' =>
      let processor :=
        {| VP_Policies := vaps;
           VP_Bindings := vapBindings;
           VP_Resource := resource;
           VP_NamespaceSelectorMap := namespaceSelectorMap;
           VP_PolicyReport := PolicyReport c;
           VP_Client := dClient |} in
      let '(ers, err, rc, st) := ApplyPolicyOnResource processor rc st in
      match err with
      | Some err =>
          if ContinueOnFail c then
            let stdout :=
              (stdout ++ ["failed to apply policies on resource "
                          ++ GetName resource ++ " (" ++ Error_text err
                          ++ ")" ++ nl]%string)%list in
            applyVAPResources c vaps vapBindings namespaceSelectorMap dClient
              resources' rc responses stdout st
          else
            ((responses,
              Some (ErrorfW ("failed to apply policies on resource "
                             ++ GetName resource ++ " (") err ")")),
             rc, stdout, st)
      | None =>
          applyVAPResources c vaps vapBindings namespaceSelectorMap dClient
            resources' rc (responses ++ ers) stdout st
      end
  end.

(** [func (c *ApplyCommandConfig) applyValidatingAdmissionPolicytoResource]
    for a non-nil [rc].  The result holds the responses and the error, the
    counts that [rc] points to after the call, what the call prints on
    standard output, and the state. *)
Definition applyValidatingAdmissionPolicytoResource
    (c : ApplyCommandConfig) (vaps : list VAP)
    (vapBindings : list VAPBinding) (resources : list Unstructured)
    (namespaceSelectorMap : NamespaceSelectorMap) (rc : ResultCounts)
    (dClient : Client) (st : State World)
    : (list EngineResponse * option error) * ResultCounts * list string
      * State World :=
  applyVAPResources c vaps vapBindings namespaceSelectorMap dClient resources
    rc [] [] st.

(** The calls of the processor, observed as for [applyPolicytoResource]. *)
Definition VCall : Type :=
  ValidatingAdmissionPolicyProcessor * (list EngineResponse * option error).

Definition recordingVAP (p : ValidatingAdmissionPolicyProcessor)
    (rc : ResultCounts) (st : State (World * list VCall))
    : (list EngineResponse * option error) * ResultCounts
      * State (World * list VCall) :=
  let '(res, rc', st') :=
    ApplyPolicyOnResource p rc
      {| world := fst (world st); logs := logs st |} in
  (res, rc',
   {| world := (world st', (snd (world st) ++ [(p, res)])%list);
      logs := logs st' |}).

(** The line that a failed call prints when the loop goes on. *)
Definition failureLine (call : VCall) : list string :=
  match snd (snd call) with
  | Some err =>
      ["failed to apply policies on resource "
       ++ GetName (VP_Resource (fst call)) ++ " (" ++ Error_text err
       ++ ")" ++ nl]%string
  | None => []
  end.

(** The responses that a recorded call contributes to the result. *)
Definition returnedByVAP (call : VCall) : list EngineResponse :=
  match snd (snd call) with
  | Some _ => []
  | None => fst (snd call)
  end.

End VAPProcessing.

Arguments VP_Policies {Client NamespaceSelectorMap VAP VAPBinding} _.
Arguments VP_Bindings {Client NamespaceSelectorMap VAP VAPBinding} _.
Arguments VP_Resource {Client NamespaceSelectorMap VAP VAPBinding} _.
Arguments VP_NamespaceSelectorMap {Client NamespaceSelectorMap VAP VAPBinding} _.
Arguments VP_PolicyReport {Client NamespaceSelectorMap VAP VAPBinding} _.
Arguments VP_Client {Client NamespaceSelectorMap VAP VAPBinding} _.
Arguments mkVAPProcessor {Client NamespaceSelectorMap VAP VAPBinding} _ _ _ _ _ _.
Arguments applyVAPResources {Client NamespaceSelectorMap VAP VAPBinding World}
  ApplyPolicyOnResource c vaps vapBindings namespaceSelectorMap dClient
  resources rc responses stdout st.
Arguments applyValidatingAdmissionPolicytoResource
  {Client NamespaceSelectorMap VAP VAPBinding World} ApplyPolicyOnResource c
  vaps vapBindings resources namespaceSelectorMap rc dClient st.
Arguments recordingVAP {Client NamespaceSelectorMap VAP VAPBinding World}
  ApplyPolicyOnResource p rc st.
Arguments failureLine {Client NamespaceSelectorMap VAP VAPBinding} call.
Arguments returnedByVAP {Client NamespaceSelectorMap VAP VAPBinding} call.

(** ** [applyCommandHelper] and the functions it calls *)

Definition with_MutateLogPath (c : ApplyCommandConfig) (path : string)
  : ApplyCommandConfig :=
  {| KubeConfig := KubeConfig c; Context := Context c;
     Namespace := Namespace c; MutateLogPath := path;
     Variables := Variables c; ValuesFile := ValuesFile c;
     UserInfoPath := UserInfoPath c; Cluster := Cluster c;
     PolicyReport := PolicyReport c; Stdin := Stdin c;
     RegistryAccess := RegistryAccess c; AuditWarn := AuditWarn c;
     ResourcePaths := ResourcePaths c; PolicyPaths := PolicyPaths c;
     GitBranch := GitBranch c; warnExitCode := warnExitCode c;
     warnNoPassed := warnNoPassed c; Exception := Exception c;
     ContinueOnFail := ContinueOnFail c;
     inlineExceptions := inlineExceptions c;
     GenerateExceptions := GenerateExceptions c;
     GeneratedExceptionTTL := GeneratedExceptionTTL c |}.

Definition with_GitBranch (c : ApplyCommandConfig) (branch : string)
  : ApplyCommandConfig :=
  {| KubeConfig := KubeConfig c; Context := Context c;
     Namespace := Namespace c; MutateLogPath := MutateLogPath c;
     Variables := Variables c; ValuesFile := ValuesFile c;
     UserInfoPath := UserInfoPath c; Cluster := Cluster c;
     PolicyReport := PolicyReport c; Stdin := Stdin c;
     RegistryAccess := RegistryAccess c; AuditWarn := AuditWarn c;
     ResourcePaths := ResourcePaths c; PolicyPaths := PolicyPaths c;
     GitBranch := branch; warnExitCode := warnExitCode c;
     warnNoPassed := warnNoPassed c; Exception := Exception c;
     ContinueOnFail := ContinueOnFail c;
     inlineExceptions := inlineExceptions c;
     GenerateExceptions := GenerateExceptions c;
     GeneratedExceptionTTL := GeneratedExceptionTTL c |}.

(** [return nil, nil, skipInvalidPolicies, nil, err] *)
Definition helperReturn (skipInvalidPolicies : SkippedInvalidPolicies)
    (err : option error) : HelperResult :=
  {| res_rc := None; res_resources := [];
     res_skipInvalidPolicies := skipInvalidPolicies;
     res_responses := []; res_err := err |}.

Section Helper.

(** Types declared in other packages.  [DClient] stands for the
    implementations of [dclient.Interface], whose nil value is [None];
    [RestConfig], [KubeClient] and [DynamicClient] stand for the values,
    nil or not, that the client constructors return. *)
Variables VariablesT PolicyException RequestInfo DClient : Type.
Variables NamespaceSelectorMap Subresource World : Type.
Variables URL FS VAP VAPBinding : Type.
Variables UserInfo RestConfig KubeClient DynamicClient Rule : Type.

(** Collaborators declared in other files and packages; each is assumed to
    return.  Those that read or change files, the cluster or the store act
    on the world; what they write through [out] is part of the world too. *)
Variable checkMutateLogPath :
  string -> World -> (bool * option error) * World.
Variable filepath_Clean : string -> string.
(** [os.OpenFile(path, os.O_TRUNC|os.O_WRONLY, 0o600)], the file dropped *)
Variable os_OpenFile_trunc : string -> World -> option error * World.
(** [userinfo.Load(nil, path, "")] *)
Variable userinfo_Load :
  string -> World -> (ptr UserInfo * option error) * World.
Variable UserInfo_RequestInfo : UserInfo -> RequestInfo.
Variable CheckUserInfo : Writer -> string -> ptr UserInfo -> World -> World.
(** [variables.New(out, nil, "", valuesFile, nil, vars...)] *)
Variable variables_New :
  Writer -> string -> option (list string) -> World ->
  (ptr VariablesT * option error) * World.
(** [var store store.Store] and the setters of the store *)
Variable newStore : World -> World.
Variable Store_SetLocal : bool -> World -> World.
Variable Store_SetRegistryAccess : bool -> World -> World.
Variable Store_AllowApiCall : bool -> World -> World.
Variable CreateClientConfigWithContext :
  string -> string -> World -> (RestConfig * option error) * World.
Variable kubernetes_NewForConfig :
  RestConfig -> World -> (KubeClient * option error) * World.
Variable dynamic_NewForConfig :
  RestConfig -> World -> (DynamicClient * option error) * World.
(** [dclient.NewClient(context.Background(), dynamicClient, kubeClient,
    15*time.Minute)] *)
Variable dclient_NewClient :
  DynamicClient -> KubeClient -> World ->
  (option DClient * option error) * World.
Variable IsGit : string -> bool.
Variable url_Parse : string -> URL + error.
Variable URL_Path : URL -> string.
Variable URL_setPath : URL -> string -> URL.
Variable URL_String : URL -> string.
Variable GetGitBranchOrPolicyPaths :
  string -> string -> string -> string * string.
Variable memfs_New : FS.
Variable Clone : string -> FS -> string -> FS * option error.
Variable ListYamls : FS -> string -> list string * option error.
Variable Load :
  ptr FS -> string -> string -> ptr (LoaderResults VAP VAPBinding) * option error.
(** [common.GetResourceAccordingToResourcePath(out, nil, resourcePaths,
    cluster, policies, vap, dClient, namespace, policyReport, "")] *)
Variable GetResourceAccordingToResourcePath :
  Writer -> list string -> bool -> list PolicyInterface -> list VAP ->
  option DClient -> string -> bool -> World ->
  (list Unstructured * option error) * World.
Variable exception_SelectFrom : list Unstructured -> list PolicyException.
Variable exception_Load :
  list string -> World -> (list PolicyException * option error) * World.
(** [autogen.ComputeRules(policy, "")] *)
Variable ComputeRules : PolicyInterface -> list Rule.
Variable SetInStore : VariablesT -> World -> World.
Variable NamespaceSelectors : ptr VariablesT -> NamespaceSelectorMap.
Variable Subresources : ptr VariablesT -> list Subresource.
Variable Validate : PolicyInterface -> option error.
Variable ApplyPoliciesOnResource :
  PolicyProcessor VariablesT PolicyException RequestInfo (option DClient)
    NamespaceSelectorMap Subresource ->
  ResultCounts -> State World ->
  (list EngineResponse * option error) * ResultCounts * State World.
Variable ApplyPolicyOnResource :
  ValidatingAdmissionPolicyProcessor (option DClient) NamespaceSelectorMap
    VAP VAPBinding ->
  ResultCounts -> State World ->
  (list EngineResponse * option error) * ResultCounts * State World.

(** The state after a step on the world. *)
Definition setWorld (st : State World) (w : World) : State World :=
  {| world := w; logs := logs st |}.

(** [func (c *ApplyCommandConfig) getMutateLogPathIsDir(skipInvalidPolicies)],
    whose sixth result is [mutateLogPathIsDir]. *)
Definition getMutateLogPathIsDir (c : ApplyCommandConfig)
    (skipInvalidPolicies : SkippedInvalidPolicies) (st : State World)
    : HelperResult * bool * State World :=
  let '(mutateLogPathIsDir, err, w) :=
    checkMutateLogPath (MutateLogPath c) (world st) in
  let st := setWorld st w in
  match err with
  | Some err =>
      (helperReturn skipInvalidPolicies
         (Some (ErrorfW "failed to create file/folder (" err ")")),
       false, st)
  | None => (helperReturn skipInvalidPolicies None, mutateLogPathIsDir, st)
  end.

(** [func (c *ApplyCommandConfig) cleanPreviousContent(mutateLogPathIsDir,
    skipInvalidPolicies)]; the configuration after the call is returned
    too, since the call may assign [c.MutateLogPath]. *)
Definition cleanPreviousContent (c : ApplyCommandConfig)
    (mutateLogPathIsDir : bool)
    (skipInvalidPolicies : SkippedInvalidPolicies) (st : State World)
    : HelperResult * ApplyCommandConfig * State World :=
  if negb mutateLogPathIsDir && negb (String.eqb (MutateLogPath c) "") then
    let c := with_MutateLogPath c (filepath_Clean (MutateLogPath c)) in
    let '(err, w) := os_OpenFile_trunc (MutateLogPath c) (world st) in
    let st := setWorld st w in
    match err with
    | Some err =>
        (helperReturn skipInvalidPolicies
           (Some (ErrorfW ("failed to truncate the existing file at "
                           ++ MutateLogPath c ++ " (") err ")")),
         c, st)
    | None => (helperReturn skipInvalidPolicies None, c, st)
    end
  else (helperReturn skipInvalidPolicies None, c, st).

(** [func (c *ApplyCommandConfig) initStoreAndClusterClient(store,
    skipInvalidPolicies)], whose fifth result is the client. *)
Definition initStoreAndClusterClient (c : ApplyCommandConfig)
    (skipInvalidPolicies : SkippedInvalidPolicies) (st : State World)
    : HelperResult * option DClient * State World :=
  let w := Store_SetLocal true (world st) in
  let w := Store_SetRegistryAccess (RegistryAccess c) w in
  let w := if Cluster c then Store_AllowApiCall true w else w in
  if Cluster c then
    let '(restConfig, err, w) :=
      CreateClientConfigWithContext (KubeConfig c) (Context c) w in
    match err with
    | Some err => (helperReturn skipInvalidPolicies (Some err), None,
                   setWorld st w)
    | None =>
        let '(kubeClient, err, w) := kubernetes_NewForConfig restConfig w in
        match err with
        | Some err => (helperReturn skipInvalidPolicies (Some err), None,
                       setWorld st w)
        | None =>
            let '(dynamicClient, err, w) :=
              dynamic_NewForConfig restConfig w in
            match err with
            | Some err => (helperReturn skipInvalidPolicies (Some err), None,
                           setWorld st w)
            | None =>
                let '(dClient, err, w) :=
                  dclient_NewClient dynamicClient kubeClient w in
                match err with
                | Some err =>
                    (helperReturn skipInvalidPolicies (Some err), None,
                     setWorld st w)
                | None =>
                    (helperReturn skipInvalidPolicies None, dClient,
                     setWorld st w)
                end
            end
        end
    end
  else (helperReturn skipInvalidPolicies None, None, setWorld st w).

(** [func (c *ApplyCommandConfig) loadResources(out, policies, vap,
    dClient)] *)
Definition loadResources (c : ApplyCommandConfig) (out : Writer)
    (policies : list PolicyInterface) (vap : list VAP)
    (dClient : option DClient) (st : State World)
    : (list Unstructured * option error) * State World :=
  let '(resources, err, w) :=
    GetResourceAccordingToResourcePath out (ResourcePaths c) (Cluster c)
      policies vap dClient (Namespace c) (PolicyReport c) (world st) in
  match err with
  | Some err =>
      ((resources, Some (ErrorfW "failed to load resources (" err ")")),
       setWorld st w)
  | None => ((resources, None), setWorld st w)
  end.

(** The block [if c.UserInfoPath != ""]: the request info, or the result
    with which [applyCommandHelper] returns. *)
Definition loadUserInfo (c : ApplyCommandConfig) (out : Writer)
    (skipInvalidPolicies : SkippedInvalidPolicies) (st : State World)
    : outcome ((ptr RequestInfo + HelperResult) * State World) :=
  if negb (String.eqb (UserInfoPath c) "") then
    let '(info, err, w) := userinfo_Load (UserInfoPath c) (world st) in
    match err with
    | Some err =>
        Returned
          (inr (helperReturn skipInvalidPolicies
                  (Some (ErrorfW "failed to load request info (" err ")"))),
           setWorld st w)
    | None =>
        let w := CheckUserInfo out (UserInfoPath c) info w in
        info' <- deref info ;;
        Returned (inl (Some (UserInfo_RequestInfo info')), setWorld st w)
    end
  else Returned (inl None, st).

(** [policyRulesCount], summed over the policies and the admission
    policies. *)
Definition policyRulesCount (policies : list PolicyInterface)
    (vaps : list VAP) : Z :=
  wrap_int
    (fold_left (fun n policy => wrap_int (n + len (ComputeRules policy)))
               policies 0
     + len vaps).

(** The block [if !c.Stdin && !c.PolicyReport && !c.GenerateExceptions]:
    what it writes to [out]. *)
Definition banner (c : ApplyCommandConfig) (policies : list PolicyInterface)
    (vaps : list VAP) (resources : list Unstructured)
    (exceptions : list PolicyException) : list string :=
  if negb (Stdin c) && negb (PolicyReport c) && negb (GenerateExceptions c)
  then
    if Z.gtb (len exceptions) 0 then
      [nl ++ "Applying " ++ itoa (policyRulesCount policies vaps)
       ++ " policy rule(s) to " ++ itoa (len resources)
       ++ " resource(s) with " ++ itoa (len exceptions)
       ++ " exception(s)..." ++ nl]%string
    else
      [nl ++ "Applying " ++ itoa (policyRulesCount policies vaps)
       ++ " policy rule(s) to " ++ itoa (len resources)
       ++ " resource(s)..." ++ nl]%string
  else [].

(** What a call of [applyCommandHelper] leaves besides the five values it
    returns: what the function itself writes to [out], what it prints on
    standard output, the configuration after the call and the state. *)
Record HelperRun : Type := mkHelperRun {
  h_result : HelperResult;
  h_out : list string;
  h_stdout : list string;
  h_config : ApplyCommandConfig;
  h_state : State World
}.

(** [func (c *ApplyCommandConfig) applyCommandHelper(out)] *)
Definition applyCommandHelper (c : ApplyCommandConfig) (out : Writer)
    (st : State World)
    : outcome HelperRun :=
  let res := checkArguments c in
  match res_err res with
  | Some _ => Returned (mkHelperRun res [] [] c st)
  | None =>
  let '(res, mutateLogPathIsDir, st) :=
    getMutateLogPathIsDir c (res_skipInvalidPolicies res) st in
  match res_err res with
  | Some _ => Returned (mkHelperRun res [] [] c st)
  | None =>
  let '(res, c, st) :=
    cleanPreviousContent c mutateLogPathIsDir (res_skipInvalidPolicies res)
      st in
  match res_err res with
  | Some _ => Returned (mkHelperRun res [] [] c st)
  | None =>
  let skipInvalidPolicies := res_skipInvalidPolicies res in
  r <- loadUserInfo c out skipInvalidPolicies st ;;
  match r with
  | (inr res, st) => Returned (mkHelperRun res [] [] c st)
  | (inl userInfo, st) =>
  let '(variables, err, w) :=
    variables_New out (ValuesFile c) (Variables c) (world st) in
  let st := setWorld st w in
  match err with
  | Some err =>
      Returned (mkHelperRun
                  (helperReturn skipInvalidPolicies
                     (Some (ErrorfW "failed to decode yaml (" err ")")))
                  [] [] c st)
  | None =>
  let st := setWorld st (newStore (world st)) in
  let '(res, dClient, st) :=
    initStoreAndClusterClient c skipInvalidPolicies st in
  match res_err res with
  | Some _ => Returned (mkHelperRun res [] [] c st)
  | None =>
  loaded <- loadPolicies IsGit url_Parse URL_Path URL_setPath URL_String
              GetGitBranchOrPolicyPaths memfs_New Clone ListYamls Load c
              (res_skipInvalidPolicies res) (logs st) ;;
  let '(lres, gitBranch, lg) := loaded in
  let c := with_GitBranch c gitBranch in
  let st := {| world := world st; logs := lg |} in
  let fromLoad (err : option error) :=
    {| res_rc := l_rc lres; res_resources := l_resources lres;
       res_skipInvalidPolicies := l_skipInvalidPolicies lres;
       res_responses := l_responses lres; res_err := err |} in
  match l_err lres with
  | Some err => Returned (mkHelperRun (fromLoad (Some err)) [] [] c st)
  | None =>
  let policies := l_policies lres in
  let vaps := l_vaps lres in
  let vapBindings := l_vapBindings lres in
  let skipInvalidPolicies := l_skipInvalidPolicies lres in
  let '(resources, err, st) := loadResources c out policies vaps dClient st in
  match err with
  | Some err => Returned (mkHelperRun (fromLoad (Some err)) [] [] c st)
  | None =>
  let '(exceptions, err, st) :=
    if inlineExceptions c then
      (exception_SelectFrom resources, None, st)
    else
      let '(exceptions, err, w) := exception_Load (Exception c) (world st) in
      (exceptions, err, setWorld st w) in
  match err with
  | Some err =>
      Returned (mkHelperRun
                  (fromLoad
                     (Some (Errorf ("Error: failed to load exceptions ("
                                    ++ Error_text err ++ ")"))))
                  [] [] c st)
  | None =>
  let chunks := banner c policies vaps resources exceptions in
  let '(ares, skipInvalidPolicies, st) :=
    applyPolicytoResource SetInStore NamespaceSelectors Subresources Validate
      ApplyPoliciesOnResource c (Writes out chunks) variables policies
      resources exceptions skipInvalidPolicies dClient userInfo
      mutateLogPathIsDir st in
  match a_err ares with
  | Some err =>
      Returned (mkHelperRun
                  {| res_rc := Some (a_rc ares);
                     res_resources := a_resources ares;
                     res_skipInvalidPolicies := skipInvalidPolicies;
                     res_responses := a_responses ares;
                     res_err := Some err |} chunks [] c st)
  | None =>
  let '(responses2, err, rc, stdout, st) :=
    applyValidatingAdmissionPolicytoResource ApplyPolicyOnResource c vaps
      vapBindings (a_resources ares) (NamespaceSelectors variables)
      (a_rc ares) dClient st in
  match err with
  | Some err =>
      Returned (mkHelperRun
                  {| res_rc := Some rc;
                     res_resources := a_resources ares;
                     res_skipInvalidPolicies := skipInvalidPolicies;
                     res_responses := a_responses ares;
                     res_err := Some err |} chunks stdout c st)
  | None =>
      Returned (mkHelperRun
                  {| res_rc := Some rc;
                     res_resources := a_resources ares;
                     res_skipInvalidPolicies := skipInvalidPolicies;
                     res_responses := a_responses ares ++ responses2;
                     res_err := None |} chunks stdout c st)
  end end end end end end end end end end end.

End Helper.

Arguments setWorld {World} _ _.
Arguments getMutateLogPathIsDir {World} _ _ _ _.
Arguments cleanPreviousContent {World} _ _ _ _ _ _.
Arguments initStoreAndClusterClient
  {DClient World RestConfig KubeClient DynamicClient} _ _ _ _ _ _ _ _ _ _.
Arguments loadResources {DClient World VAP} _ _ _ _ _ _ _.
Arguments loadUserInfo {RequestInfo World UserInfo} _ _ _ _ _ _ _.
Arguments policyRulesCount {VAP Rule} _ _ _.
Arguments banner {PolicyException VAP Rule} _ _ _ _ _ _.
Arguments mkHelperRun {World} _ _ _ _ _.
Arguments h_result {World} _.
Arguments h_out {World} _.
Arguments h_stdout {World} _.
Arguments h_config {World} _.
Arguments h_state {World} _.
Arguments applyCommandHelper
  {VariablesT PolicyException RequestInfo DClient NamespaceSelectorMap
   Subresource World URL FS VAP VAPBinding UserInfo RestConfig KubeClient
   DynamicClient Rule}
  _ _ _ _ _ _ _ _ _ _ _ _ _ _ _ _ _ _ _ _ _ _ _ _ _ _ _ _ _ _ _ _ _ _ _ _ _
  _.

End Apply.

(* ================================================================== *)
(** * Sample data                                                      *)
(* ================================================================== *)

Module Sample.
Import GoRt.
Import Apply.

Definition rule_fail : RuleResponse :=
  mkRuleResponse "check-replicas" Validation "replicas must not exceed 5"
                 RuleStatusFail.
Definition rule_error : RuleResponse :=
  mkRuleResponse "add-label" Mutation "malformed patch" RuleStatusError.
Definition rule_skip : RuleResponse :=
  mkRuleResponse "add-team" Mutation "precondition not met" RuleStatusSkip.

Definition deployment : Unstructured :=
  mkUnstructured "Deployment" "default" "web" "replicas: 10".
Definition configmap : Unstructured :=
  mkUnstructured "ConfigMap" "default" "settings" "data: {}".

Definition limits : PolicyInterface :=
  mkPolicy "ClusterPolicy" "" "limits" "validate replicas".
Definition broken : PolicyInterface :=
  mkPolicy "ClusterPolicy" "" "broken" "no rules".

Definition response : EngineResponse :=
  mkEngineResponse deployment
    (mkPolicyResponse [rule_fail; rule_error; rule_skip]) limits ActionAudit.

(** The flags at their defaults, with one policy path and one resource
    path. *)
Definition config : ApplyCommandConfig :=
  {| KubeConfig := ""; Context := ""; Namespace := ""; MutateLogPath := "";
     Variables := None; ValuesFile := ""; UserInfoPath := "";
     Cluster := false; PolicyReport := false; Stdin := false;
     RegistryAccess := false; AuditWarn := false;
     ResourcePaths := ["deployment.yaml"]; PolicyPaths := ["limits.yaml"];
     GitBranch := ""; warnExitCode := 0; warnNoPassed := false;
     Exception := []; ContinueOnFail := false; inlineExceptions := false;
     GenerateExceptions := false; GeneratedExceptionTTL := 2592000000000000 |}.

(** The same with [--audit-warn]. *)
Definition config_audit_warn : ApplyCommandConfig :=
  {| KubeConfig := ""; Context := ""; Namespace := ""; MutateLogPath := "";
     Variables := None; ValuesFile := ""; UserInfoPath := "";
     Cluster := false; PolicyReport := false; Stdin := false;
     RegistryAccess := false; AuditWarn := true;
     ResourcePaths := ["deployment.yaml"]; PolicyPaths := ["limits.yaml"];
     GitBranch := ""; warnExitCode := 0; warnNoPassed := false;
     Exception := []; ContinueOnFail := false; inlineExceptions := false;
     GenerateExceptions := false; GeneratedExceptionTTL := 2592000000000000 |}.

Definition stdout_writer : Writer := mkWriter [] "&{stdout}".

(** A helper run that ends with the one response above. *)
Definition helper (_ : ApplyCommandConfig) (_ : Writer)
  : HelperResult * list string :=
  ({| res_rc := Some {| Pass := 0; Fail := 1; Warn := 0; Error := 1;
                        Skip := 1 |};
      res_resources := [deployment];
      res_skipInvalidPolicies := {| skipped := []; invalid := [] |};
      res_responses := [response];
      res_err := None |},
   [nl ++ "Applying 3 policy rule(s) to 1 resource(s)..." ++ nl]%string).


(** A validation that rejects the policy named "broken". *)
Definition validate (pol : PolicyInterface) : option error :=
  if String.eqb (p_name pol) "broken"
  then Some (Errorf "spec.rules: Required value")
  else None.

Definition Processor : Type := PolicyProcessor unit unit unit unit unit unit.

Definition respond (resource : Unstructured) (pol : PolicyInterface)
  : EngineResponse :=
  mkEngineResponse resource (mkPolicyResponse [rule_fail]) pol ActionAudit.

(** A processor that fails on config maps and otherwise reports one failed
    rule for each policy. *)
Definition processor (p : Processor) (rc : ResultCounts) (st : State unit)
  : (list EngineResponse * option error) * ResultCounts * State unit :=
  if String.eqb (u_kind (PP_Resource p)) "ConfigMap" then
    (([], Some (Errorf "no rule matches kind ConfigMap")), rc, st)
  else
    ((map (respond (PP_Resource p)) (PP_Policies p), None),
     {| Pass := Pass rc;
        Fail := wrap_int (Fail rc + len (PP_Policies p));
        Warn := Warn rc; Error := Error rc; Skip := Skip rc |},
     st).

Definition setInStore (_ : unit) (w : unit) : unit := w.
Definition namespaceSelectors (_ : ptr unit) : unit := tt.
Definition subresources (_ : ptr unit) : list unit := [].

(** The same flags with [--continue-on-fail]. *)
Definition config_continue : ApplyCommandConfig :=
  {| KubeConfig := ""; Context := ""; Namespace := ""; MutateLogPath := "";
     Variables := None; ValuesFile := ""; UserInfoPath := "";
     Cluster := false; PolicyReport := false; Stdin := false;
     RegistryAccess := false; AuditWarn := false;
     ResourcePaths := ["deployment.yaml"]; PolicyPaths := ["limits.yaml"];
     GitBranch := ""; warnExitCode := 0; warnNoPassed := false;
     Exception := []; ContinueOnFail := true; inlineExceptions := false;
     GenerateExceptions := false; GeneratedExceptionTTL := 2592000000000000 |}.

Definition no_skips : SkippedInvalidPolicies :=
  {| skipped := []; invalid := [] |}.

Definition start : State unit := {| world := tt; logs := [] |}.

Definition recording_start : State (unit * list (Call unit unit unit unit unit unit)) :=
  {| world := (tt, []); logs := [] |}.

(** Loading from local files, of which "broken.yaml" does not parse. *)
Definition isGit (path : string) : bool := String.prefix "https://" path.
Definition parseURL (path : string) : string + error := inl path.
Definition urlPath (u : string) : string := u.
Definition urlSetPath (_ : string) (path : string) : string := path.
Definition urlString (u : string) : string := u.
Definition gitBranchOrPaths (branch _ path : string) : string * string :=
  (branch, path).
Definition emptyFS : list string := [].
Definition clone (_ : string) (fs : list string) (_ : string)
  : list string * option error := (fs, None).
Definition listYamls (fs : list string) (_ : string)
  : list string * option error := (fs, None).
Definition load (_ : ptr (list string)) (_ : string) (path : string)
  : ptr (LoaderResults unit unit) * option error :=
  if String.eqb path "broken.yaml" then
    (None, Some (Errorf "yaml: line 2: mapping values are not allowed"))
  else if String.eqb path "limits.yaml" then
    (Some (mkLoaderResults [limits] [] [] []), None)
  else
    (Some (mkLoaderResults [broken] [] [] []), None).

(** Git sources: a URL is a host and a path. *)
Definition GitURL : Type := (string * string)%type.
Definition parseGitURL (path : string) : GitURL + error :=
  if String.eqb path "https://github.com" then
    inl ("https://github.com", "")
  else if String.eqb path "https://github.com/kyverno" then
    inl ("https://github.com", "/kyverno")
  else
    inl ("https://github.com", "/kyverno/policies/main/pod-security").
Definition gitURLPath (u : GitURL) : string := snd u.
Definition gitURLSetPath (u : GitURL) (path : string) : GitURL :=
  (fst u, path).
Definition gitURLString (u : GitURL) : string := fst u ++ "/" ++ snd u.
Definition cloneFails (_ : string) (fs : list string) (_ : string)
  : list string * option error :=
  (fs, Some (Errorf "repository not found")).

(** Collaborators of [applyCommandHelper] that touch nothing: the mutate
    log is a file, the user info and the values load, and the resource
    paths name a deployment, or a config map when they are not
    "deployment.yaml". *)
Definition checkLogPath (_ : string) (w : unit)
  : (bool * option error) * unit := ((false, None), w).
Definition cleanPath (path : string) : string := path.
Definition truncate (_ : string) (w : unit) : option error * unit :=
  (None, w).
Definition loadUser (_ : string) (w : unit)
  : (ptr unit * option error) * unit := ((Some tt, None), w).
Definition requestInfo (_ : unit) : unit := tt.
Definition checkUserInfo (_ : Writer) (_ : string) (_ : ptr unit) (w : unit)
  : unit := w.
Definition newVariables (_ : Writer) (_ : string)
    (_ : option (list string)) (w : unit)
  : (ptr unit * option error) * unit := ((Some tt, None), w).
Definition freshStore (w : unit) : unit := w.
Definition setFlag (_ : bool) (w : unit) : unit := w.
Definition clientConfig (_ _ : string) (w : unit)
  : (unit * option error) * unit := ((tt, None), w).
Definition newForConfig (_ : unit) (w : unit)
  : (unit * option error) * unit := ((tt, None), w).
Definition newClient (_ _ : unit) (w : unit)
  : (option unit * option error) * unit := ((Some tt, None), w).
Definition resourceAt (path : string) : Unstructured :=
  if String.eqb path "deployment.yaml" then deployment else configmap.
Definition getResources (_ : Writer) (paths : list string) (_ : bool)
    (_ : list PolicyInterface) (_ : list unit) (_ : option unit)
    (_ : string) (_ : bool) (w : unit)
  : (list Unstructured * option error) * unit :=
  ((map resourceAt paths, None), w).
Definition selectExceptions (_ : list Unstructured) : list unit := [].
Definition loadExceptions (paths : list string) (w : unit)
  : (list unit * option error) * unit := ((map (fun _ => tt) paths, None), w).
Definition computeRules (_ : PolicyInterface) : list unit := [tt; tt].

Definition HelperProcessor : Type :=
  PolicyProcessor unit unit unit (option unit) unit unit.

Definition helperProcessor (p : HelperProcessor) (rc : ResultCounts)
    (st : State unit)
  : (list EngineResponse * option error) * ResultCounts * State unit :=
  if String.eqb (u_kind (PP_Resource p)) "ConfigMap" then
    (([], Some (Errorf "no rule matches kind ConfigMap")), rc, st)
  else
    ((map (respond (PP_Resource p)) (PP_Policies p), None),
     {| Pass := Pass rc;
        Fail := wrap_int (Fail rc + len (PP_Policies p));
        Warn := Warn rc; Error := Error rc; Skip := Skip rc |},
     st).

(** An admission policy processor that fails on config maps and otherwise
    returns nothing. *)
Definition vapProcessor
    (p : ValidatingAdmissionPolicyProcessor (option unit) unit unit unit)
    (rc : ResultCounts) (st : State unit)
  : (list EngineResponse * option error) * ResultCounts * State unit :=
  if String.eqb (u_kind (VP_Resource p)) "ConfigMap" then
    (([], Some (Errorf "no binding matches kind ConfigMap")), rc, st)
  else (([], None), rc, st).

Definition applyHelper (c : ApplyCommandConfig) (out : Writer)
    (st : State unit) : outcome (HelperRun unit) :=
  applyCommandHelper checkLogPath cleanPath truncate loadUser requestInfo
    checkUserInfo newVariables freshStore setFlag setFlag setFlag
    clientConfig newForConfig newForConfig newClient isGit parseURL urlPath
    urlSetPath urlString gitBranchOrPaths emptyFS clone listYamls load
    getResources selectExceptions loadExceptions computeRules setInStore
    namespaceSelectors subresources validate helperProcessor vapProcessor c
    out st.

(** Two policy files, of which the second holds the policy that validation
    rejects. *)
Definition config_two_policies : ApplyCommandConfig :=
  with_PolicyPaths config ["limits.yaml"; "other.yaml"].

(** The same with one file of policy exceptions. *)
Definition config_with_exception : ApplyCommandConfig :=
  {| KubeConfig := ""; Context := ""; Namespace := ""; MutateLogPath := "";
     Variables := None; ValuesFile := ""; UserInfoPath := "";
     Cluster := false; PolicyReport := false; Stdin := false;
     RegistryAccess := false; AuditWarn := false;
     ResourcePaths := ["deployment.yaml"];
     PolicyPaths := ["limits.yaml"; "other.yaml"];
     GitBranch := ""; warnExitCode := 0; warnNoPassed := false;
     Exception := ["exception.yaml"]; ContinueOnFail := false;
     inlineExceptions := false;
     GenerateExceptions := false; GeneratedExceptionTTL := 2592000000000000 |}.

Definition VAPCalls : Type := list (VCall (option unit) unit unit unit).

(** A world that holds the store, as the values set in it, and the number
    of requests made to the cluster. *)
Definition StoreWorld : Type := (list string * Z)%type.

Definition fillStore (_ : unit) (w : StoreWorld) : StoreWorld :=
  (["values.yaml"], snd w).

(** A processor that reads the store and makes a request to the cluster:
    with an empty store it fails, otherwise it reports one failed rule for
    each policy. *)
Definition storeProcessor (p : Processor) (rc : ResultCounts)
    (st : State StoreWorld)
  : (list EngineResponse * option error) * ResultCounts * State StoreWorld :=
  let st' := {| world := (fst (world st), snd (world st) + 1);
                logs := logs st |} in
  match fst (world st) with
  | [] => (([], Some (Errorf "no values in the store")), rc, st')
  | _ :: _ =>
      ((map (respond (PP_Resource p)) (PP_Policies p), None),
       {| Pass := Pass rc;
          Fail := wrap_int (Fail rc + len (PP_Policies p));
          Warn := Warn rc; Error := Error rc; Skip := Skip rc |},
       st')
  end.

(** Two worlds agree on what the processor reads: the store. *)
Definition sameStore (w1 w2 : StoreWorld) : Prop := fst w1 = fst w2.

Definition store_start : State StoreWorld :=
  {| world := ([], 0); logs := [] |}.

Definition recording_vap_start : State (unit * VAPCalls) :=
  {| world := (tt, []); logs := [] |}.

End Sample.

(* ================================================================== *)
(** * Properties                                                       *)
(* ================================================================== *)

Import GoRt.
Import Apply.

(** ** The resource-spec types *)

(** C8: [String] joins APIVersion, Kind, Namespace and Name with "/" in that
    order, a spec whose fields are all empty prints as "///", and each getter
    returns the field it is named after. *)
Theorem ResourceSpec_String_getters (s : V1.ResourceSpec) :
  V1.ResourceSpec_String s
    = (V1.APIVersion s ++ "/" ++ V1.Kind s ++ "/" ++ V1.Namespace s
       ++ "/" ++ V1.Name s)%string
  /\ V1.ResourceSpec_String (V1.mkResourceSpec "" "" "" "" "") = "///"%string
  /\ V1.GetName s = V1.Name s
  /\ V1.GetNamespace s = V1.Namespace s
  /\ V1.GetKind s = V1.Kind s
  /\ V1.GetAPIVersion s = V1.APIVersion s
  /\ V1.GetUID s = V1.UID s.
Proof.
  repeat split.
Qed.

(** C9: on every target resource spec [GetAnyAllConditions] returns (it does
    not panic); the result is nil when [RawAnyAllConditions] is nil and the
    wrapped [Conditions] otherwise. *)
Theorem GetAnyAllConditions_total
    {LabelSelector ContextEntry DynValue : Type}
    (r : V1.TargetResourceSpec LabelSelector ContextEntry DynValue) :
  V1.GetAnyAllConditions (Some r)
    = Returned match V1.RawAnyAllConditions r with
               | None => None
               | Some w => V1.Conditions w
               end.
Proof.
  unfold V1.GetAnyAllConditions; cbn.
  destruct (V1.RawAnyAllConditions r) as [w|]; reflexivity.
Qed.

(** ** [exit] *)

(** C1, as the code has it: [exit] returns a non-nil error exactly under
    [exit_condition]; a positive Fail count, and failing that a positive
    Error count, decides the error whatever the Warn count is; and a
    warn-only run with [warnExitCode = 0] succeeds exactly when it does not
    also have [Pass = 0] with [warnNoPassed] set, in which case the error is
    a [WarnExitCodeError] with exit code 0. *)
Theorem exit_error_iff (out : Writer) (rc : ResultCounts) (warnExitCode : Z)
    (warnNoPassed : bool) :
  exists printed err,
    exit out (Some rc) warnExitCode warnNoPassed = Returned (printed, err)
    /\ (err <> None <-> exit_condition rc warnExitCode warnNoPassed)
    /\ (0 < Fail rc ->
        err = Some (Errorf "exit as there are policy violations"))
    /\ (Fail rc <= 0 -> 0 < Error rc ->
        err = Some (Errorf "exit as there are policy errors"))
    /\ (warn_only rc -> warnExitCode = 0 ->
        (err = None <-> ~ (Pass rc = 0 /\ warnNoPassed = true))
        /\ (Pass rc = 0 -> warnNoPassed = true ->
            err = Some (ErrWarnExitCode {| ExitCode := 0 |}))).
Proof.
  unfold exit, exit_condition, warn_only; cbn [deref bind].
  destruct (Z.gtb_spec (Fail rc) 0) as [Hf|Hf].
  { eexists _, _; split; [reflexivity|].
    repeat split; intros; try congruence; try lia; auto. }
  destruct (Z.gtb_spec (Error rc) 0) as [He|He].
  { eexists _, _; split; [reflexivity|].
    repeat split; intros; try congruence; try lia; auto. }
  destruct (Z.gtb_spec (Warn rc) 0) as [Hw|Hw];
    destruct (Z.eqb_spec warnExitCode 0) as [Hc|Hc]; cbn [andb negb];
    try (eexists _, _; split; [reflexivity|];
         repeat split; intros; try congruence; try lia; auto; fail);
    destruct (Z.eqb_spec (Pass rc) 0) as [Hp|Hp]; cbn [andb];
    try destruct warnNoPassed;
    eexists _, _; (split; [reflexivity|]);
    repeat split; intros; try congruence; try lia; auto;
    try (intros [? ?]; congruence);
    try (exfalso; intuition (try congruence; try lia)).
Qed.

(** C1 does not hold as worded: a run with one warning and nothing else,
    [warnExitCode = 0] and [warnNoPassed] set is warn-only, yet [exit]
    returns a non-nil [WarnExitCodeError]. *)
Lemma exit_warn_only_counterexample :
  let rc := {| Pass := 0; Fail := 0; Warn := 1; Error := 0; Skip := 0 |} in
  warn_only rc
  /\ exit (mkWriter [] "w") (Some rc) 0 true
     = Returned ([Sprintln ["w"; "exit as no objects satisfied policy"]],
                 Some (ErrWarnExitCode {| ExitCode := 0 |})).
Proof.
  cbv zeta; split.
  - unfold warn_only; cbn; lia.
  - reflexivity.
Qed.

(** C10: with no failures, no errors, no warning that triggers (no warnings,
    or [warnExitCode = 0]), nothing passed and [warnNoPassed] set, [exit]
    returns a [WarnExitCodeError] whose [ExitCode] is [warnExitCode], be it
    0. *)
Theorem exit_no_pass_uses_warnExitCode (out : Writer) (rc : ResultCounts)
    (warnExitCode : Z) :
  Fail rc = 0 -> Error rc = 0 -> (Warn rc = 0 \/ warnExitCode = 0) ->
  Pass rc = 0 ->
  exists printed,
    exit out (Some rc) warnExitCode true
    = Returned (printed,
                Some (ErrWarnExitCode {| ExitCode := warnExitCode |})).
Proof.
  intros Hf He Hw Hp.
  unfold exit; cbn [deref bind].
  rewrite Hf, He, Hp; cbn.
  destruct Hw as [Hw|Hw]; rewrite Hw.
  - cbn. eexists; reflexivity.
  - rewrite andb_false_r. eexists; reflexivity.
Qed.

Lemma exit_no_pass_uses_warnExitCode_witness :
  exists printed,
    exit (mkWriter [] "w") (Some zeroResultCounts) 0 true
    = Returned (printed, Some (ErrWarnExitCode {| ExitCode := 0 |})).
Proof.
  apply (exit_no_pass_uses_warnExitCode (mkWriter [] "w") zeroResultCounts 0);
    cbn; try reflexivity.
  left; reflexivity.
Defined.

(** ** [checkArguments] *)

Lemma len_zero_iff {A} (l : list A) : len l = 0 <-> l = [].
Proof.
  unfold len; destruct l; cbn; split; intros; try reflexivity;
    try discriminate; lia.
Qed.

Lemma len_nonneg {A} (l : list A) : 0 <= len l.
Proof. unfold len; lia. Qed.

Lemma first_is_iff (l : list string) (s : string) :
  first_is l s = true <-> hd_error l = Some s.
Proof.
  destruct l as [|x l]; cbn.
  - split; discriminate.
  - rewrite String.eqb_eq. split; congruence.
Qed.

(** C4: [checkArguments] returns an error exactly when a values file and
    set-variables are both given, or there is no policy path, or the first
    policy path and the first resource path are both "-", or there is no
    resource path and cluster mode is off; and when it returns no error the
    other four results are nil or empty. *)
Theorem checkArguments_error_iff (c : ApplyCommandConfig) :
  (res_err (checkArguments c) <> None <->
     (ValuesFile c <> ""%string /\ Variables c <> None)
     \/ PolicyPaths c = []
     \/ (hd_error (PolicyPaths c) = Some "-"%string
         /\ hd_error (ResourcePaths c) = Some "-"%string)
     \/ (ResourcePaths c = [] /\ Cluster c = false))
  /\ (res_err (checkArguments c) = None ->
      res_rc (checkArguments c) = None
      /\ res_resources (checkArguments c) = []
      /\ res_skipInvalidPolicies (checkArguments c)
         = {| skipped := []; invalid := [] |}
      /\ res_responses (checkArguments c) = []).
Proof.
  unfold checkArguments.
  pose proof (len_nonneg (PolicyPaths c)) as Hpn.
  pose proof (len_nonneg (ResourcePaths c)) as Hrn.
  destruct (String.eqb_spec (ValuesFile c) "") as [Hv|Hv];
    destruct (Variables c) as [vs|] eqn:Hvars; cbn [negb isNil andb].
  all: destruct (Z.eqb_spec (len (PolicyPaths c)) 0) as [Hp|Hp];
    rewrite len_zero_iff in Hp.
  all: destruct (first_is (PolicyPaths c) "-") eqn:Hpf;
    destruct (first_is (ResourcePaths c) "-") eqn:Hrf;
    destruct (Z.gtb_spec (len (PolicyPaths c)) 0) as [Hpl|Hpl];
    destruct (Z.gtb_spec (len (ResourcePaths c)) 0) as [Hrl|Hrl];
    destruct (Z.eqb_spec (len (ResourcePaths c)) 0) as [Hr0|Hr0];
    destruct (Cluster c) eqn:Hcl; cbn [andb negb];
    try lia.
  all: rewrite len_zero_iff in Hr0.
  all: try (apply first_is_iff in Hpf).
  all: try (apply first_is_iff in Hrf).
  all: try (assert (hd_error (PolicyPaths c) <> Some "-"%string)
              by (rewrite <- first_is_iff; congruence)).
  all: try (assert (hd_error (ResourcePaths c) <> Some "-"%string)
              by (rewrite <- first_is_iff; congruence)).
  all: cbn [res_err res_rc res_resources res_skipInvalidPolicies res_responses].
  all: try (assert (PolicyPaths c = []) by
              (destruct (PolicyPaths c); [reflexivity | cbn in Hpl; lia])).
  all: split; [ split; intros; try congruence | intros; try congruence; auto ].
  all: try tauto.
  all: try (intuition congruence).
  all: exfalso;
    match goal with
    | E : ?l = [], F : hd_error ?l = Some _ |- _ =>
        rewrite E in F; discriminate F
    end.
Qed.

(** ** What the default output mode prints *)

Lemma written_Fprintln (out : Writer) (operands : list string) :
  written (Fprintln out operands) = (written out ++ [Sprintln operands])%list.
Proof. reflexivity. Qed.

Lemma written_Writes (chunks : list string) (out : Writer) :
  written (Writes out chunks) = (written out ++ chunks)%list.
Proof.
  revert out; induction chunks as [|x chunks IH]; intros out; cbn.
  - now rewrite app_nil_r.
  - unfold Writes in IH. rewrite IH. cbn. now rewrite <- app_assoc.
Qed.

(** The failed rules collected do not depend on the writer. *)
Lemma scanRules_failed (rules : list RuleResponse) :
  forall out p r acc,
    snd (scanRules out p r rules acc)
    = (acc ++ filter (fun x => RuleStatus_eqb (RuleResponse_Status x)
                                 RuleStatusFail) rules)%list.
Proof.
  induction rules as [|rule rules IH]; intros out p r acc; cbn.
  - now rewrite app_nil_r.
  - rewrite IH.
    destruct (RuleStatus_eqb (RuleResponse_Status rule) RuleStatusFail).
    + now rewrite <- app_assoc.
    + reflexivity.
Qed.

Lemma RuleStatus_eqb_eq (a b : RuleStatus) :
  RuleStatus_eqb a b = true <-> a = b.
Proof. destruct a, b; cbn; split; intros; congruence. Qed.

Lemma RuleType_eqb_eq (a b : RuleType) :
  RuleType_eqb a b = true <-> a = b.
Proof. destruct a, b; cbn; split; intros; congruence. Qed.











Section CommandFacts.

Variable applyCommandHelper :
  ApplyCommandConfig -> Writer -> HelperResult * list string.
Variable printSkippedAndInvalidPolicies : SkippedInvalidPolicies -> list string.
Variable printReports : list EngineResponse -> bool -> list string.
Variable printExceptions : list EngineResponse -> bool -> Z -> list string.
Variable printTable : bool -> bool -> list EngineResponse -> list string.
Variable printViolations : ptr ResultCounts -> list string.

Let run := RunE applyCommandHelper printSkippedAndInvalidPolicies printReports
             printExceptions printTable printViolations.




End CommandFacts.





(** ** [applyPolicytoResource]: the validation loop *)

Lemma wrap_int_small (z : Z) : int_min <= z <= int_max -> wrap_int z = z.
Proof.
  unfold wrap_int, int_min, int_max. intros H.
  rewrite Z.mod_small; lia.
Qed.

Section ValidationFacts.

Variable World : Type.
Variable Validate : PolicyInterface -> option error.

Lemma validatePolicies_spec (policies : list PolicyInterface) :
  forall rc sk valid (st : State World),
    validatePolicies Validate policies rc sk valid st
    = (Nat.iter (List.length (filter (isRejected Validate) policies))
                (IncrementError 1) rc,
       {| skipped := skipped sk
                     ++ map GetName (filter (isListedSkipped Validate) policies);
          invalid := invalid sk
                     ++ map GetName (filter (isListedInvalid Validate) policies)
       |},
       (valid ++ filter (isValid Validate) policies)%list,
       {| world := world st;
          logs := logs st ++ flat_map (validationLog Validate) policies |}).
Proof.
  induction policies as [|pol policies IH]; intros rc sk valid st.
  - cbn. rewrite !app_nil_r. destruct sk, st; reflexivity.
  - cbn [validatePolicies].
    unfold isRejected, isListedSkipped, isListedInvalid, isValid,
      validationLog in *.
    cbn [filter flat_map]. destruct (Validate pol) as [err|]; cbn [isNil negb].
    + rewrite IH. cbn [List.length]. rewrite Nat.iter_succ_r.
      destruct (HasPrefix (Error_text err) "variable 'element.name'");
        cbn [negb skipped invalid map world logs log app];
        rewrite <- ?app_assoc; reflexivity.
    + rewrite IH. cbn [app]. rewrite <- app_assoc. reflexivity.
Qed.

(** The error counter after [k] rejected policies, counted from zero. *)
Lemma Error_after_rejections (k : nat) :
  Z.of_nat k <= int_max ->
  Error (Nat.iter k (IncrementError 1) zeroResultCounts) = Z.of_nat k
  /\ Pass (Nat.iter k (IncrementError 1) zeroResultCounts) = 0
  /\ Fail (Nat.iter k (IncrementError 1) zeroResultCounts) = 0
  /\ Warn (Nat.iter k (IncrementError 1) zeroResultCounts) = 0
  /\ Skip (Nat.iter k (IncrementError 1) zeroResultCounts) = 0.
Proof.
  induction k as [|k IH]; intros Hk.
  - cbn. repeat split.
  - destruct IH as (He & Hp & Hf & Hw & Hs); [lia|].
    rewrite !Nat.iter_succ. unfold IncrementError at 1 3 5 7 9.
    cbn [Error Pass Fail Warn Skip]. rewrite He.
    repeat split; try assumption.
    rewrite wrap_int_small; [lia|]. unfold int_min, int_max in *. lia.
Qed.


End ValidationFacts.

(** ** [applyPolicytoResource]: the resource loop *)

Section ResourceFacts.

Variables VariablesT PolicyException RequestInfo Client : Type.
Variables NamespaceSelectorMap Subresource World : Type.

Let Processor : Type :=
  PolicyProcessor VariablesT PolicyException RequestInfo Client
    NamespaceSelectorMap Subresource.

Variable SetInStore : VariablesT -> World -> World.
Variable NamespaceSelectors : ptr VariablesT -> NamespaceSelectorMap.
Variable Subresources : ptr VariablesT -> list Subresource.
Variable Validate : PolicyInterface -> option error.
Variable ApplyPoliciesOnResource :
  Processor -> ResultCounts -> State World ->
  (list EngineResponse * option error) * ResultCounts * State World.

Let P' := recording ApplyPoliciesOnResource.

(** The calls of the resource loop, in order, with what the loop makes of
    them. *)
Lemma applyResources_recorded (processorOf : Unstructured -> Processor)
    (continueOnFail : bool) (resources : list Unstructured) :
  forall rc responses st rc' responses' err' st',
    applyResources P' processorOf continueOnFail resources rc responses st
    = (rc', responses', err', st') ->
    exists calls,
      trace st' = (trace st ++ calls)%list
      /\ responses' = (responses ++ flat_map returnedResponses calls)%list
      /\ (err' = None -> map fst calls = map processorOf resources)
      /\ (continueOnFail = true -> err' = None)
      /\ (forall e, err' = Some e ->
          exists pre r post calls0 ers inner,
            resources = (pre ++ r :: post)%list
            /\ calls = (calls0 ++ [(processorOf r, (ers, Some inner))])%list
            /\ map fst calls0 = map processorOf pre
            /\ Forall (fun call => snd (snd call) = None) calls0
            /\ e = ErrorfW ("failed to apply policies on resource "
                            ++ GetName r ++ " (") inner ")")
      /\ (continueOnFail = false -> err' = None ->
          Forall (fun call => snd (snd call) = None) calls).
Proof.
  induction resources as [|r resources IH];
    intros rc responses st rc' responses' err' st' Hrun.
  - cbn in Hrun. inversion Hrun; subst. exists [].
    rewrite !app_nil_r.
    repeat split; try reflexivity; try discriminate. constructor.
  - cbn [applyResources] in Hrun. subst P'. unfold recording at 1 in Hrun.
    destruct (ApplyPoliciesOnResource (processorOf r) rc _)
      as [[[ers err] rc1] st1] eqn:HP.
    destruct err as [inner|].
    + destruct continueOnFail.
      * apply IH in Hrun.
        destruct Hrun as (calls & Ht & Hr & He & Hc & Hf & Hn).
        exists ((processorOf r, (ers, Some inner)) :: calls)%list.
        unfold trace in *. cbn [world log logs snd] in Ht.
        rewrite Ht, <- app_assoc. cbn [app flat_map returnedResponses snd fst].
        repeat split; try assumption; try discriminate.
        -- intros Hn'. cbn [map fst]. now rewrite (He Hn').
        -- intros e Hs. rewrite (Hc eq_refl) in Hs. discriminate.
      * inversion Hrun; subst.
        exists [(processorOf r, (ers, Some inner))].
        unfold trace. cbn [world snd flat_map returnedResponses fst app].
        rewrite app_nil_r. repeat split; try reflexivity; try discriminate.
        intros e He. inversion He; subst.
        exists [], r, resources, [], ers, inner. repeat split. constructor.
    + apply IH in Hrun.
      destruct Hrun as (calls & Ht & Hr & He & Hc & Hf & Hn).
      exists ((processorOf r, (ers, None)) :: calls)%list.
      unfold trace in *. cbn [world logs snd] in Ht.
      rewrite Ht, Hr, <- !app_assoc.
      cbn [app flat_map returnedResponses snd fst].
      split; [reflexivity|]. split; [reflexivity|].
      split; [|split; [exact Hc|split]].
      * intros Hn'. cbn [map fst]. now rewrite (He Hn').
      * intros e Hs.
        destruct (Hf e Hs) as (pre & r0 & post & calls0 & ers0 & inner & H1
                               & H2 & H3 & H4 & H5).
        exists (r :: pre)%list, r0, post,
          ((processorOf r, (ers, None)) :: calls0)%list, ers0, inner.
        subst. cbn [map fst app]. rewrite H3. repeat split.
        constructor; [reflexivity|assumption].
      * intros Hflag Hnone. constructor; [reflexivity|].
        exact (Hn Hflag Hnone).
Qed.

(** Recording the calls does not change what the loop computes. *)
Lemma applyResources_erase (processorOf : Unstructured -> Processor)
    (continueOnFail : bool) (resources : list Unstructured) :
  forall rc responses st rc' responses' err' st',
    applyResources P' processorOf continueOnFail resources rc responses st
    = (rc', responses', err', st') ->
    applyResources ApplyPoliciesOnResource processorOf continueOnFail
      resources rc responses (erase st)
    = (rc', responses', err', erase st').
Proof.
  induction resources as [|r resources IH];
    intros rc responses st rc' responses' err' st' Hrun.
  - cbn in *. inversion Hrun; subst. reflexivity.
  - cbn [applyResources] in *. subst P'. unfold recording at 1 in Hrun.
    change {| world := fst (world st); logs := logs st |} with (erase st)
      in Hrun.
    destruct (ApplyPoliciesOnResource (processorOf r) rc (erase st))
      as [[[ers err] rc1] st1] eqn:HP.
    destruct err as [inner|]; [destruct continueOnFail|].
    + apply IH in Hrun. exact Hrun.
    + inversion Hrun; subst. destruct st1; reflexivity.
    + apply IH in Hrun. unfold erase in Hrun at 1.
      cbn [world logs fst] in Hrun. destruct st1; exact Hrun.
Qed.

(** When what the processor returns and counts does not depend on the state
    it runs in, neither does what the loop returns and counts. *)
Lemma applyResources_state_independent
    (processorOf : Unstructured -> Processor) (continueOnFail : bool)
    (resources : list Unstructured) :
  (forall p rc st1 st2,
      fst (ApplyPoliciesOnResource p rc st1)
      = fst (ApplyPoliciesOnResource p rc st2)) ->
  forall rc responses st1 st2,
    fst (applyResources ApplyPoliciesOnResource processorOf continueOnFail
           resources rc responses st1)
    = fst (applyResources ApplyPoliciesOnResource processorOf continueOnFail
             resources rc responses st2).
Proof.
  intros Hind.
  induction resources as [|r resources IH]; intros rc responses st1 st2.
  - reflexivity.
  - cbn [applyResources].
    pose proof (Hind (processorOf r) rc st1 st2) as H.
    destruct (ApplyPoliciesOnResource (processorOf r) rc st1)
      as [[[ers err] rc1] s1].
    destruct (ApplyPoliciesOnResource (processorOf r) rc st2)
      as [[[ers2 err2] rc2] s2].
    cbn [fst] in H. inversion H; subst.
    destruct err2 as [inner|]; [destruct continueOnFail|].
    + apply IH.
    + reflexivity.
    + apply IH.
Qed.

End ResourceFacts.

(** ** [applyPolicytoResource] as a whole *)

Lemma warnNoNamespace_world {World : Type} (validPolicies : list PolicyInterface) :
  forall st : State World, world (warnNoNamespace validPolicies st) = world st.
Proof.
  induction validPolicies as [|pol ps IH]; intros st; cbn; [reflexivity|].
  rewrite IH. destruct (_ && _); reflexivity.
Qed.

Section ApplyUnfold.

Variables VariablesT PolicyException RequestInfo Client : Type.
Variables NamespaceSelectorMap Subresource World : Type.
Variable SetInStore : VariablesT -> World -> World.
Variable NamespaceSelectors : ptr VariablesT -> NamespaceSelectorMap.
Variable Subresources : ptr VariablesT -> list Subresource.
Variable Validate : PolicyInterface -> option error.
Variable ApplyPoliciesOnResource :
  PolicyProcessor VariablesT PolicyException RequestInfo Client
    NamespaceSelectorMap Subresource ->
  ResultCounts -> State World ->
  (list EngineResponse * option error) * ResultCounts * State World.

(** The function in terms of what the validation loop computes. *)
Lemma applyPolicytoResource_unfold (c : ApplyCommandConfig) (out : Writer)
    (vars : ptr VariablesT) (policies : list PolicyInterface)
    (resources : list Unstructured) (exceptions : list PolicyException)
    (sk : SkippedInvalidPolicies) (dClient : Client)
    (userInfo : ptr RequestInfo) (mutateLogPathIsDir : bool)
    (st : State World) :
  applyPolicytoResource SetInStore NamespaceSelectors Subresources Validate
    ApplyPoliciesOnResource c out vars policies resources exceptions sk
    dClient userInfo mutateLogPathIsDir st
  = let st0 :=
      match vars with
      | Some v => {| world := SetInStore v (world st); logs := logs st |}
      | None => st
      end in
    let validPolicies := filter (isValid Validate) policies in
    let sk' :=
      {| skipped := skipped sk
                    ++ map GetName (filter (isListedSkipped Validate) policies);
         invalid := invalid sk
                    ++ map GetName (filter (isListedInvalid Validate) policies)
      |} in
    let '(rc, responses, err, st2) :=
      applyResources ApplyPoliciesOnResource
        (processorFor NamespaceSelectors Subresources c out vars
           validPolicies exceptions dClient userInfo mutateLogPathIsDir)
        (ContinueOnFail c) resources
        (Nat.iter (List.length (filter (isRejected Validate) policies))
                  (IncrementError 1) zeroResultCounts)
        []
        {| world := world st0;
           logs := logs st0 ++ flat_map (validationLog Validate) policies |}
    in
    match err with
    | Some e =>
        ({| a_rc := rc; a_resources := resources; a_responses := responses;
            a_err := Some e |}, sk', st2)
    | None =>
        ({| a_rc := rc; a_resources := resources; a_responses := responses;
            a_err := None |}, sk', warnNoNamespace validPolicies st2)
    end.
Proof.
  unfold applyPolicytoResource. rewrite validatePolicies_spec.
  cbn [app]. reflexivity.
Qed.

End ApplyUnfold.

Section ApplyFacts.

Variables VariablesT PolicyException RequestInfo Client : Type.
Variables NamespaceSelectorMap Subresource World : Type.
Variable SetInStore : VariablesT -> World -> World.
Variable NamespaceSelectors : ptr VariablesT -> NamespaceSelectorMap.
Variable Subresources : ptr VariablesT -> list Subresource.
Variable Validate : PolicyInterface -> option error.
Variable ApplyPoliciesOnResource :
  PolicyProcessor VariablesT PolicyException RequestInfo Client
    NamespaceSelectorMap Subresource ->
  ResultCounts -> State World ->
  (list EngineResponse * option error) * ResultCounts * State World.

Let RState : Type :=
  State (World * list (Call VariablesT PolicyException RequestInfo Client
                         NamespaceSelectorMap Subresource)).

Lemma warnNoNamespace_erase (validPolicies : list PolicyInterface) :
  forall st : RState,
    erase (warnNoNamespace validPolicies st)
    = warnNoNamespace validPolicies (erase st).
Proof.
  induction validPolicies as [|pol ps IH]; intros st; cbn; [reflexivity|].
  rewrite IH. destruct (_ && _); reflexivity.
Qed.

(** A run that records the calls of the processor: it computes what the
    plain run computes, and its calls are those of the resource loop on the
    policies that passed validation. *)
Lemma applyPolicytoResource_recorded (c : ApplyCommandConfig) (out : Writer)
    (vars : ptr VariablesT) (policies : list PolicyInterface)
    (resources : list Unstructured) (exceptions : list PolicyException)
    (sk : SkippedInvalidPolicies) (dClient : Client)
    (userInfo : ptr RequestInfo) (mutateLogPathIsDir : bool)
    (st : RState) res sk' st' :
  applyPolicytoResource (recordingSetInStore SetInStore) NamespaceSelectors
    Subresources Validate (recording ApplyPoliciesOnResource) c out vars
    policies resources exceptions sk dClient userInfo mutateLogPathIsDir st
  = (res, sk', st') ->
  applyPolicytoResource SetInStore NamespaceSelectors Subresources Validate
    ApplyPoliciesOnResource c out vars policies resources exceptions sk
    dClient userInfo mutateLogPathIsDir (erase st)
  = (res, sk', erase st')
  /\ sk' = {| skipped := skipped sk
                ++ map GetName (filter (isListedSkipped Validate) policies);
              invalid := invalid sk
                ++ map GetName (filter (isListedInvalid Validate) policies) |}
  /\ a_resources res = resources
  /\ exists calls,
       trace st' = (trace st ++ calls)%list
       /\ a_responses res = flat_map returnedResponses calls
       /\ Forall (fun call => PP_Policies (fst call)
                              = filter (isValid Validate) policies) calls
       /\ (a_err res = None ->
           map (fun call => PP_Resource (fst call)) calls = resources)
       /\ (ContinueOnFail c = true -> a_err res = None)
       /\ (forall e, a_err res = Some e ->
           exists pre r post calls0 ers inner,
             resources = (pre ++ r :: post)%list
             /\ map (fun call => PP_Resource (fst call)) calls0 = pre
             /\ calls
                = (calls0
                   ++ [(processorFor NamespaceSelectors Subresources c out
                          vars (filter (isValid Validate) policies)
                          exceptions dClient userInfo mutateLogPathIsDir r,
                        (ers, Some inner))])%list
             /\ Forall (fun call => snd (snd call) = None) calls0
             /\ e = ErrorfW ("failed to apply policies on resource "
                             ++ GetName r ++ " (") inner ")")
       /\ (ContinueOnFail c = false -> a_err res = None ->
           Forall (fun call => snd (snd call) = None) calls).
Proof.
  rewrite !applyPolicytoResource_unfold. cbv zeta.
  set (proc := processorFor NamespaceSelectors Subresources c out vars
                 (filter (isValid Validate) policies) exceptions dClient
                 userInfo mutateLogPathIsDir).
  set (rc0 := Nat.iter _ _ _).
  set (st1 := {| world := world match vars with
                                | Some v => _
                                | None => st
                                end; logs := _ |}).
  destruct (applyResources (recording ApplyPoliciesOnResource) proc
              (ContinueOnFail c) resources rc0 [] st1)
    as [[[rc responses] err] st2] eqn:HR.
  pose proof HR as Herase. apply applyResources_erase in Herase.
  pose proof HR as Hrec. apply applyResources_recorded in Hrec.
  destruct Hrec as (calls & Ht & Hr & He & Hc & Hf & Hn).
  assert (Hst1 : erase st1
                 = {| world := world match vars with
                                     | Some v =>
                                         {| world := SetInStore v
                                                       (world (erase st));
                                            logs := logs (erase st) |}
                                     | None => erase st
                                     end;
                      logs := logs match vars with
                                   | Some v =>
                                       {| world := SetInStore v
                                                     (world (erase st));
                                          logs := logs (erase st) |}
                                   | None => erase st
                                   end
                              ++ flat_map (validationLog Validate) policies
                   |}).
  { subst st1. destruct vars; reflexivity. }
  rewrite <- Hst1, Herase.
  assert (Htr : trace st1 = trace st).
  { subst st1. destruct vars; reflexivity. }
  assert (Hmap : forall l : list Unstructured,
             map (fun call : Call VariablesT PolicyException RequestInfo
                               Client NamespaceSelectorMap Subresource =>
                    PP_Resource (fst call))
                 (map (fun r => (proc r, ([] : list EngineResponse,
                                          @None error))) l) = l).
  { induction l as [|x l IHl]; cbn; [reflexivity|]. now rewrite IHl. }
  assert (Hres : forall (cs : list (Call VariablesT PolicyException
                                      RequestInfo Client NamespaceSelectorMap
                                      Subresource)) rs,
             map fst cs = map proc rs ->
             map (fun call => PP_Resource (fst call)) cs = rs
             /\ Forall (fun call => PP_Policies (fst call)
                                    = filter (isValid Validate) policies) cs).
  { induction cs as [|x cs IHc]; intros [|r0 rs] Hm; cbn in Hm;
      try discriminate; [split; [reflexivity|constructor]|].
    inversion Hm as [[Hx Hrest]]. destruct (IHc rs Hrest) as [Ha Hb].
    split; [cbn; rewrite Hx, Ha; reflexivity|].
    constructor; [rewrite Hx; reflexivity|assumption]. }
  rewrite Htr in Ht. cbn [app] in Hr.
  intros Hrun.
  destruct err as [e|]; inversion Hrun as [[Hres' Hsk' Hst']];
    cbn [a_err a_responses a_resources].
  - split; [reflexivity|]. split; [reflexivity|]. split; [reflexivity|].
    destruct (Hf e eq_refl) as (pre & r & post & calls0 & ers & inner & H1
                                & H2 & H3 & H5 & H4).
    destruct (Hres calls0 pre H3) as [Hp0 Hv0].
    exists calls. rewrite <- Hst'. split; [exact Ht|]. split; [exact Hr|].
    split.
    { rewrite H2. apply Forall_app. split; [exact Hv0|].
      constructor; [reflexivity|constructor]. }
    split; [discriminate|]. split; [exact Hc|]. split; [|discriminate].
    intros e' He'. inversion He'; subst e'.
    exists pre, r, post, calls0, ers, inner. repeat split; assumption.
  - rewrite warnNoNamespace_erase.
    split; [reflexivity|]. split; [reflexivity|]. split; [reflexivity|].
    destruct (Hres calls resources (He eq_refl)) as [Hp0 Hv0].
    exists calls. unfold trace in *. rewrite warnNoNamespace_world.
    split; [exact Ht|]. split; [exact Hr|]. split; [exact Hv0|].
    split; [intros _; exact Hp0|]. split; [reflexivity|].
    split; [discriminate|]. intros Hflag _. exact (Hn Hflag eq_refl).
Qed.

(** When what the processor returns and counts does not depend on the state
    it runs in, the counts, responses and error of a run depend neither on
    the state nor on the skipped and invalid policies it starts with. *)
Lemma applyPolicytoResource_state_independent :
  (forall p rc st1 st2,
      fst (ApplyPoliciesOnResource p rc st1)
      = fst (ApplyPoliciesOnResource p rc st2)) ->
  forall c out vars policies resources exceptions sk1 sk2 dClient userInfo
         mutateLogPathIsDir (st1 st2 : State World),
    fst (fst (applyPolicytoResource SetInStore NamespaceSelectors Subresources
                Validate ApplyPoliciesOnResource c out vars policies
                resources exceptions sk1 dClient userInfo mutateLogPathIsDir
                st1))
    = fst (fst (applyPolicytoResource SetInStore NamespaceSelectors
                  Subresources Validate ApplyPoliciesOnResource c out vars
                  policies resources exceptions sk2 dClient userInfo
                  mutateLogPathIsDir st2)).
Proof.
  intros Hind c out vars policies resources exceptions sk1 sk2 dClient
    userInfo isDir st1 st2.
  rewrite !applyPolicytoResource_unfold. cbv zeta.
  match goal with
  | |- context [applyResources ?Q ?proc ?cof ?rs ?rc ?resp ?s1] =>
      match goal with
      | |- context [applyResources Q proc cof rs rc resp ?s2] =>
          lazymatch s1 with
          | s2 => fail
          | _ =>
              pose proof (applyResources_state_independent _ _ _ _ _ _ _ Q
                            proc cof rs Hind rc resp s1 s2) as H
          end
      end
  end.
  destruct (applyResources _ _ _ _ _ _ _) as [[[rc1 resp1] err1] s1'].
  destruct (applyResources _ _ _ _ _ _ _) as [[[rc2 resp2] err2] s2'].
  cbn [fst] in H. inversion H; subst.
  destruct err2; reflexivity.
Qed.

End ApplyFacts.

(** ** The counts of a run *)

Section CountsFacts.

Variables VariablesT PolicyException RequestInfo Client : Type.
Variables NamespaceSelectorMap Subresource World : Type.

Let Processor : Type :=
  PolicyProcessor VariablesT PolicyException RequestInfo Client
    NamespaceSelectorMap Subresource.

Variable SetInStore : VariablesT -> World -> World.
Variable NamespaceSelectors : ptr VariablesT -> NamespaceSelectorMap.
Variable Subresources : ptr VariablesT -> list Subresource.
Variable Validate : PolicyInterface -> option error.
Variable ApplyPoliciesOnResource :
  Processor -> ResultCounts -> State World ->
  (list EngineResponse * option error) * ResultCounts * State World.

(** The counts of the resource loop go from call to call, and observing
    them does not change what the loop computes. *)
Lemma applyResources_counted (processorOf : Unstructured -> Processor)
    (continueOnFail : bool) (resources : list Unstructured) :
  forall rc responses (st : State (World * list CountsSeen)) rc' responses'
         err' st',
    applyResources (counting ApplyPoliciesOnResource) processorOf
      continueOnFail resources rc responses st
    = (rc', responses', err', st') ->
    applyResources ApplyPoliciesOnResource processorOf continueOnFail
      resources rc responses (uncounted st)
    = (rc', responses', err', uncounted st')
    /\ exists seen,
         snd (world st') = (snd (world st) ++ seen)%list
         /\ threaded rc seen rc'
         /\ (err' = None -> List.length seen = List.length resources).
Proof.
  induction resources as [|r resources IH];
    intros rc responses st rc' responses' err' st' Hrun.
  - cbn in Hrun. inversion Hrun; subst. split; [reflexivity|].
    exists []. rewrite app_nil_r. repeat split.
  - cbn [applyResources] in *. unfold counting at 1 in Hrun.
    change {| world := fst (world st); logs := logs st |}
      with (uncounted st) in Hrun.
    destruct (ApplyPoliciesOnResource (processorOf r) rc (uncounted st))
      as [[[ers err] rc1] st1] eqn:HP.
    destruct err as [inner|]; [destruct continueOnFail|].
    + apply IH in Hrun. destruct Hrun as (Hplain & seen & Ht & Hth & Hlen).
      cbn [world logs log fst snd] in Ht.
      split; [destruct st1; exact Hplain|].
      exists ((rc, rc1) :: seen)%list. rewrite Ht, <- app_assoc.
      split; [reflexivity|]. split; [split; [reflexivity|exact Hth]|].
      intros Hn. cbn [List.length]. now rewrite (Hlen Hn).
    + inversion Hrun; subst. split; [destruct st1; reflexivity|].
      exists [(rc, rc')]. cbn [world snd].
      split; [reflexivity|]. split; [split; reflexivity|discriminate].
    + apply IH in Hrun. destruct Hrun as (Hplain & seen & Ht & Hth & Hlen).
      cbn [world logs fst snd] in Ht.
      split; [destruct st1; exact Hplain|].
      exists ((rc, rc1) :: seen)%list. rewrite Ht, <- app_assoc.
      split; [reflexivity|]. split; [split; [reflexivity|exact Hth]|].
      intros Hn. cbn [List.length]. now rewrite (Hlen Hn).
Qed.

Lemma warnNoNamespace_uncounted (validPolicies : list PolicyInterface) :
  forall st : State (World * list CountsSeen),
    uncounted (warnNoNamespace validPolicies st)
    = warnNoNamespace validPolicies (uncounted st).
Proof.
  induction validPolicies as [|pol ps IH]; intros st; cbn; [reflexivity|].
  rewrite IH. destruct (_ && _); reflexivity.
Qed.

Section Related.

(** [R] relates two worlds that agree on what the processor reads. *)
Variable R : World -> World -> Prop.
Hypothesis R_sym : forall w1 w2, R w1 w2 -> R w2 w1.
Hypothesis R_trans : forall w1 w2 w3, R w1 w2 -> R w2 w3 -> R w1 w3.
Hypothesis processor_keeps :
  forall p rc st, R (world st) (world (snd (ApplyPoliciesOnResource p rc st))).
Hypothesis processor_reads :
  forall p rc st1 st2,
    R (world st1) (world st2) ->
    fst (ApplyPoliciesOnResource p rc st1)
    = fst (ApplyPoliciesOnResource p rc st2).

Lemma applyResources_related (processorOf : Unstructured -> Processor)
    (continueOnFail : bool) (resources : list Unstructured) :
  forall rc responses st1 st2,
    R (world st1) (world st2) ->
    fst (applyResources ApplyPoliciesOnResource processorOf continueOnFail
           resources rc responses st1)
    = fst (applyResources ApplyPoliciesOnResource processorOf continueOnFail
             resources rc responses st2)
    /\ R (world st1)
         (world (snd (applyResources ApplyPoliciesOnResource processorOf
                        continueOnFail resources rc responses st1))).
Proof.
  induction resources as [|r resources IH]; intros rc responses st1 st2 HR.
  - cbn. split; [reflexivity|].
    apply (R_trans _ _ _ HR). apply R_sym. exact HR.
  - cbn [applyResources].
    pose proof (processor_reads (processorOf r) rc st1 st2 HR) as Hres.
    pose proof (processor_keeps (processorOf r) rc st1) as Hk1.
    pose proof (processor_keeps (processorOf r) rc st2) as Hk2.
    destruct (ApplyPoliciesOnResource (processorOf r) rc st1)
      as [[[ers err] rc1] s1].
    destruct (ApplyPoliciesOnResource (processorOf r) rc st2)
      as [[[ers2 err2] rc2] s2].
    cbn [fst snd] in *. inversion Hres; subst.
    assert (H12 : R (world s1) (world s2)).
    { apply (R_trans _ (world st1)); [apply R_sym; exact Hk1|].
      apply (R_trans _ (world st2)); [exact HR|exact Hk2]. }
    destruct err2 as [inner|]; [destruct continueOnFail|].
    + match goal with
      | |- context [applyResources _ _ _ _ _ _ (log ?e s1)] =>
          destruct (IH rc2 responses (log e s1) (log e s2) H12) as [Ha Hb]
      end.
      split; [exact Ha|]. apply (R_trans _ (world s1)); [exact Hk1|exact Hb].
    + split; [reflexivity|exact Hk1].
    + destruct (IH rc2 (responses ++ ers2)%list s1 s2 H12) as [Ha Hb].
      split; [exact Ha|]. apply (R_trans _ (world s1)); [exact Hk1|exact Hb].
Qed.

End Related.

End CountsFacts.

Section ApplyClaims.

Variables VariablesT PolicyException RequestInfo Client : Type.
Variables NamespaceSelectorMap Subresource World : Type.
Variable SetInStore : VariablesT -> World -> World.
Variable NamespaceSelectors : ptr VariablesT -> NamespaceSelectorMap.
Variable Subresources : ptr VariablesT -> list Subresource.
Variable Validate : PolicyInterface -> option error.
Variable ApplyPoliciesOnResource :
  PolicyProcessor VariablesT PolicyException RequestInfo Client
    NamespaceSelectorMap Subresource ->
  ResultCounts -> State World ->
  (list EngineResponse * option error) * ResultCounts * State World.

(** C2, as the code has it.  Take any run, with the calls of the processor
    recorded (which changes nothing else).  The responses returned are those
    of the calls that returned no error.  With [ContinueOnFail] set the run
    returns no error and every resource of the list has been handed to the
    processor, in order.  With [ContinueOnFail] unset, a call of the
    processor that returns an error ends the run: it is the last call, and
    the run returns the error "failed to apply policies on resource ..."
    that wraps that of the processor.  A run that returns no error has
    handed every resource to the processor.  A run that returns an error has
    [ContinueOnFail] unset: the processor returned no error on the resources
    before some resource [r] and an error on [r], which was its last call,
    so that the resources after [r] were not handed to it. *)
Theorem resource_error_continues_only_on_flag
    (c : ApplyCommandConfig) (out : Writer) (vars : ptr VariablesT)
    (policies : list PolicyInterface) (resources : list Unstructured)
    (exceptions : list PolicyException) (sk : SkippedInvalidPolicies)
    (dClient : Client) (userInfo : ptr RequestInfo)
    (mutateLogPathIsDir : bool)
    (st : State (World * list (Call VariablesT PolicyException RequestInfo
                                 Client NamespaceSelectorMap Subresource))) :
  let run :=
    applyPolicytoResource (recordingSetInStore SetInStore) NamespaceSelectors
      Subresources Validate (recording ApplyPoliciesOnResource) c out vars
      policies resources exceptions sk dClient userInfo mutateLogPathIsDir
      st in
  let res := fst (fst run) in
  fst (fst (applyPolicytoResource SetInStore NamespaceSelectors Subresources
              Validate ApplyPoliciesOnResource c out vars policies resources
              exceptions sk dClient userInfo mutateLogPathIsDir (erase st)))
  = res
  /\ exists calls,
       trace (snd run) = (trace st ++ calls)%list
       /\ a_responses res = flat_map returnedResponses calls
       /\ (ContinueOnFail c = true ->
           a_err res = None
           /\ map (fun call => PP_Resource (fst call)) calls = resources)
       /\ (ContinueOnFail c = false ->
           forall call inner,
             In call calls -> snd (snd call) = Some inner ->
             a_err res
             = Some (ErrorfW ("failed to apply policies on resource "
                              ++ GetName (PP_Resource (fst call)) ++ " (")
                       inner ")")
             /\ exists calls0, calls = (calls0 ++ [call])%list)
       /\ (a_err res = None ->
           map (fun call => PP_Resource (fst call)) calls = resources)
       /\ (forall e, a_err res = Some e ->
           ContinueOnFail c = false
           /\ exists pre r post calls0 ers inner,
                resources = (pre ++ r :: post)%list
                /\ map (fun call => PP_Resource (fst call)) calls0 = pre
                /\ calls
                   = (calls0
                      ++ [(processorFor NamespaceSelectors Subresources c out
                             vars (filter (isValid Validate) policies)
                             exceptions dClient userInfo mutateLogPathIsDir r,
                           (ers, Some inner))])%list
                /\ Forall (fun call => snd (snd call) = None) calls0
                /\ e = ErrorfW ("failed to apply policies on resource "
                                ++ GetName r ++ " (") inner ")").
Proof.
  intros run res. subst res.
  destruct run as [[res sk'] st'] eqn:Hrun. subst run. cbn [fst snd].
  apply applyPolicytoResource_recorded in Hrun.
  destruct Hrun as (Hplain & _ & _ & calls & Ht & Hr & _ & He & Hc & Hf & Hn).
  rewrite Hplain. split; [reflexivity|].
  exists calls. split; [exact Ht|]. split; [exact Hr|].
  split; [|split; [|split; [exact He|]]].
  - intros Hflag. split; [exact (Hc Hflag)|]. exact (He (Hc Hflag)).
  - intros Hflag call inner Hin Hfail.
    destruct (a_err res) as [e|] eqn:Herr.
    + destruct (Hf e eq_refl) as (pre & r & post & calls0 & ers & inner'
                                  & _ & _ & Hcalls & Hnone & ->).
      rewrite Hcalls in Hin. apply in_app_or in Hin.
      destruct Hin as [Hin|[<-|[]]].
      * rewrite Forall_forall in Hnone. rewrite (Hnone call Hin) in Hfail.
        discriminate.
      * cbn in Hfail. inversion Hfail; subst inner'.
        split; [reflexivity|]. exists calls0. exact Hcalls.
    + pose proof (Hn Hflag eq_refl) as Hnone.
      rewrite Forall_forall in Hnone. rewrite (Hnone call Hin) in Hfail.
      discriminate.
  - intros e Herr. split; [|exact (Hf e Herr)].
    destruct (ContinueOnFail c); [|reflexivity].
    rewrite (Hc eq_refl) in Herr. discriminate.
Qed.

(** C5.  Every run of [applyPolicytoResource], in whatever state and with
    whatever lists of skipped and invalid policies it is started, hands the
    processor counts that start afresh: the first call is given the zero
    counts plus one error for each policy that validation rejected, each
    later call is given what the call before it left, and the run returns
    what the last call left (observing the counts changes nothing else).
    And let [R] relate the worlds that agree on what the processor reads,
    the store included: when setting the variables in the store twice is as
    good as once, and the processor changes nothing of what it reads, a
    second run on the same policies and resources, started where the first
    one ended, returns the counts of the first. *)
Theorem counts_are_fresh_and_repeatable
    (c : ApplyCommandConfig) (out : Writer) (vars : ptr VariablesT)
    (policies : list PolicyInterface) (resources : list Unstructured)
    (exceptions : list PolicyException) (dClient : Client)
    (userInfo : ptr RequestInfo) (mutateLogPathIsDir : bool) :
  let rejected := List.length (filter (isRejected Validate) policies) in
  let fresh := Nat.iter rejected (IncrementError 1) zeroResultCounts in
  (Z.of_nat rejected <= int_max ->
   fresh = {| Pass := 0; Fail := 0; Warn := 0; Error := Z.of_nat rejected;
              Skip := 0 |})
  /\ (forall (sk : SkippedInvalidPolicies)
             (st : State (World * list CountsSeen)),
        let observed :=
          applyPolicytoResource (countingSetInStore SetInStore)
            NamespaceSelectors Subresources Validate
            (counting ApplyPoliciesOnResource) c out vars policies resources
            exceptions sk dClient userInfo mutateLogPathIsDir st in
        fst (fst (applyPolicytoResource SetInStore NamespaceSelectors
                    Subresources Validate ApplyPoliciesOnResource c out vars
                    policies resources exceptions sk dClient userInfo
                    mutateLogPathIsDir (uncounted st)))
        = fst (fst observed)
        /\ exists seen,
             snd (world (snd observed)) = (snd (world st) ++ seen)%list
             /\ threaded fresh seen (a_rc (fst (fst observed)))
             /\ (a_err (fst (fst observed)) = None ->
                 List.length seen = List.length resources))
  /\ (forall R : World -> World -> Prop,
        (forall w, R w w) ->
        (forall w1 w2, R w1 w2 -> R w2 w1) ->
        (forall w1 w2 w3, R w1 w2 -> R w2 w3 -> R w1 w3) ->
        (forall v w1 w2, R w1 w2 -> R (SetInStore v w1) (SetInStore v w2)) ->
        (forall v w, R (SetInStore v (SetInStore v w)) (SetInStore v w)) ->
        (forall p rc st,
            R (world st) (world (snd (ApplyPoliciesOnResource p rc st)))) ->
        (forall p rc st1 st2,
            R (world st1) (world st2) ->
            fst (ApplyPoliciesOnResource p rc st1)
            = fst (ApplyPoliciesOnResource p rc st2)) ->
        forall (sk : SkippedInvalidPolicies) (st : State World),
          let runOn := applyPolicytoResource SetInStore NamespaceSelectors
                         Subresources Validate ApplyPoliciesOnResource c out
                         vars policies resources exceptions in
          let first := runOn sk dClient userInfo mutateLogPathIsDir st in
          let second := runOn (snd (fst first)) dClient userInfo
                          mutateLogPathIsDir (snd first) in
          a_rc (fst (fst second)) = a_rc (fst (fst first))).
Proof.
  intros rejected fresh. split; [|split].
  - intros Hfit.
    destruct (Error_after_rejections rejected Hfit) as (He & Hp & Hf & Hw & Hs).
    subst fresh. destruct (Nat.iter rejected (IncrementError 1) zeroResultCounts).
    cbn in *. subst. reflexivity.
  - intros sk st observed. subst observed.
    rewrite !applyPolicytoResource_unfold. cbv zeta. fold rejected. fold fresh.
    set (proc := processorFor NamespaceSelectors Subresources c out vars
                   (filter (isValid Validate) policies) exceptions dClient
                   userInfo mutateLogPathIsDir).
    match goal with
    | |- context [applyResources (counting ApplyPoliciesOnResource) proc
                    (ContinueOnFail c) resources fresh [] ?s] =>
        set (st1 := s)
    end.
    destruct (applyResources (counting ApplyPoliciesOnResource) proc
                (ContinueOnFail c) resources fresh [] st1)
      as [[[rc responses] err] st2] eqn:HR.
    apply applyResources_counted in HR.
    destruct HR as (Hplain & seen & Ht & Hth & Hlen).
    assert (Hst1 : {| world := world match vars with
                                     | Some v =>
                                         {| world := SetInStore v
                                                       (world (uncounted st));
                                            logs := logs (uncounted st) |}
                                     | None => uncounted st
                                     end;
                      logs := logs match vars with
                                   | Some v =>
                                       {| world := SetInStore v
                                                     (world (uncounted st));
                                          logs := logs (uncounted st) |}
                                   | None => uncounted st
                                   end
                              ++ flat_map (validationLog Validate) policies
                   |} = uncounted st1).
    { subst st1. destruct vars; reflexivity. }
    rewrite Hst1, Hplain.
    assert (Hseen : snd (world st1) = snd (world st)).
    { subst st1. destruct vars; reflexivity. }
    rewrite Hseen in Ht.
    destruct err as [e|]; cbn [fst snd a_rc a_err].
    + split; [reflexivity|]. exists seen.
      split; [exact Ht|]. split; [exact Hth|discriminate].
    + split; [reflexivity|]. exists seen. rewrite warnNoNamespace_world.
      split; [exact Ht|]. split; [exact Hth|exact Hlen].
  - intros R Hrefl Hsym Htrans Hcongr Hidem Hkeeps Hreads sk st runOn first
      second.
    subst second first runOn.
    rewrite !applyPolicytoResource_unfold. cbv zeta.
    set (proc := processorFor NamespaceSelectors Subresources c out vars
                   (filter (isValid Validate) policies) exceptions dClient
                   userInfo mutateLogPathIsDir).
    fold rejected. fold fresh.
    set (a := {| world := world match vars with
                                | Some v =>
                                    {| world := SetInStore v (world st);
                                       logs := logs st |}
                                | None => st
                                end;
                 logs := logs match vars with
                              | Some v =>
                                  {| world := SetInStore v (world st);
                                     logs := logs st |}
                              | None => st
                              end
                         ++ flat_map (validationLog Validate) policies |}).
    destruct (applyResources_related _ _ _ _ _ _ _ ApplyPoliciesOnResource R
                Hsym Htrans Hkeeps Hreads proc (ContinueOnFail c) resources
                fresh [] a a (Hrefl _)) as [_ Hend].
    destruct (applyResources ApplyPoliciesOnResource proc (ContinueOnFail c)
                resources fresh [] a) as [[[rc1 resp1] err1] f1] eqn:H1.
    cbn [snd] in Hend.
    set (final := snd (match err1 with
                       | Some e =>
                           ({| a_rc := rc1; a_resources := resources;
                               a_responses := resp1; a_err := Some e |},
                            {| skipped := skipped sk
                                 ++ map GetName
                                      (filter (isListedSkipped Validate)
                                         policies);
                               invalid := invalid sk
                                 ++ map GetName
                                      (filter (isListedInvalid Validate)
                                         policies) |}, f1)
                       | None =>
                           ({| a_rc := rc1; a_resources := resources;
                               a_responses := resp1; a_err := None |},
                            {| skipped := skipped sk
                                 ++ map GetName
                                      (filter (isListedSkipped Validate)
                                         policies);
                               invalid := invalid sk
                                 ++ map GetName
                                      (filter (isListedInvalid Validate)
                                         policies) |},
                            warnNoNamespace
                              (filter (isValid Validate) policies) f1)
                       end)).
    assert (Hfinal : world final = world f1).
    { subst final. destruct err1; cbn [snd]; [reflexivity|].
      apply warnNoNamespace_world. }
    match goal with
    | |- context [applyResources ApplyPoliciesOnResource proc
                    (ContinueOnFail c) resources fresh [] ?s] =>
        set (b := s)
    end.
    assert (Hab : R (world a) (world b)).
    { subst a b. cbn [world]. destruct vars as [v|]; cbn [world].
      - rewrite Hfinal. cbn [world] in Hend.
        apply (Htrans _ (SetInStore v (SetInStore v (world st)))).
        + apply Hsym. apply Hidem.
        + apply Hcongr. exact Hend.
      - rewrite Hfinal. exact Hend. }
    destruct (applyResources_related _ _ _ _ _ _ _ ApplyPoliciesOnResource R
                Hsym Htrans Hkeeps Hreads proc (ContinueOnFail c) resources
                fresh [] a b Hab) as [Heq _].
    rewrite H1 in Heq.
    destruct (applyResources ApplyPoliciesOnResource proc (ContinueOnFail c)
                resources fresh [] b) as [[[rc2 resp2] err2] f2].
    cbn [fst] in Heq. inversion Heq; subst.
    destruct err2; reflexivity.
Qed.

End ApplyClaims.

(** C2 does not hold as worded: with the flags at their defaults a
    config map on which the processor fails ends the run with an error and
    no responses; the deployment after it is never handed to the processor,
    which would have returned a response for it. *)
Lemma resource_error_stops_the_loop_counterexample :
  let run :=
    applyPolicytoResource (recordingSetInStore Sample.setInStore)
      Sample.namespaceSelectors Sample.subresources Sample.validate
      (recording Sample.processor) Sample.config Sample.stdout_writer None
      [Sample.limits] [Sample.configmap; Sample.deployment] []
      Sample.no_skips tt None false Sample.recording_start in
  ContinueOnFail Sample.config = false
  /\ a_responses (fst (fst run)) = []
  /\ a_err (fst (fst run))
     = Some (ErrorfW "failed to apply policies on resource settings ("
               (Errorf "no rule matches kind ConfigMap") ")")
  /\ map (fun call => PP_Resource (fst call)) (trace (snd run))
     = [Sample.configmap]
  /\ fst (fst (Sample.processor
                 (processorFor Sample.namespaceSelectors Sample.subresources
                    Sample.config Sample.stdout_writer None [Sample.limits]
                    [] tt None false Sample.deployment)
                 zeroResultCounts Sample.start))
     = ([Sample.respond Sample.deployment Sample.limits], None).
Proof.
  cbv zeta. repeat split.
Qed.

(** With [--continue-on-fail] the same run goes on to the deployment. *)
Example resource_error_continue_on_fail :
  let run :=
    applyPolicytoResource (recordingSetInStore Sample.setInStore)
      Sample.namespaceSelectors Sample.subresources Sample.validate
      (recording Sample.processor) Sample.config_continue
      Sample.stdout_writer None [Sample.limits]
      [Sample.configmap; Sample.deployment] [] Sample.no_skips tt None false
      Sample.recording_start in
  a_responses (fst (fst run)) = [Sample.respond Sample.deployment Sample.limits]
  /\ a_err (fst (fst run)) = None
  /\ map (fun call => PP_Resource (fst call)) (trace (snd run))
     = [Sample.configmap; Sample.deployment].
Proof.
  cbv zeta. repeat split.
Qed.

(** A processor that reads the store: the first run fills the store and
    makes two requests to the cluster, and the second run counts what the
    first counted. *)
Lemma counts_are_fresh_and_repeatable_witness :
  let runOn :=
    applyPolicytoResource Sample.fillStore Sample.namespaceSelectors
      Sample.subresources Sample.validate Sample.storeProcessor
      Sample.config_continue Sample.stdout_writer (Some tt)
      [Sample.limits; Sample.broken] [Sample.configmap; Sample.deployment]
      [] in
  let first := runOn Sample.no_skips tt None false Sample.store_start in
  let second := runOn (snd (fst first)) tt None false (snd first) in
  a_rc (fst (fst first))
  = {| Pass := 0; Fail := 2; Warn := 0; Error := 1; Skip := 0 |}
  /\ world (snd first) = (["values.yaml"%string], 2)
  /\ a_rc (fst (fst second)) = a_rc (fst (fst first)).
Proof.
  split; [reflexivity|]. split; [reflexivity|].
  destruct (counts_are_fresh_and_repeatable
              unit unit unit unit unit unit Sample.StoreWorld
              Sample.fillStore Sample.namespaceSelectors Sample.subresources
              Sample.validate Sample.storeProcessor Sample.config_continue
              Sample.stdout_writer (Some tt) [Sample.limits; Sample.broken]
              [Sample.configmap; Sample.deployment] [] tt None false)
    as (_ & _ & Hrepeat).
  apply (Hrepeat Sample.sameStore); unfold Sample.sameStore.
  - reflexivity.
  - intros w1 w2 H. symmetry. exact H.
  - intros w1 w2 w3 H1 H2. rewrite H1. exact H2.
  - reflexivity.
  - reflexivity.
  - intros p rc st. unfold Sample.storeProcessor.
    destruct (fst (world st)); reflexivity.
  - intros p rc st1 st2 H. unfold Sample.storeProcessor. rewrite H.
    destruct (fst (world st2)); reflexivity.
Defined.

(** The counts that the processor finds, observed on the same run: the
    config map is given the one error of validation, the deployment what
    the call before it left. *)
Example counts_seen_sample :
  let observed :=
    applyPolicytoResource (countingSetInStore Sample.fillStore)
      Sample.namespaceSelectors Sample.subresources Sample.validate
      (counting Sample.storeProcessor) Sample.config_continue
      Sample.stdout_writer (Some tt) [Sample.limits; Sample.broken]
      [Sample.configmap; Sample.deployment] []
      {| skipped := ["earlier"%string]; invalid := [] |} tt None false
      {| world := (([], 7), [(zeroResultCounts, zeroResultCounts)]);
         logs := [] |} in
  snd (world (snd observed))
  = [(zeroResultCounts, zeroResultCounts);
     ({| Pass := 0; Fail := 0; Warn := 0; Error := 1; Skip := 0 |},
      {| Pass := 0; Fail := 1; Warn := 0; Error := 1; Skip := 0 |});
     ({| Pass := 0; Fail := 1; Warn := 0; Error := 1; Skip := 0 |},
      {| Pass := 0; Fail := 2; Warn := 0; Error := 1; Skip := 0 |})].
Proof. reflexivity. Qed.

(** ** [loadPolicies] *)

Section LoadingFacts.

Variables URL FS VAP VAPBinding : Type.
Variable IsGit : string -> bool.
Variable url_Parse : string -> URL + error.
Variable URL_Path : URL -> string.
Variable URL_setPath : URL -> string -> URL.
Variable URL_String : URL -> string.
Variable GetGitBranchOrPolicyPaths :
  string -> string -> string -> string * string.
Variable memfs_New : FS.
Variable Clone : string -> FS -> string -> FS * option error.
Variable ListYamls : FS -> string -> list string * option error.
Variable Load :
  ptr FS -> string -> string -> ptr (LoaderResults VAP VAPBinding) * option error.

Let path_step := loadPath IsGit url_Parse URL_Path URL_setPath URL_String
                   GetGitBranchOrPolicyPaths memfs_New Clone ListYamls Load.
Let paths_loop := loadPaths IsGit url_Parse URL_Path URL_setPath URL_String
                    GetGitBranchOrPolicyPaths memfs_New Clone ListYamls Load.

(** The log that a loop starts with does not change what it loads. *)
Lemma loadYamls_log (fs : FS) (policyYamls : list string) :
  forall acc lg1 lg2,
    match loadYamls Load fs policyYamls acc lg1 with
    | Returned (a, _) =>
        exists l2, loadYamls Load fs policyYamls acc lg2 = Returned (a, l2)
    | Panicked m => loadYamls Load fs policyYamls acc lg2 = Panicked m
    end.
Proof.
  induction policyYamls as [|y ys IH]; intros acc lg1 lg2; cbn.
  - eexists; reflexivity.
  - destruct (Load (Some fs) "" y) as [lr [e|]].
    + apply IH.
    + destruct (appendLoaded acc lr) as [acc'|m]; cbn [bind]; [apply IH|].
      reflexivity.
Qed.

Lemma loadPath_log (sk : SkippedInvalidPolicies) (path gitBranch : string)
    (acc : Loaded VAP VAPBinding) (lg1 lg2 : list LogEntry) :
  match path_step sk path gitBranch acc lg1 with
  | Returned (LoopContinue gb a _) =>
      exists l2,
        path_step sk path gitBranch acc lg2 = Returned (LoopContinue gb a l2)
  | Returned (LoopReturn r gb _) =>
      exists l2,
        path_step sk path gitBranch acc lg2 = Returned (LoopReturn r gb l2)
  | Panicked m => path_step sk path gitBranch acc lg2 = Panicked m
  end.
Proof.
  unfold path_step, loadPath.
  destruct (IsGit path).
  - destruct (url_Parse path) as [u|e]; [|eexists; reflexivity].
    destruct (from1 (URL_Path u)) as [tail|m]; cbn [bind]; [|reflexivity].
    destruct (Z.leb _ 1); [eexists; reflexivity|].
    destruct (GetGitBranchOrPolicyPaths _ _ _) as [gb yamlsPath].
    destruct (Clone _ _ _) as [fs [e|]]; [eexists; reflexivity|].
    destruct (ListYamls fs yamlsPath) as [ys [e|]]; [eexists; reflexivity|].
    pose proof (loadYamls_log fs ys acc lg1 lg2) as H.
    destruct (loadYamls Load fs ys acc lg1) as [[a l1]|m]; cbn [bind].
    + destruct H as [l2 H]. rewrite H. cbn [bind]. eexists; reflexivity.
    + rewrite H. reflexivity.
  - destruct (Load None "" path) as [lr [e|]]; [eexists; reflexivity|].
    destruct (appendLoaded acc lr) as [acc'|m]; cbn [bind];
      [eexists; reflexivity|reflexivity].
Qed.

Lemma loadPaths_log (sk : SkippedInvalidPolicies) (paths : list string) :
  forall gitBranch acc lg1 lg2,
    withoutLog (paths_loop sk paths gitBranch acc lg1)
    = withoutLog (paths_loop sk paths gitBranch acc lg2).
Proof.
  unfold paths_loop.
  induction paths as [|p paths IH]; intros gitBranch acc lg1 lg2;
    [reflexivity|].
  cbn [loadPaths]. pose proof (loadPath_log sk p gitBranch acc lg1 lg2) as H.
  unfold path_step in H.
  destruct (loadPath _ _ _ _ _ _ _ _ _ _ sk p gitBranch acc lg1)
    as [[gb a l1|r gb l1]|m]; cbn [bind].
  - destruct H as [l2 H]. rewrite H. cbn [bind]. apply IH.
  - destruct H as [l2 H]. rewrite H. reflexivity.
  - rewrite H. reflexivity.
Qed.


(** Local paths: what the loop returns. *)
Lemma loadPaths_local (sk : SkippedInvalidPolicies) (paths : list string) :
  (forall p, In p paths ->
     IsGit p = false
     /\ (snd (Load None "" p) = None -> fst (Load None "" p) <> None)) ->
  forall gitBranch acc lg,
  exists lg',
    paths_loop sk paths gitBranch acc lg
    = Returned
        ({| l_rc := None; l_resources := [];
            l_skipInvalidPolicies := sk; l_responses := [];
            l_policies := policies acc ++ flat_map (local_policies Load) paths;
            l_vaps := vaps acc ++ flat_map (local_vaps Load) paths;
            l_vapBindings := vapBindings acc ++ flat_map (local_bindings Load) paths;
            l_err := None |},
         gitBranch, lg').
Proof.
  unfold paths_loop.
  induction paths as [|p paths IH]; intros Hloc gitBranch acc lg.
  - cbn. rewrite !app_nil_r. eexists; reflexivity.
  - destruct (Hloc p (or_introl eq_refl)) as [Hgit Hres].
    assert (Hrest : forall q, In q paths ->
               IsGit q = false
               /\ (snd (Load None "" q) = None ->
                   fst (Load None "" q) <> None))
      by (intros q Hq; apply Hloc; right; exact Hq).
    cbn [loadPaths flat_map]. unfold loadPath at 1. rewrite Hgit.
    unfold local_policies, local_vaps, local_bindings at 1.
    destruct (Load None "" p) as [lr [e|]] eqn:Hl.
    + cbn [bind].
      match goal with
      | |- context [loadPaths _ _ _ _ _ _ _ _ _ _ sk paths gitBranch acc ?l] =>
          destruct (IH Hrest gitBranch acc l) as [lg' H]
      end.
      rewrite H. destruct lr; cbn [app]; eexists; reflexivity.
    + destruct lr as [lr|]; [|exfalso; apply Hres; reflexivity].
      cbn [appendLoaded deref bind].
      match goal with
      | |- context [loadPaths _ _ _ _ _ _ _ _ _ _ sk paths gitBranch ?a ?l] =>
          destruct (IH Hrest gitBranch a l) as [lg' H]
      end.
      rewrite H. cbn [policies vaps vapBindings]. rewrite <- !app_assoc.
      eexists; reflexivity.
Qed.

End LoadingFacts.


Section PolicyClaims.

Variables VariablesT PolicyException RequestInfo Client : Type.
Variables NamespaceSelectorMap Subresource World : Type.
Variable SetInStore : VariablesT -> World -> World.
Variable NamespaceSelectors : ptr VariablesT -> NamespaceSelectorMap.
Variable Subresources : ptr VariablesT -> list Subresource.
Variable Validate : PolicyInterface -> option error.
Variable ApplyPoliciesOnResource :
  PolicyProcessor VariablesT PolicyException RequestInfo Client
    NamespaceSelectorMap Subresource ->
  ResultCounts -> State World ->
  (list EngineResponse * option error) * ResultCounts * State World.

Variables URL FS VAP VAPBinding : Type.
Variable IsGit : string -> bool.
Variable url_Parse : string -> URL + error.
Variable URL_Path : URL -> string.
Variable URL_setPath : URL -> string -> URL.
Variable URL_String : URL -> string.
Variable GetGitBranchOrPolicyPaths :
  string -> string -> string -> string * string.
Variable memfs_New : FS.
Variable Clone : string -> FS -> string -> FS * option error.
Variable ListYamls : FS -> string -> list string * option error.
Variable Load :
  ptr FS -> string -> string -> ptr (LoaderResults VAP VAPBinding) * option error.


End PolicyClaims.



(** ** The definitions on small inputs *)

Example ResourceSpec_String_sample :
  V1.ResourceSpec_String
    (V1.mkResourceSpec "apps/v1" "Deployment" "default" "web" "uid-1")
  = "apps/v1/Deployment/default/web"%string.
Proof. reflexivity. Qed.

Example GetAnyAllConditions_nil_receiver :
  V1.GetAnyAllConditions (@None (V1.TargetResourceSpec unit unit nat))
  = Panicked "invalid memory address or nil pointer dereference".
Proof. reflexivity. Qed.

Example exit_fail_beats_warn :
  exit Sample.stdout_writer
    (Some {| Pass := 3; Fail := 1; Warn := 2; Error := 0; Skip := 0 |}) 7 false
  = Returned ([], Some (Errorf "exit as there are policy violations")).
Proof. reflexivity. Qed.

Example exit_warn_with_code :
  exit Sample.stdout_writer
    (Some {| Pass := 3; Fail := 0; Warn := 2; Error := 0; Skip := 0 |}) 7 false
  = Returned (["exit as warnExitCode is 7"%string],
              Some (ErrWarnExitCode {| ExitCode := 7 |})).
Proof. reflexivity. Qed.

Example exit_warn_without_code :
  exit Sample.stdout_writer
    (Some {| Pass := 3; Fail := 0; Warn := 2; Error := 0; Skip := 0 |}) 0 true
  = Returned ([], None).
Proof. reflexivity. Qed.

Example exit_nil_counts :
  exit Sample.stdout_writer None 0 false
  = Panicked "invalid memory address or nil pointer dereference".
Proof. reflexivity. Qed.

Example checkArguments_accepts_sample :
  res_err (checkArguments Sample.config) = None.
Proof. reflexivity. Qed.

Example checkArguments_requires_policy :
  res_err (checkArguments (with_PolicyPaths Sample.config []))
  = Some (Errorf "require policy").
Proof. reflexivity. Qed.

Example Split_sample :
  Split "owner/repo//dir" slash = ["owner"; "repo"; ""; "dir"]%string
  /\ Split "" slash = [""%string].
Proof. split; reflexivity. Qed.

Example validatePolicies_sample :
  validatePolicies Sample.validate
    [Sample.limits; Sample.broken] zeroResultCounts Sample.no_skips []
    Sample.start
  = ({| Pass := 0; Fail := 0; Warn := 0; Error := 1; Skip := 0 |},
     {| skipped := ["broken"%string]; invalid := [] |},
     [Sample.limits],
     {| world := tt;
        logs := [LogError "spec.rules: Required value"
                          "policy validation error"] |}).
Proof. reflexivity. Qed.

(* ================================================================== *)
(** * Further properties                                               *)
(* ================================================================== *)

(** ** Strings without a separator *)

Lemma append_sep_inj (sep : ascii) (a a' b b' : string) :
  ContainsByte a sep = false -> ContainsByte a' sep = false ->
  (a ++ String sep b)%string = (a' ++ String sep b')%string ->
  a = a' /\ b = b'.
Proof.
  revert a'. induction a as [|ch a IH]; intros [|ch' a'] Ha Ha' H; cbn in *.
  - inversion H. split; reflexivity.
  - inversion H; subst. rewrite Ascii.eqb_refl in Ha'. discriminate.
  - inversion H; subst. rewrite Ascii.eqb_refl in Ha. discriminate.
  - inversion H; subst.
    destruct (Ascii.eqb ch' sep); [discriminate|].
    destruct (IH a' Ha Ha' H2) as [-> ->]. split; reflexivity.
Qed.

Lemma Split_no_sep (s : string) (sep : ascii) :
  ContainsByte s sep = false -> Split s sep = [s].
Proof.
  induction s as [|ch s IH]; cbn; intros H; [reflexivity|].
  destruct (Ascii.eqb ch sep); [discriminate|].
  rewrite (IH H). reflexivity.
Qed.

Lemma Split_at_sep (a b : string) (sep : ascii) :
  ContainsByte a sep = false ->
  Split (a ++ String sep b) sep = a :: Split b sep.
Proof.
  induction a as [|ch a IH]; cbn; intros H.
  - rewrite Ascii.eqb_refl. reflexivity.
  - destruct (Ascii.eqb ch sep); [discriminate|].
    rewrite (IH H). reflexivity.
Qed.

(** ** [ResourceSpec.String] as a key *)

(** X1: two resource specs whose APIVersion, Kind and Namespace hold no "/"
    print the same if and only if they agree on APIVersion, Kind, Namespace
    and Name; the UID plays no part. *)
Theorem ResourceSpec_String_injective (s1 s2 : V1.ResourceSpec) :
  ContainsByte (V1.APIVersion s1) slash = false ->
  ContainsByte (V1.Kind s1) slash = false ->
  ContainsByte (V1.Namespace s1) slash = false ->
  ContainsByte (V1.APIVersion s2) slash = false ->
  ContainsByte (V1.Kind s2) slash = false ->
  ContainsByte (V1.Namespace s2) slash = false ->
  (V1.ResourceSpec_String s1 = V1.ResourceSpec_String s2
   <-> V1.APIVersion s1 = V1.APIVersion s2
       /\ V1.Kind s1 = V1.Kind s2
       /\ V1.Namespace s1 = V1.Namespace s2
       /\ V1.Name s1 = V1.Name s2).
Proof.
  intros Ha1 Hk1 Hn1 Ha2 Hk2 Hn2.
  unfold V1.ResourceSpec_String, Join. cbn [String.concat].
  split.
  - intros H.
    apply (append_sep_inj slash) in H; [|assumption..].
    destruct H as [Ha H].
    apply (append_sep_inj slash) in H; [|assumption..].
    destruct H as [Hk H].
    apply (append_sep_inj slash) in H; [|assumption..].
    destruct H as [Hn H]. repeat split; assumption.
  - intros (-> & -> & -> & ->). reflexivity.
Qed.

Lemma ResourceSpec_String_injective_witness :
  V1.ResourceSpec_String (V1.mkResourceSpec "v1" "Pod" "default" "web" "a")
  = V1.ResourceSpec_String (V1.mkResourceSpec "v1" "Pod" "default" "web" "b")
  <-> "v1"%string = "v1"%string /\ "Pod"%string = "Pod"%string
      /\ "default"%string = "default"%string /\ "web"%string = "web"%string.
Proof.
  apply (ResourceSpec_String_injective
           (V1.mkResourceSpec "v1" "Pod" "default" "web" "a")
           (V1.mkResourceSpec "v1" "Pod" "default" "web" "b"));
    reflexivity.
Defined.

(** With a "/" in the APIVersion two different specs can print the same. *)
Example ResourceSpec_String_collision :
  V1.ResourceSpec_String
    (V1.mkResourceSpec "apps/v1" "Deployment" "default" "web" "")
  = V1.ResourceSpec_String
      (V1.mkResourceSpec "apps" "v1" "Deployment" "default/web" "").
Proof. reflexivity. Qed.

(** ** [exit] and [RunE] *)

Lemma exit_nonnil_iff (out : Writer) (rc : ResultCounts) (warnExitCode : Z)
    (warnNoPassed : bool) :
  exists printed err,
    exit out (Some rc) warnExitCode warnNoPassed = Returned (printed, err)
    /\ (err <> None <-> exit_condition rc warnExitCode warnNoPassed)
    /\ (forall w, err = Some (ErrWarnExitCode w) ->
        w = {| ExitCode := warnExitCode |}
        /\ Fail rc <= 0 /\ Error rc <= 0
        /\ ((0 < Warn rc /\ warnExitCode <> 0)
            \/ (Pass rc = 0 /\ warnNoPassed = true)))
    /\ (0 < Fail rc \/ 0 < Error rc ->
        printed = [] /\ exists msg, err = Some (Errorf msg))
    /\ (err = None -> printed = [])
    /\ (forall pre inner post, err <> Some (ErrorfW pre inner post)).
Proof.
  unfold exit, exit_condition; cbn [deref bind].
  destruct (Z.gtb_spec (Fail rc) 0) as [Hf|Hf].
  { eexists _, _; split; [reflexivity|].
    repeat split; intros; try congruence; try lia; auto; eauto. }
  destruct (Z.gtb_spec (Error rc) 0) as [He|He].
  { eexists _, _; split; [reflexivity|].
    repeat split; intros; try congruence; try lia; auto; eauto. }
  destruct (Z.gtb_spec (Warn rc) 0) as [Hw|Hw];
    destruct (Z.eqb_spec warnExitCode 0) as [Hc|Hc]; cbn [andb negb];
    try (eexists _, _; split; [reflexivity|];
         repeat split; intros; try congruence; try lia; auto;
         try (exfalso; intuition (try congruence; try lia)); fail);
    destruct (Z.eqb_spec (Pass rc) 0) as [Hp|Hp]; cbn [andb];
    try destruct warnNoPassed;
    eexists _, _; (split; [reflexivity|]);
    repeat split; intros; try congruence; try lia; auto;
    try (exfalso; intuition (try congruence; try lia)).
Qed.

(** X2: the kind of error that [exit] returns.  A [WarnExitCodeError] is
    returned only when no rule failed and none erred, because of warnings
    with a non-zero warn exit code or because nothing passed under
    warn-no-pass; it always carries [warnExitCode] and its [Error()] text is
    "exit as warnExitCode is <warnExitCode>".  With a failure or an error
    the error returned is a plain one and nothing is printed; [exit] never
    returns a wrapped error, and prints nothing when it returns nil. *)
Theorem exit_error_kinds (out : Writer) (rc : ResultCounts) (warnExitCode : Z)
    (warnNoPassed : bool) :
  exists printed err,
    exit out (Some rc) warnExitCode warnNoPassed = Returned (printed, err)
    /\ (forall w, err = Some (ErrWarnExitCode w) ->
        ExitCode w = warnExitCode
        /\ Error_text (ErrWarnExitCode w)
           = ("exit as warnExitCode is " ++ itoa warnExitCode)%string
        /\ Fail rc <= 0 /\ Error rc <= 0
        /\ ((0 < Warn rc /\ warnExitCode <> 0)
            \/ (Pass rc = 0 /\ warnNoPassed = true)))
    /\ (0 < Fail rc \/ 0 < Error rc ->
        printed = [] /\ exists msg, err = Some (Errorf msg))
    /\ (err = None -> printed = [])
    /\ (forall pre inner post, err <> Some (ErrorfW pre inner post)).
Proof.
  destruct (exit_nonnil_iff out rc warnExitCode warnNoPassed)
    as (printed & err & Hrun & _ & Hw & Hfe & Hn & Hwrap).
  exists printed, err. split; [exact Hrun|].
  split; [|split; [exact Hfe|split; [exact Hn|exact Hwrap]]].
  intros w Herr. destruct (Hw w Herr) as (-> & Hf & He & Hc).
  repeat split; assumption.
Qed.

Lemma exit_ignores_written (out out' : Writer) (rc : ptr ResultCounts)
    (warnExitCode : Z) (warnNoPassed : bool) :
  repr out = repr out' ->
  exit out rc warnExitCode warnNoPassed
  = exit out' rc warnExitCode warnNoPassed.
Proof.
  intros Hr. unfold exit. rewrite Hr. reflexivity.
Qed.

Section RunEFacts.

Variable applyCommandHelper :
  ApplyCommandConfig -> Writer -> HelperResult * list string.
Variable printSkippedAndInvalidPolicies : SkippedInvalidPolicies -> list string.
Variable printReports : list EngineResponse -> bool -> list string.
Variable printExceptions : list EngineResponse -> bool -> Z -> list string.
Variable printTable : bool -> bool -> list EngineResponse -> list string.
Variable printViolations : ptr ResultCounts -> list string.

(** X3: what [RunE] returns, in every output mode.  When the helper returns
    an error, [RunE] returns that error, calls no printer and does not call
    [exit].  When the helper returns no error and non-nil counts, [RunE]
    returns what [exit] returns for these counts, so a non-nil error exactly
    under the four conditions of [exit], whatever the printers wrote.  Should
    the helper return no error and nil counts, [RunE] panics in [exit]. *)
Theorem RunE_returns (c : ApplyCommandConfig) (detailedResults table : bool)
    (args : list string) (out : Writer) :
  let cfg := with_PolicyPaths c args in
  let res := fst (applyCommandHelper cfg out) in
  let run := RunE applyCommandHelper printSkippedAndInvalidPolicies
               printReports printExceptions printTable printViolations c
               detailedResults table args out in
  (forall e, res_err res = Some e ->
     snd run = Returned ([], Some e)
     /\ written (fst run)
        = (written out ++ snd (applyCommandHelper cfg out))%list)
  /\ (forall rc, res_err res = None -> res_rc res = Some rc ->
      snd run = exit out (Some rc) (warnExitCode c) (warnNoPassed c)
      /\ exists printed err,
           snd run = Returned (printed, err)
           /\ (err <> None
               <-> exit_condition rc (warnExitCode c) (warnNoPassed c)))
  /\ (res_err res = None -> res_rc res = None ->
      exists msg, snd run = Panicked msg).
Proof.
  intros cfg res run. subst run res. unfold RunE. fold cfg.
  destruct (applyCommandHelper cfg out) as [res chunks]; cbn [fst snd].
  assert (Hrepr : forall o l, repr (Writes o l) = repr o).
  { intros o l. revert o. induction l as [|x l IH]; intros o; cbn;
      [reflexivity|]. unfold Writes in IH. rewrite IH. reflexivity. }
  assert (Hresp : forall cfg' o l, repr (printResponses cfg' o l) = repr o).
  { intros cfg' o l. revert o.
    induction l as [|r l IH]; intros o; cbn; [reflexivity|].
    unfold printResponses in IH. rewrite IH. unfold printResponse.
    assert (Hscan : forall rules o' p rp acc,
               repr (fst (scanRules o' p rp rules acc)) = repr o').
    { induction rules as [|x rules IHr]; intros o' p rp acc; cbn;
        [reflexivity|]. rewrite IHr.
      destruct (RuleType_eqb _ _); [|reflexivity].
      destruct (RuleStatus_eqb _ RuleStatusSkip); [reflexivity|].
      destruct (RuleStatus_eqb _ RuleStatusError); reflexivity. }
    assert (Hfail : forall fr o' i, repr (printFailedRules o' i fr) = repr o').
    { induction fr as [|x fr IHf]; intros o' i; cbn; [reflexivity|].
      rewrite IHf. reflexivity. }
    pose proof (Hscan (Rules (PolicyResponse_ r)) o
                  (GetName (EngineResponse_Policy r)) (resPathOf r) [])
      as Hs.
    destruct (scanRules _ _ _ _ _) as [o1 fr]; cbn [fst] in Hs.
    destruct (Z.gtb (len fr) 0); [|exact Hs].
    cbn [repr Fprintln Writer_Write]. rewrite Hfail.
    destruct (if AuditWarn cfg' && _ then true else false); exact Hs. }
  split; [|split].
  - intros e He. rewrite He. cbn [fst snd]. split; [reflexivity|].
    apply written_Writes.
  - intros rc He Hrc. rewrite He, Hrc. cbn [snd].
    match goal with
    | |- exit ?o _ _ _ = _ /\ _ =>
        assert (Ho : repr o = repr out)
    end.
    { destruct (PolicyReport cfg); [|destruct (GenerateExceptions cfg);
        [|destruct table]]; repeat (rewrite Hrepr || rewrite Hresp);
        reflexivity. }
    rewrite (exit_ignores_written _ out _ _ _ Ho).
    split; [reflexivity|].
    destruct (exit_nonnil_iff out rc (warnExitCode c) (warnNoPassed c))
      as (printed & err & Hrun & Hiff & _).
    exists printed, err. split; [exact Hrun|exact Hiff].
  - intros He Hrc. rewrite He, Hrc. cbn [snd]. eexists. reflexivity.
Qed.

End RunEFacts.

(** ** The default output, response by response *)

Lemma scanRules_quiet (rules : list RuleResponse) :
  (forall rule, In rule rules ->
     RuleResponse_Status rule <> RuleStatusFail
     /\ (RuleResponse_RuleType rule = Mutation ->
         RuleResponse_Status rule <> RuleStatusSkip
         /\ RuleResponse_Status rule <> RuleStatusError)) ->
  forall out p r acc, scanRules out p r rules acc = (out, acc).
Proof.
  induction rules as [|x rules IH]; intros Hq out p r acc; [reflexivity|].
  cbn [scanRules].
  destruct (Hq x (or_introl eq_refl)) as [Hnf Hmut].
  destruct (RuleStatus_eqb (RuleResponse_Status x) RuleStatusFail) eqn:Ef.
  { apply RuleStatus_eqb_eq in Ef. contradiction. }
  destruct (RuleType_eqb (RuleResponse_RuleType x) Mutation) eqn:Et.
  - apply RuleType_eqb_eq in Et. destruct (Hmut Et) as [Hns Hne].
    destruct (RuleStatus_eqb (RuleResponse_Status x) RuleStatusSkip) eqn:Es.
    { apply RuleStatus_eqb_eq in Es. contradiction. }
    destruct (RuleStatus_eqb (RuleResponse_Status x) RuleStatusError) eqn:Ee.
    { apply RuleStatus_eqb_eq in Ee. contradiction. }
    apply IH. intros rule Hin. apply Hq. right. exact Hin.
  - apply IH. intros rule Hin. apply Hq. right. exact Hin.
Qed.

(** X4: a response none of whose rules failed, and none of whose mutation
    rules was skipped or erred, leaves the writer as it is: passes,
    warnings, and skipped or erred rules of other types print nothing. *)
Theorem printResponse_quiet (c : ApplyCommandConfig) (out : Writer)
    (response : EngineResponse) :
  (forall rule, In rule (Rules (PolicyResponse_ response)) ->
     RuleResponse_Status rule <> RuleStatusFail
     /\ (RuleResponse_RuleType rule = Mutation ->
         RuleResponse_Status rule <> RuleStatusSkip
         /\ RuleResponse_Status rule <> RuleStatusError)) ->
  printResponse c out response = out.
Proof.
  intros Hq. unfold printResponse.
  rewrite (scanRules_quiet _ Hq). reflexivity.
Qed.

Lemma printResponse_quiet_witness :
  printResponse Sample.config Sample.stdout_writer
    (mkEngineResponse Sample.deployment
       (mkPolicyResponse
          [mkRuleResponse "check-labels" Validation "ok" RuleStatusPass;
           mkRuleResponse "check-image" Validation "no image"
                          RuleStatusError;
           mkRuleResponse "add-label" Mutation "added" RuleStatusPass])
       Sample.limits ActionEnforce)
  = Sample.stdout_writer.
Proof.
  apply printResponse_quiet. cbn [Rules PolicyResponse_].
  intros rule [<-|[<-|[<-|[]]]]; cbn; repeat split; intros; discriminate.
Defined.

Lemma printFailedRules_numbered (failedRules : list RuleResponse) :
  forall out j,
    written (printFailedRules out (Z.of_nat j) failedRules)
    = (written out
       ++ map (fun entry : nat * RuleResponse =>
                 Sprintln [itoa (Z.of_nat (fst entry)); "-";
                           RuleResponse_Name (snd entry);
                           RuleResponse_Message (snd entry)])
              (combine (seq (S j) (List.length failedRules)) failedRules))%list.
Proof.
  induction failedRules as [|rule fr IH]; intros out j; cbn.
  - now rewrite app_nil_r.
  - replace (Z.of_nat j + 1) with (Z.of_nat (S j)) by lia.
    rewrite IH, written_Fprintln, <- app_assoc. reflexivity.
Qed.

(** What the loop over the rules writes: for each mutation rule with status
    Skip or Error its notice, in the order of the rules, and nothing else. *)
Lemma scanRules_written (rules : list RuleResponse) :
  forall out p r acc,
    written (fst (scanRules out p r rules acc))
    = (written out
       ++ flat_map
            (fun rule =>
               if RuleType_eqb (RuleResponse_RuleType rule) Mutation then
                 if RuleStatus_eqb (RuleResponse_Status rule) RuleStatusSkip
                 then [Sprintln [nl ++ "skipped mutate policy"; p; "->";
                                 "resource"; r]%string]
                 else if RuleStatus_eqb (RuleResponse_Status rule)
                           RuleStatusError
                 then [Sprintln [nl ++ "error while applying mutate policy";
                                 p; "->"; "resource"; r; nl ++ "error: ";
                                 RuleResponse_Message rule]%string]
                 else []
               else [])
            rules)%list.
Proof.
  induction rules as [|rule rules IH]; intros out p r acc;
    cbn [scanRules flat_map].
  - now rewrite app_nil_r.
  - rewrite IH.
    destruct (RuleType_eqb _ _);
      [destruct (RuleStatus_eqb _ RuleStatusSkip);
       [|destruct (RuleStatus_eqb _ RuleStatusError)]|];
      rewrite ?written_Fprintln, <- ?app_assoc; reflexivity.
Qed.

(** X5: the block of failed rules.  When a response has failed rules, what
    [printResponse] appends is, first, one notice for each mutation rule
    with status Skip ("skipped mutate policy ...") or Error ("error while
    applying mutate policy ..." with the message of the rule), in the order
    of the response, and nothing for any other rule; then one header naming
    the policy and the resource path (an audit warning only with audit-warn
    and an Audit action); then one line for each failed rule, in the order
    of the response and numbered from 1; then an empty line. *)
Theorem printResponse_failed_block (c : ApplyCommandConfig) (out : Writer)
    (response : EngineResponse) :
  let failed :=
    filter (fun rule => RuleStatus_eqb (RuleResponse_Status rule)
                          RuleStatusFail)
           (Rules (PolicyResponse_ response)) in
  let policyName := GetName (EngineResponse_Policy response) in
  let notice (rule : RuleResponse) : list string :=
    match RuleResponse_RuleType rule, RuleResponse_Status rule with
    | Mutation, RuleStatusSkip =>
        [Sprintln [nl ++ "skipped mutate policy"; policyName; "->";
                   "resource"; resPathOf response]%string]
    | Mutation, RuleStatusError =>
        [Sprintln [nl ++ "error while applying mutate policy"; policyName;
                   "->"; "resource"; resPathOf response; nl ++ "error: ";
                   RuleResponse_Message rule]%string]
    | _, _ => []
    end in
  failed <> [] ->
  written (printResponse c out response)
  = (written out
     ++ flat_map notice (Rules (PolicyResponse_ response))
     ++ Sprintln ["policy"; policyName; "->"; "resource";
                  resPathOf response;
                  if AuditWarn c
                     && ValidationFailureAction_Audit
                          (EngineResponse_GetValidationFailureAction
                             response)
                  then "failed as audit warning:" else "failed:"]
     :: map (fun entry : nat * RuleResponse =>
               Sprintln [itoa (Z.of_nat (fst entry)); "-";
                         RuleResponse_Name (snd entry);
                         RuleResponse_Message (snd entry)])
            (combine (seq 1 (List.length failed)) failed)
     ++ [Sprintln [""]])%list.
Proof.
  intros failed policyName notice Hne. unfold printResponse.
  pose proof (scanRules_failed (Rules (PolicyResponse_ response)) out
                policyName (resPathOf response) []) as Hf.
  pose proof (scanRules_written (Rules (PolicyResponse_ response)) out
                policyName (resPathOf response) []) as Hs.
  assert (Hnotice :
            flat_map
              (fun rule =>
                 if RuleType_eqb (RuleResponse_RuleType rule) Mutation then
                   if RuleStatus_eqb (RuleResponse_Status rule)
                        RuleStatusSkip
                   then [Sprintln [nl ++ "skipped mutate policy"; policyName;
                                   "->"; "resource"; resPathOf response]%string]
                   else if RuleStatus_eqb (RuleResponse_Status rule)
                             RuleStatusError
                   then [Sprintln [nl ++ "error while applying mutate policy";
                                   policyName; "->"; "resource";
                                   resPathOf response; nl ++ "error: ";
                                   RuleResponse_Message rule]%string]
                   else []
                 else [])
              (Rules (PolicyResponse_ response))
            = flat_map notice (Rules (PolicyResponse_ response))).
  { apply flat_map_ext. intros rule. subst notice. cbv beta.
    destruct (RuleResponse_RuleType rule), (RuleResponse_Status rule);
      reflexivity. }
  rewrite Hnotice in Hs. fold policyName.
  destruct (scanRules _ _ _ _ _) as [o fr]; cbn [fst snd app] in *.
  fold failed in Hf. subst fr.
  assert (Hlen : Z.gtb (len failed) 0 = true).
  { destruct failed; [contradiction|]. reflexivity. }
  rewrite Hlen, written_Fprintln.
  rewrite (printFailedRules_numbered failed _ 0).
  destruct (AuditWarn c && _); rewrite written_Fprintln, Hs;
    repeat (rewrite <- app_assoc; cbn [app]); reflexivity.
Qed.

Lemma printResponse_failed_block_witness :
  written (printResponse Sample.config_audit_warn Sample.stdout_writer
             Sample.response)
  = [Sprintln [nl ++ "error while applying mutate policy"; "limits"; "->";
               "resource"; "default/Deployment/web"; nl ++ "error: ";
               "malformed patch"];
     Sprintln [nl ++ "skipped mutate policy"; "limits"; "->"; "resource";
               "default/Deployment/web"];
     Sprintln ["policy"; "limits"; "->"; "resource";
               "default/Deployment/web"; "failed as audit warning:"];
     Sprintln ["1"; "-"; "check-replicas"; "replicas must not exceed 5"];
     Sprintln [""]]%string.
Proof.
  rewrite (printResponse_failed_block Sample.config_audit_warn
             Sample.stdout_writer Sample.response).
  - reflexivity.
  - cbn. discriminate.
Defined.

(** ** [loadPolicies]: what it returns *)

Section LoadMore.

Variables URL FS VAP VAPBinding : Type.
Variable IsGit : string -> bool.
Variable url_Parse : string -> URL + error.
Variable URL_Path : URL -> string.
Variable URL_setPath : URL -> string -> URL.
Variable URL_String : URL -> string.
Variable GetGitBranchOrPolicyPaths :
  string -> string -> string -> string * string.
Variable memfs_New : FS.
Variable Clone : string -> FS -> string -> FS * option error.
Variable ListYamls : FS -> string -> list string * option error.
Variable Load :
  ptr FS -> string -> string -> ptr (LoaderResults VAP VAPBinding) * option error.

Let path_step := loadPath IsGit url_Parse URL_Path URL_setPath URL_String
                   GetGitBranchOrPolicyPaths memfs_New Clone ListYamls Load.
Let paths_loop := loadPaths IsGit url_Parse URL_Path URL_setPath URL_String
                    GetGitBranchOrPolicyPaths memfs_New Clone ListYamls Load.
Let load_all := loadPolicies IsGit url_Parse URL_Path URL_setPath URL_String
                  GetGitBranchOrPolicyPaths memfs_New Clone ListYamls Load.

Lemma logNonFatal_extends (lr : ptr (LoaderResults VAP VAPBinding))
    (lg : list LogEntry) :
  exists more, logNonFatal lr lg = (lg ++ more)%list.
Proof.
  destruct lr as [lr|]; cbn; [eexists; reflexivity|].
  exists []. now rewrite app_nil_r.
Qed.

Lemma loadYamls_extends (fs : FS) (policyYamls : list string) :
  forall acc lg acc' lg',
    loadYamls Load fs policyYamls acc lg = Returned (acc', lg') ->
    exists more, lg' = (lg ++ more)%list.
Proof.
  induction policyYamls as [|y ys IH]; intros acc lg acc' lg' H; cbn in H.
  - inversion H; subst. exists []. now rewrite app_nil_r.
  - destruct (Load (Some fs) "" y) as [lr [e|]].
    + apply IH in H. destruct H as [more H].
      destruct (logNonFatal_extends lr lg) as [m1 H1].
      rewrite H1, <- app_assoc in H. eexists; exact H.
    + destruct (appendLoaded acc lr) as [a|m]; cbn [bind] in H;
        [|discriminate].
      apply IH in H. destruct H as [more H].
      destruct (logNonFatal_extends lr lg) as [m1 H1].
      rewrite H1, <- app_assoc in H. eexists; exact H.
Qed.

(** One iteration either goes on with a longer log, or returns a failure
    that holds nothing but the error. *)
Lemma loadPath_shape (sk : SkippedInvalidPolicies) (path gitBranch : string)
    (acc : Loaded VAP VAPBinding) (lg : list LogEntry) step :
  path_step sk path gitBranch acc lg = Returned step ->
  match step with
  | LoopContinue _ _ lg' => exists more, lg' = (lg ++ more)%list
  | LoopReturn r _ lg' =>
      (exists e, r = loadFailed sk e) /\ exists more, lg' = (lg ++ more)%list
  end.
Proof.
  unfold path_step, loadPath. intros H.
  assert (Hnil : exists more, lg = (lg ++ more)%list)
    by (exists []; now rewrite app_nil_r).
  destruct (IsGit path).
  - destruct (url_Parse path) as [u|e].
    2:{ inversion H; subst. split; [eexists; reflexivity|exact Hnil]. }
    destruct (from1 (URL_Path u)) as [tail|m]; cbn [bind] in H;
      [|discriminate].
    destruct (Z.leb _ 1).
    { inversion H; subst. split; [eexists; reflexivity|exact Hnil]. }
    destruct (GetGitBranchOrPolicyPaths _ _ _) as [gb yamlsPath].
    destruct (Clone _ _ _) as [fs [e|]].
    { inversion H; subst. split; eexists; reflexivity. }
    destruct (ListYamls fs yamlsPath) as [ys [e|]].
    { inversion H; subst. split; [eexists; reflexivity|exact Hnil]. }
    destruct (loadYamls Load fs ys acc lg) as [[a l1]|m] eqn:Hy;
      cbn [bind] in H; [|discriminate].
    inversion H; subst. apply loadYamls_extends in Hy.
    destruct Hy as [more ->]. unfold logEmptyNamespace.
    rewrite <- app_assoc. eexists; reflexivity.
  - destruct (Load None "" path) as [lr [e|]].
    + inversion H; subst. destruct (logNonFatal_extends lr lg) as [m1 ->].
      unfold logEmptyNamespace. rewrite <- !app_assoc.
      eexists; reflexivity.
    + destruct (appendLoaded acc lr) as [a|m]; cbn [bind] in H;
        [|discriminate].
      inversion H; subst. destruct (logNonFatal_extends lr lg) as [m1 ->].
      unfold logEmptyNamespace. rewrite <- !app_assoc.
      eexists; reflexivity.
Qed.

Lemma loadPaths_shape (sk : SkippedInvalidPolicies) (paths : list string) :
  forall gitBranch acc lg r gb lg',
    paths_loop sk paths gitBranch acc lg = Returned (r, gb, lg') ->
    l_skipInvalidPolicies r = sk
    /\ l_rc r = None /\ l_resources r = [] /\ l_responses r = []
    /\ (l_err r <> None ->
        l_policies r = [] /\ l_vaps r = [] /\ l_vapBindings r = [])
    /\ exists more, lg' = (lg ++ more)%list.
Proof.
  unfold paths_loop.
  induction paths as [|p paths IH]; intros gitBranch acc lg r gb lg' H.
  - cbn in H. inversion H; subst. cbn.
    repeat split; try congruence. exists []. now rewrite app_nil_r.
  - cbn [loadPaths] in H.
    destruct (loadPath _ _ _ _ _ _ _ _ _ _ sk p gitBranch acc lg)
      as [step|m] eqn:Hs; cbn [bind] in H; [|discriminate].
    pose proof (loadPath_shape sk p gitBranch acc lg step Hs) as Hshape.
    destruct step as [gb1 a1 l1|r1 gb1 l1].
    + apply IH in H. destruct Hshape as [m1 ->].
      destruct H as (H1 & H2 & H3 & H4 & H5 & more & H6).
      repeat split; try assumption; try (apply H5; assumption).
      rewrite H6, <- app_assoc. eexists; reflexivity.
    + inversion H; subst. destruct Hshape as [[e ->] Hl]. cbn.
      repeat split; try reflexivity. exact Hl.
Qed.

(** X6: whatever [loadPolicies] returns, the skipped and invalid policies
    are those it was given, and the counts, resources and responses are nil;
    when it returns an error it returns no policy, admission policy or
    binding, not even those of the paths loaded before the failure; and the
    log is only appended to. *)
Theorem loadPolicies_result_shape (c : ApplyCommandConfig)
    (sk : SkippedInvalidPolicies) (lg : list LogEntry) r gb lg' :
  load_all c sk lg = Returned (r, gb, lg') ->
  l_skipInvalidPolicies r = sk
  /\ l_rc r = None /\ l_resources r = [] /\ l_responses r = []
  /\ (l_err r <> None ->
      l_policies r = [] /\ l_vaps r = [] /\ l_vapBindings r = [])
  /\ exists more, lg' = (lg ++ more)%list.
Proof.
  unfold load_all, loadPolicies. apply loadPaths_shape.
Qed.

(** X7: when every policy path is local and [policy.Load] returns results
    whenever it returns no error, [loadPolicies] returns no error, leaves the
    git branch as it is, and returns the policies, admission policies and
    bindings of the files that loaded, in the order of the paths; the files
    that did not load contribute nothing. *)
Theorem loadPolicies_local_paths (c : ApplyCommandConfig)
    (sk : SkippedInvalidPolicies) (lg : list LogEntry) :
  (forall p, In p (PolicyPaths c) ->
     IsGit p = false
     /\ (snd (Load None "" p) = None -> fst (Load None "" p) <> None)) ->
  exists lg',
    load_all c sk lg
    = Returned
        ({| l_rc := None; l_resources := [];
            l_skipInvalidPolicies := sk; l_responses := [];
            l_policies := flat_map (local_policies Load) (PolicyPaths c);
            l_vaps := flat_map (local_vaps Load) (PolicyPaths c);
            l_vapBindings := flat_map (local_bindings Load) (PolicyPaths c);
            l_err := None |},
         GitBranch c, lg').
Proof.
  intros Hloc. unfold load_all, loadPolicies.
  destruct (loadPaths_local _ _ _ _ IsGit url_Parse URL_Path URL_setPath
              URL_String GetGitBranchOrPolicyPaths memfs_New Clone ListYamls
              Load sk (PolicyPaths c) Hloc (GitBranch c)
              {| policies := []; vaps := []; vapBindings := [] |} lg)
    as [lg' H].
  exists lg'. exact H.
Qed.

(** X8: a git source whose URL path, after its first byte, holds no "/"
    (so names no repository under an owner) ends the loading: [loadPolicies]
    returns the error "failed to parse URL (invalid URL path ...)" and no
    policy, and the paths after it are not loaded. *)
Theorem loadPolicies_git_short_path (c : ApplyCommandConfig)
    (sk : SkippedInvalidPolicies) (lg : list LogEntry)
    (p : string) (rest : list string) (u : URL) (first : ascii)
    (segment : string) :
  PolicyPaths c = p :: rest ->
  IsGit p = true ->
  url_Parse p = inl u ->
  URL_Path u = String first segment ->
  ContainsByte segment slash = false ->
  exists r tail,
    load_all c sk lg = Returned (r, GitBranch c, lg)
    /\ l_err r
       = Some (ErrorfW "failed to parse URL ("
                 (Errorf ("invalid URL path " ++ URL_Path u ++ tail)) ")")
    /\ l_policies r = [] /\ l_vaps r = [] /\ l_vapBindings r = [].
Proof.
  intros Hp Hgit Hu Hpath Hseg.
  unfold load_all, loadPolicies. rewrite Hp. cbn [loadPaths].
  unfold loadPath. rewrite Hgit, Hu, Hpath. cbn [from1 bind].
  rewrite (Split_no_sep _ _ Hseg). cbn [len List.length Z.of_nat Z.leb].
  cbn. eexists _, _. repeat split.
Qed.

(** X9: a git source whose URL has an empty path makes [loadPolicies]
    panic, on the slice expression [gitSourceURL.Path[1:]]. *)
Theorem loadPolicies_git_empty_path_panics (c : ApplyCommandConfig)
    (sk : SkippedInvalidPolicies) (lg : list LogEntry)
    (p : string) (rest : list string) (u : URL) :
  PolicyPaths c = p :: rest ->
  IsGit p = true ->
  url_Parse p = inl u ->
  URL_Path u = ""%string ->
  load_all c sk lg = Panicked "slice bounds out of range [1:0]".
Proof.
  intros Hp Hgit Hu Hpath.
  unfold load_all, loadPolicies. rewrite Hp. cbn [loadPaths].
  unfold loadPath. rewrite Hgit, Hu, Hpath. reflexivity.
Qed.

(** X10: the repository of a git source is named by the first two segments
    of the URL path, whatever follows them: the URL that is cloned has the
    path owner/repo.  When the clone fails, [loadPolicies] logs the
    repository URL and returns the error "failed to clone repository (...)"
    with no policy; the git branch is the one that
    [GetGitBranchOrPolicyPaths] chose. *)
Theorem loadPolicies_git_repository (c : ApplyCommandConfig)
    (sk : SkippedInvalidPolicies) (lg : list LogEntry)
    (p : string) (rest : list string) (u : URL) (first : ascii)
    (owner repo more : string) (err : error) :
  PolicyPaths c = p :: rest ->
  IsGit p = true ->
  url_Parse p = inl u ->
  ContainsByte owner slash = false ->
  ContainsByte repo slash = false ->
  (URL_Path u = String first (owner ++ "/" ++ repo)
   \/ URL_Path u = String first (owner ++ "/" ++ repo ++ "/" ++ more)) ->
  let repoURL := URL_String (URL_setPath u (owner ++ "/" ++ repo)) in
  let branch := fst (GetGitBranchOrPolicyPaths (GitBranch c) repoURL p) in
  snd (Clone repoURL memfs_New branch) = Some err ->
  load_all c sk lg
  = Returned
      (loadFailed sk (ErrorfW "failed to clone repository (" err ")"),
       branch,
       (lg ++ [LogV3Info ("failed to clone repository  " ++ repoURL
                          ++ " as it is not valid")
                         ["error"; Error_text err]])%list).
Proof.
  intros Hp Hgit Hu Ho Hr Hpath repoURL branch Hclone.
  unfold load_all, loadPolicies. rewrite Hp. cbn [loadPaths].
  unfold loadPath. rewrite Hgit, Hu.
  assert (Hsplit : exists others,
             Split (match URL_Path u with
                    | EmptyString => EmptyString
                    | String _ s' => s'
                    end) slash = owner :: repo :: others
             /\ from1 (URL_Path u)
                = Returned (match URL_Path u with
                            | EmptyString => EmptyString
                            | String _ s' => s'
                            end)).
  { destruct Hpath as [-> | ->]; cbn [from1].
    - exists []. split; [|reflexivity].
      change (owner ++ "/" ++ repo)%string
        with (owner ++ String slash repo)%string.
      rewrite (Split_at_sep _ _ _ Ho), (Split_no_sep _ _ Hr). reflexivity.
    - exists (Split more slash). split; [|reflexivity].
      change (owner ++ "/" ++ repo ++ "/" ++ more)%string
        with (owner ++ String slash (repo ++ String slash more))%string.
      rewrite (Split_at_sep _ _ _ Ho), (Split_at_sep _ _ _ Hr).
      reflexivity. }
  destruct Hsplit as (others & Hs & Hf). rewrite Hf. cbn [bind].
  rewrite Hs.
  assert (Hlen : Z.leb (len (owner :: repo :: others)) 1 = false).
  { apply Z.leb_gt. unfold len. cbn [List.length]. lia. }
  rewrite Hlen. cbn [nth Join String.concat].
  fold repoURL.
  destruct (GetGitBranchOrPolicyPaths (GitBranch c) repoURL p)
    as [gb yamlsPath] eqn:Hg.
  subst branch. cbn [fst] in *.
  destruct (Clone repoURL memfs_New gb) as [fs ce]. cbn [snd] in Hclone.
  subst ce. cbn [bind]. reflexivity.
Qed.

End LoadMore.

Lemma loadPolicies_result_shape_witness :
  exists r gb lg',
    loadPolicies Sample.isGit Sample.parseGitURL Sample.gitURLPath
      Sample.gitURLSetPath Sample.gitURLString Sample.gitBranchOrPaths
      Sample.emptyFS Sample.clone Sample.listYamls Sample.load
      (with_PolicyPaths Sample.config
         ["limits.yaml"; "https://github.com/kyverno"; "other.yaml"]%string)
      Sample.no_skips []
    = Returned (r, gb, lg')
    /\ l_err r <> None
    /\ l_skipInvalidPolicies r = Sample.no_skips
    /\ l_rc r = None /\ l_resources r = [] /\ l_responses r = []
    /\ (l_err r <> None ->
        l_policies r = [] /\ l_vaps r = [] /\ l_vapBindings r = [])
    /\ exists more, lg' = ([] ++ more)%list.
Proof.
  eexists _, _, _. split; [reflexivity|]. split; [discriminate|].
  eapply (loadPolicies_result_shape _ _ _ _ Sample.isGit Sample.parseGitURL
           Sample.gitURLPath Sample.gitURLSetPath Sample.gitURLString
           Sample.gitBranchOrPaths Sample.emptyFS Sample.clone
           Sample.listYamls Sample.load
           (with_PolicyPaths Sample.config
              ["limits.yaml"; "https://github.com/kyverno";
               "other.yaml"]%string)
           Sample.no_skips []).
  reflexivity.
Defined.

Lemma loadPolicies_local_paths_witness :
  exists lg',
    loadPolicies Sample.isGit Sample.parseGitURL Sample.gitURLPath
      Sample.gitURLSetPath Sample.gitURLString Sample.gitBranchOrPaths
      Sample.emptyFS Sample.clone Sample.listYamls Sample.load
      (with_PolicyPaths Sample.config
         ["limits.yaml"; "broken.yaml"; "other.yaml"]%string)
      Sample.no_skips []
    = Returned
        ({| l_rc := None; l_resources := [];
            l_skipInvalidPolicies := Sample.no_skips; l_responses := [];
            l_policies := [Sample.limits; Sample.broken];
            l_vaps := []; l_vapBindings := []; l_err := None |},
         ""%string, lg').
Proof.
  apply (loadPolicies_local_paths _ _ _ _ Sample.isGit Sample.parseGitURL
           Sample.gitURLPath Sample.gitURLSetPath Sample.gitURLString
           Sample.gitBranchOrPaths Sample.emptyFS Sample.clone
           Sample.listYamls Sample.load
           (with_PolicyPaths Sample.config
              ["limits.yaml"; "broken.yaml"; "other.yaml"]%string)
           Sample.no_skips []).
  cbn [PolicyPaths with_PolicyPaths].
  intros p [<-|[<-|[<-|[]]]]; split; try reflexivity; cbn; discriminate.
Defined.

Lemma loadPolicies_git_short_path_witness :
  exists r tail,
    loadPolicies Sample.isGit Sample.parseGitURL Sample.gitURLPath
      Sample.gitURLSetPath Sample.gitURLString Sample.gitBranchOrPaths
      Sample.emptyFS Sample.clone Sample.listYamls Sample.load
      (with_PolicyPaths Sample.config
         ["https://github.com/kyverno"; "limits.yaml"]%string)
      Sample.no_skips []
    = Returned (r, ""%string, [])
    /\ l_err r
       = Some (ErrorfW "failed to parse URL ("
                 (Errorf ("invalid URL path " ++ "/kyverno" ++ tail)) ")")
    /\ l_policies r = [] /\ l_vaps r = [] /\ l_vapBindings r = [].
Proof.
  apply (loadPolicies_git_short_path _ _ _ _ Sample.isGit Sample.parseGitURL
           Sample.gitURLPath Sample.gitURLSetPath Sample.gitURLString
           Sample.gitBranchOrPaths Sample.emptyFS Sample.clone
           Sample.listYamls Sample.load
           (with_PolicyPaths Sample.config
              ["https://github.com/kyverno"; "limits.yaml"]%string)
           Sample.no_skips [] "https://github.com/kyverno"
           ["limits.yaml"%string] ("https://github.com", "/kyverno")%string
           "/"%char "kyverno"); reflexivity.
Defined.

Lemma loadPolicies_git_empty_path_panics_witness :
  loadPolicies Sample.isGit Sample.parseGitURL Sample.gitURLPath
    Sample.gitURLSetPath Sample.gitURLString Sample.gitBranchOrPaths
    Sample.emptyFS Sample.clone Sample.listYamls Sample.load
    (with_PolicyPaths Sample.config ["https://github.com"%string])
    Sample.no_skips []
  = Panicked "slice bounds out of range [1:0]".
Proof.
  apply (loadPolicies_git_empty_path_panics _ _ _ _ Sample.isGit
           Sample.parseGitURL Sample.gitURLPath Sample.gitURLSetPath
           Sample.gitURLString Sample.gitBranchOrPaths Sample.emptyFS
           Sample.clone Sample.listYamls Sample.load
           (with_PolicyPaths Sample.config ["https://github.com"%string])
           Sample.no_skips [] "https://github.com" []
           ("https://github.com", "")%string); reflexivity.
Defined.

Lemma loadPolicies_git_repository_witness :
  loadPolicies Sample.isGit Sample.parseGitURL Sample.gitURLPath
    Sample.gitURLSetPath Sample.gitURLString Sample.gitBranchOrPaths
    Sample.emptyFS Sample.cloneFails Sample.listYamls Sample.load
    (with_PolicyPaths Sample.config
       ["https://github.com/kyverno/policies/main/pod-security"%string])
    Sample.no_skips []
  = Returned
      (loadFailed Sample.no_skips
         (ErrorfW "failed to clone repository ("
            (Errorf "repository not found") ")"),
       ""%string,
       [LogV3Info
          "failed to clone repository  https://github.com/kyverno/policies as it is not valid"
          ["error"%string; "repository not found"%string]]).
Proof.
  apply (loadPolicies_git_repository _ _ _ _ Sample.isGit Sample.parseGitURL
           Sample.gitURLPath Sample.gitURLSetPath Sample.gitURLString
           Sample.gitBranchOrPaths Sample.emptyFS Sample.cloneFails
           Sample.listYamls Sample.load
           (with_PolicyPaths Sample.config
              ["https://github.com/kyverno/policies/main/pod-security"%string])
           Sample.no_skips []
           "https://github.com/kyverno/policies/main/pod-security" []
           ("https://github.com",
            "/kyverno/policies/main/pod-security")%string
           "/"%char "kyverno" "policies" "main/pod-security"
           (Errorf "repository not found")); try reflexivity.
  right. reflexivity.
Defined.

(** ** [applyPolicytoResource]: lists and counts *)

Lemma rejected_partition (Validate : PolicyInterface -> option error)
    (policies : list PolicyInterface) :
  (List.length (filter (isListedSkipped Validate) policies)
   + List.length (filter (isListedInvalid Validate) policies))%nat
  = List.length (filter (isRejected Validate) policies).
Proof.
  induction policies as [|pol ps IH]; [reflexivity|].
  cbn [filter]. unfold isListedSkipped, isListedInvalid, isRejected in *.
  destruct (Validate pol) as [e|]; cbn [isNil negb]; [|exact IH].
  destruct (HasPrefix (Error_text e) "variable 'element.name'");
    cbn [negb List.length]; lia.
Qed.

Section ApplyMore.

Variables VariablesT PolicyException RequestInfo Client : Type.
Variables NamespaceSelectorMap Subresource World : Type.
Variable SetInStore : VariablesT -> World -> World.
Variable NamespaceSelectors : ptr VariablesT -> NamespaceSelectorMap.
Variable Subresources : ptr VariablesT -> list Subresource.
Variable Validate : PolicyInterface -> option error.
Variable ApplyPoliciesOnResource :
  PolicyProcessor VariablesT PolicyException RequestInfo Client
    NamespaceSelectorMap Subresource ->
  ResultCounts -> State World ->
  (list EngineResponse * option error) * ResultCounts * State World.

Lemma applyPolicytoResource_lists
    (c : ApplyCommandConfig) (out : Writer) (vars : ptr VariablesT)
    (policies : list PolicyInterface) (resources : list Unstructured)
    (exceptions : list PolicyException) (sk : SkippedInvalidPolicies)
    (dClient : Client) (userInfo : ptr RequestInfo)
    (mutateLogPathIsDir : bool) (st : State World) ares sk' st' :
  applyPolicytoResource SetInStore NamespaceSelectors Subresources Validate
    ApplyPoliciesOnResource c out vars policies resources exceptions sk
    dClient userInfo mutateLogPathIsDir st = (ares, sk', st') ->
  skipped sk'
  = (skipped sk
     ++ map GetName (filter (isListedSkipped Validate) policies))%list
  /\ invalid sk'
     = (invalid sk
        ++ map GetName (filter (isListedInvalid Validate) policies))%list
  /\ a_resources ares = resources.
Proof.
  rewrite applyPolicytoResource_unfold. cbv zeta.
  destruct (applyResources _ _ _ _ _ _ _) as [[[rc responses] err] st2].
  destruct err; intros H; inversion H; subst; cbn; repeat split.
Qed.

(** X11: the skipped and invalid lists after a run are those before it,
    extended in policy order by the names of the rejected policies, each
    name in one of the two lists; the resources are returned as given.  A
    run without resources returns no error and no response, and (short of
    overflow) counts as errors exactly the names it added to the two lists,
    all other counts being zero. *)
Theorem applyPolicytoResource_lists_and_counts
    (c : ApplyCommandConfig) (out : Writer) (vars : ptr VariablesT)
    (policies : list PolicyInterface) (resources : list Unstructured)
    (exceptions : list PolicyException) (sk : SkippedInvalidPolicies)
    (dClient : Client) (userInfo : ptr RequestInfo)
    (mutateLogPathIsDir : bool) (st : State World) :
  let run :=
    applyPolicytoResource SetInStore NamespaceSelectors Subresources Validate
      ApplyPoliciesOnResource c out vars policies resources exceptions sk
      dClient userInfo mutateLogPathIsDir st in
  let addedSkipped :=
    map GetName (filter (isListedSkipped Validate) policies) in
  let addedInvalid :=
    map GetName (filter (isListedInvalid Validate) policies) in
  skipped (snd (fst run)) = (skipped sk ++ addedSkipped)%list
  /\ invalid (snd (fst run)) = (invalid sk ++ addedInvalid)%list
  /\ (List.length addedSkipped + List.length addedInvalid)%nat
     = List.length (filter (isRejected Validate) policies)
  /\ a_resources (fst (fst run)) = resources
  /\ (resources = [] ->
      a_err (fst (fst run)) = None
      /\ a_responses (fst (fst run)) = []
      /\ (Z.of_nat (List.length policies) <= int_max ->
          a_rc (fst (fst run))
          = {| Pass := 0; Fail := 0; Warn := 0;
               Error := Z.of_nat (List.length addedSkipped
                                  + List.length addedInvalid);
               Skip := 0 |})).
Proof.
  intros run addedSkipped addedInvalid. subst run.
  rewrite applyPolicytoResource_unfold. cbv zeta.
  assert (Hpart : (List.length addedSkipped + List.length addedInvalid)%nat
                  = List.length (filter (isRejected Validate) policies)).
  { subst addedSkipped addedInvalid. rewrite !length_map.
    apply rejected_partition. }
  destruct (applyResources _ _ _ _ _ _ _) as [[[rc responses] err] st2]
    eqn:HR.
  split; [destruct err; reflexivity|].
  split; [destruct err; reflexivity|].
  split; [exact Hpart|].
  split; [destruct err; reflexivity|].
  intros ->. cbn in HR. inversion HR; subst. cbn.
  split; [reflexivity|]. split; [reflexivity|].
  intros Hlen. rewrite Hpart.
  set (k := List.length (filter (isRejected Validate) policies)).
  assert (Hk : Z.of_nat k <= int_max).
  { pose proof (filter_length_le (isRejected Validate) policies).
    subst k. unfold int_max in *. lia. }
  destruct (Error_after_rejections k Hk) as (He & Hp & Hf & Hw & Hs).
  destruct (Nat.iter k (IncrementError 1) zeroResultCounts).
  cbn in *. subst. reflexivity.
Qed.

(** X12: when what the processor returns and counts does not depend on the
    state of the world, a second run on the same policies and resources,
    started where the first one ended, returns the counts, resources,
    responses and error of the first; but the skipped and invalid lists,
    which the caller hands over, receive the names of the rejected policies
    a second time. *)
Theorem second_run_repeats_result :
  (forall p rc st1 st2,
      fst (ApplyPoliciesOnResource p rc st1)
      = fst (ApplyPoliciesOnResource p rc st2)) ->
  forall (c : ApplyCommandConfig) (out : Writer) (vars : ptr VariablesT)
         (policies : list PolicyInterface) (resources : list Unstructured)
         (exceptions : list PolicyException) (sk : SkippedInvalidPolicies)
         (dClient : Client) (userInfo : ptr RequestInfo)
         (mutateLogPathIsDir : bool) (st : State World),
    let runOn := applyPolicytoResource SetInStore NamespaceSelectors
                   Subresources Validate ApplyPoliciesOnResource c out vars
                   policies resources exceptions in
    let first := runOn sk dClient userInfo mutateLogPathIsDir st in
    let second := runOn (snd (fst first)) dClient userInfo mutateLogPathIsDir
                    (snd first) in
    let rejectedSkipped :=
      map GetName (filter (isListedSkipped Validate) policies) in
    let rejectedInvalid :=
      map GetName (filter (isListedInvalid Validate) policies) in
    fst (fst second) = fst (fst first)
    /\ skipped (snd (fst second))
       = (skipped sk ++ rejectedSkipped ++ rejectedSkipped)%list
    /\ invalid (snd (fst second))
       = (invalid sk ++ rejectedInvalid ++ rejectedInvalid)%list.
Proof.
  intros Hind c out vars policies resources exceptions sk dClient userInfo
    isDir st runOn first second rejectedSkipped rejectedInvalid.
  split.
  - subst second first runOn.
    apply applyPolicytoResource_state_independent. exact Hind.
  - subst second runOn.
    destruct first as [[ares1 sk1] st1] eqn:H1. subst first. cbn [fst snd].
    apply applyPolicytoResource_lists in H1. destruct H1 as (Hs1 & Hi1 & _).
    match goal with
    | |- context [applyPolicytoResource ?a ?b ?d ?e ?f ?g ?h ?i ?j ?k ?l ?m
                    ?n ?o ?q ?r] =>
        destruct (applyPolicytoResource a b d e f g h i j k l m n o q r)
          as [[ares2 sk2] st2] eqn:H2
    end.
    cbn [fst snd]. apply applyPolicytoResource_lists in H2.
    destruct H2 as (Hs2 & Hi2 & _).
    rewrite Hs2, Hi2, Hs1, Hi1, <- !app_assoc. split; reflexivity.
Qed.

End ApplyMore.

Lemma second_run_repeats_result_witness :
  let runOn := applyPolicytoResource Sample.setInStore
                 Sample.namespaceSelectors Sample.subresources
                 Sample.validate Sample.processor Sample.config_continue
                 Sample.stdout_writer None [Sample.limits; Sample.broken]
                 [Sample.configmap; Sample.deployment] [] in
  let first := runOn Sample.no_skips tt None false Sample.start in
  let second := runOn (snd (fst first)) tt None false (snd first) in
  fst (fst second) = fst (fst first)
  /\ skipped (snd (fst second)) = ["broken"; "broken"]%string
  /\ invalid (snd (fst second)) = [].
Proof.
  apply (second_run_repeats_result unit unit unit unit unit unit unit
           Sample.setInStore Sample.namespaceSelectors Sample.subresources
           Sample.validate Sample.processor).
  intros p rc st1 st2. unfold Sample.processor.
  destruct (String.eqb (u_kind (PP_Resource p)) "ConfigMap"); reflexivity.
Defined.

(** ** [applyValidatingAdmissionPolicytoResource] *)

Section VAPFacts.

Variables Client NamespaceSelectorMap VAP VAPBinding World : Type.

Let Processor : Type :=
  ValidatingAdmissionPolicyProcessor Client NamespaceSelectorMap VAP
    VAPBinding.
Let Recorded : Type := (World * list (VCall Client NamespaceSelectorMap VAP
                                        VAPBinding))%type.

Variable ApplyPolicyOnResource :
  Processor -> ResultCounts -> State World ->
  (list EngineResponse * option error) * ResultCounts * State World.

Let processorOf (c : ApplyCommandConfig) (vaps : list VAP)
    (vapBindings : list VAPBinding) (nsmap : NamespaceSelectorMap)
    (dClient : Client) (resource : Unstructured) : Processor :=
  {| VP_Policies := vaps; VP_Bindings := vapBindings;
     VP_Resource := resource; VP_NamespaceSelectorMap := nsmap;
     VP_PolicyReport := PolicyReport c; VP_Client := dClient |}.

Lemma applyVAPResources_recorded (c : ApplyCommandConfig) (vaps : list VAP)
    (vapBindings : list VAPBinding) (nsmap : NamespaceSelectorMap)
    (dClient : Client) (resources : list Unstructured) :
  forall rc responses stdout (st : State Recorded) responses' err' rc'
         stdout' st',
    applyVAPResources (recordingVAP ApplyPolicyOnResource) c vaps vapBindings
      nsmap dClient resources rc responses stdout st
    = ((responses', err'), rc', stdout', st') ->
    applyVAPResources ApplyPolicyOnResource c vaps vapBindings nsmap dClient
      resources rc responses stdout
      {| world := fst (world st); logs := logs st |}
    = ((responses', err'), rc', stdout',
       {| world := fst (world st'); logs := logs st' |})
    /\ exists calls,
         snd (world st') = (snd (world st) ++ calls)%list
         /\ responses' = (responses ++ flat_map returnedByVAP calls)%list
         /\ (err' = None ->
             map fst calls
             = map (processorOf c vaps vapBindings nsmap dClient) resources)
         /\ (ContinueOnFail c = true ->
             err' = None
             /\ stdout' = (stdout ++ flat_map failureLine calls)%list)
         /\ (ContinueOnFail c = false -> stdout' = stdout)
         /\ (forall e, err' = Some e ->
             exists pre r post calls0 ers inner,
               resources = (pre ++ r :: post)%list
               /\ calls
                  = (calls0
                     ++ [(processorOf c vaps vapBindings nsmap dClient r,
                          (ers, Some inner))])%list
               /\ map fst calls0
                  = map (processorOf c vaps vapBindings nsmap dClient) pre
               /\ Forall (fun call => snd (snd call) = None) calls0
               /\ e = ErrorfW ("failed to apply policies on resource "
                               ++ GetName r ++ " (") inner ")").
Proof.
  induction resources as [|r resources IH];
    intros rc responses stdout st responses' err' rc' stdout' st' Hrun.
  - cbn in Hrun. inversion Hrun; subst. split; [reflexivity|]. exists [].
    rewrite !app_nil_r. repeat split; try reflexivity; discriminate.
  - cbn [applyVAPResources] in *. unfold recordingVAP at 1 in Hrun.
    fold (processorOf c vaps vapBindings nsmap dClient r) in *.
    unfold Recorded in *.
    destruct (ApplyPolicyOnResource
                (processorOf c vaps vapBindings nsmap dClient r) rc
                {| world := fst (world st); logs := logs st |})
      as [[[ers err] rc1] st1] eqn:HP.
    cbn [world logs fst snd] in Hrun.
    destruct err as [inner|].
    + destruct (ContinueOnFail c) eqn:Hcof.
      * apply IH in Hrun. destruct Hrun as (Hplain & calls & Ht & Hr & He
                                            & Hc & Hn & Hf).
        cbn [world logs fst snd] in Hplain, Ht.
        split; [destruct st1; exact Hplain|].
        exists ((processorOf c vaps vapBindings nsmap dClient r,
                 (ers, Some inner)) :: calls)%list.
        rewrite Ht, <- app_assoc.
        cbn [app flat_map returnedByVAP failureLine snd fst VP_Resource
             processorOf].
        destruct (Hc eq_refl) as [Herr Hout].
        repeat split; try assumption; try discriminate.
        -- intros Hnone. cbn [map fst]. now rewrite (He Hnone).
        -- rewrite Hout, <- app_assoc. reflexivity.
        -- intros e Hs. rewrite Herr in Hs. discriminate.
      * inversion Hrun; subst. cbn [world logs fst snd].
        split; [destruct st1; reflexivity|].
        exists [(processorOf c vaps vapBindings nsmap dClient r,
                 (ers, Some inner))].
        cbn [flat_map returnedByVAP snd fst app]. rewrite app_nil_r.
        repeat split; try reflexivity; try discriminate.
        intros e He. inversion He; subst.
        exists [], r, resources, [], ers, inner. repeat split. constructor.
    + apply IH in Hrun. destruct Hrun as (Hplain & calls & Ht & Hr & He
                                          & Hc & Hn & Hf).
      cbn [world logs fst snd] in Hplain, Ht.
      split; [destruct st1; exact Hplain|].
      exists ((processorOf c vaps vapBindings nsmap dClient r,
               (ers, None)) :: calls)%list.
      rewrite Ht, Hr, <- !app_assoc.
      cbn [app flat_map returnedByVAP failureLine snd fst].
      repeat split; try assumption.
      * intros Hnone. cbn [map fst]. now rewrite (He Hnone).
      * apply Hc. assumption.
      * apply Hc. assumption.
      * intros e Hs.
        destruct (Hf e Hs) as (pre & r0 & post & calls0 & ers0 & inner & H1
                               & H2 & H3 & H4 & H5).
        exists (r :: pre)%list, r0, post,
          ((processorOf c vaps vapBindings nsmap dClient r, (ers, None))
           :: calls0)%list, ers0, inner.
        subst. cbn [map fst app]. rewrite H3. repeat split.
        constructor; [reflexivity|assumption].
Qed.

(** X13: the loop over the resources for the validating admission policies,
    with the calls of its processor recorded (which changes nothing else).
    Every call gets the policies and bindings given; the responses returned
    are those of the calls that returned no error.  With [ContinueOnFail]
    set the function returns no error, every resource has been handed to
    the processor in order, and one line is printed on standard output for
    each call that failed.  Without it nothing is printed, and an error
    returned means that the processor failed on some resource [r] after
    succeeding on those before it: [r] was its last call and the error wraps
    its error. *)
Theorem applyVAP_continues_only_on_flag (c : ApplyCommandConfig)
    (vaps : list VAP) (vapBindings : list VAPBinding)
    (resources : list Unstructured) (nsmap : NamespaceSelectorMap)
    (rc : ResultCounts) (dClient : Client) (st : State Recorded) :
  let run :=
    applyValidatingAdmissionPolicytoResource
      (recordingVAP ApplyPolicyOnResource) c vaps vapBindings resources nsmap
      rc dClient st in
  let responses := fst (fst (fst (fst run))) in
  let err := snd (fst (fst (fst run))) in
  let stdout := snd (fst run) in
  fst (fst (applyValidatingAdmissionPolicytoResource ApplyPolicyOnResource c
              vaps vapBindings resources nsmap rc dClient
              {| world := fst (world st); logs := logs st |}))
  = fst (fst run)
  /\ exists calls,
       snd (world (snd run)) = (snd (world st) ++ calls)%list
       /\ Forall (fun call => VP_Policies (fst call) = vaps
                              /\ VP_Bindings (fst call) = vapBindings) calls
       /\ responses = flat_map returnedByVAP calls
       /\ (ContinueOnFail c = true ->
           err = None
           /\ map (fun call => VP_Resource (fst call)) calls = resources
           /\ stdout = flat_map failureLine calls)
       /\ (ContinueOnFail c = false -> stdout = [])
       /\ (forall e, err = Some e ->
           ContinueOnFail c = false
           /\ exists pre r post calls0 ers inner,
                resources = (pre ++ r :: post)%list
                /\ map (fun call => VP_Resource (fst call)) calls0 = pre
                /\ Forall (fun call => snd (snd call) = None) calls0
                /\ calls
                   = (calls0
                      ++ [(processorOf c vaps vapBindings nsmap dClient r,
                           (ers, Some inner))])%list
                /\ e = ErrorfW ("failed to apply policies on resource "
                                ++ GetName r ++ " (") inner ")").
Proof.
  intros run responses err stdout. subst responses err stdout.
  unfold applyValidatingAdmissionPolicytoResource in *.
  destruct run as [[[[responses err] rc'] stdout] st'] eqn:Hrun. subst run.
  cbn [fst snd].
  apply applyVAPResources_recorded in Hrun.
  destruct Hrun as (Hplain & calls & Ht & Hr & He & Hc & Hn & Hf).
  rewrite Hplain. split; [reflexivity|].
  assert (Hres : forall (cs : list (VCall Client NamespaceSelectorMap VAP
                                      VAPBinding)) rs,
             map fst cs
             = map (processorOf c vaps vapBindings nsmap dClient) rs ->
             map (fun call => VP_Resource (fst call)) cs = rs
             /\ Forall (fun call => VP_Policies (fst call) = vaps
                                    /\ VP_Bindings (fst call) = vapBindings)
                       cs).
  { induction cs as [|x cs IHc]; intros [|r0 rs] Hm; cbn in Hm;
      try discriminate; [split; [reflexivity|constructor]|].
    inversion Hm as [[Hx Hrest]]. destruct (IHc rs Hrest) as [Ha Hb].
    split; [cbn; rewrite Hx, Ha; reflexivity|].
    constructor; [rewrite Hx; split; reflexivity|assumption]. }
  exists calls. cbn [app] in Hr.
  split; [exact Ht|]. split; [|split; [exact Hr|split; [|split]]].
  - destruct err as [e|].
    + destruct (Hf e eq_refl) as (pre & r & post & calls0 & ers & inner & H1
                                  & H2 & H3 & H4 & H5).
      rewrite H2. apply Forall_app. split; [apply (Hres calls0 pre H3)|].
      constructor; [split; reflexivity|constructor].
    + apply (Hres calls resources (He eq_refl)).
  - intros Hflag. destruct (Hc Hflag) as [Herr Hout].
    split; [exact Herr|]. split; [|exact Hout].
    apply (Hres calls resources (He Herr)).
  - intros Hflag. apply (Hn Hflag).
  - intros e Herr. split.
    + destruct (ContinueOnFail c); [|reflexivity].
      destruct (Hc eq_refl) as [Hnone _]. congruence.
    + destruct (Hf e Herr) as (pre & r & post & calls0 & ers & inner & H1
                               & H2 & H3 & H4 & H5).
      exists pre, r, post, calls0, ers, inner.
      repeat split; try assumption. apply (Hres calls0 pre H3).
Qed.

End VAPFacts.

(** ** [applyCommandHelper] and its stages *)

Lemma checkArguments_shape (c : ApplyCommandConfig) :
  checkArguments c
  = helperReturn {| skipped := []; invalid := [] |}
      (res_err (checkArguments c)).
Proof.
  unfold checkArguments, helperReturn. cbv zeta.
  repeat match goal with
         | |- context [if ?b then _ else _] => destruct b
         end; reflexivity.
Qed.

Lemma with_MutateLogPath_same (c : ApplyCommandConfig) :
  with_MutateLogPath c (MutateLogPath c) = c.
Proof. destruct c; reflexivity. Qed.

Lemma with_GitBranch_same (c : ApplyCommandConfig) :
  with_GitBranch c (GitBranch c) = c.
Proof. destruct c; reflexivity. Qed.

Section HelperFacts.

Variables VariablesT PolicyException RequestInfo DClient : Type.
Variables NamespaceSelectorMap Subresource World : Type.
Variables URL FS VAP VAPBinding : Type.
Variables UserInfo RestConfig KubeClient DynamicClient Rule : Type.

Variable checkMutateLogPath :
  string -> World -> (bool * option error) * World.
Variable filepath_Clean : string -> string.
Variable os_OpenFile_trunc : string -> World -> option error * World.
Variable userinfo_Load :
  string -> World -> (ptr UserInfo * option error) * World.
Variable UserInfo_RequestInfo : UserInfo -> RequestInfo.
Variable CheckUserInfo : Writer -> string -> ptr UserInfo -> World -> World.
Variable variables_New :
  Writer -> string -> option (list string) -> World ->
  (ptr VariablesT * option error) * World.
Variable newStore : World -> World.
Variable Store_SetLocal : bool -> World -> World.
Variable Store_SetRegistryAccess : bool -> World -> World.
Variable Store_AllowApiCall : bool -> World -> World.
Variable CreateClientConfigWithContext :
  string -> string -> World -> (RestConfig * option error) * World.
Variable kubernetes_NewForConfig :
  RestConfig -> World -> (KubeClient * option error) * World.
Variable dynamic_NewForConfig :
  RestConfig -> World -> (DynamicClient * option error) * World.
Variable dclient_NewClient :
  DynamicClient -> KubeClient -> World ->
  (option DClient * option error) * World.
Variable IsGit : string -> bool.
Variable url_Parse : string -> URL + error.
Variable URL_Path : URL -> string.
Variable URL_setPath : URL -> string -> URL.
Variable URL_String : URL -> string.
Variable GetGitBranchOrPolicyPaths :
  string -> string -> string -> string * string.
Variable memfs_New : FS.
Variable Clone : string -> FS -> string -> FS * option error.
Variable ListYamls : FS -> string -> list string * option error.
Variable Load :
  ptr FS -> string -> string -> ptr (LoaderResults VAP VAPBinding) * option error.
Variable GetResourceAccordingToResourcePath :
  Writer -> list string -> bool -> list PolicyInterface -> list VAP ->
  option DClient -> string -> bool -> World ->
  (list Unstructured * option error) * World.
Variable exception_SelectFrom : list Unstructured -> list PolicyException.
Variable exception_Load :
  list string -> World -> (list PolicyException * option error) * World.
Variable ComputeRules : PolicyInterface -> list Rule.
Variable SetInStore : VariablesT -> World -> World.
Variable NamespaceSelectors : ptr VariablesT -> NamespaceSelectorMap.
Variable Subresources : ptr VariablesT -> list Subresource.
Variable Validate : PolicyInterface -> option error.
Variable ApplyPoliciesOnResource :
  PolicyProcessor VariablesT PolicyException RequestInfo (option DClient)
    NamespaceSelectorMap Subresource ->
  ResultCounts -> State World ->
  (list EngineResponse * option error) * ResultCounts * State World.
Variable ApplyPolicyOnResource :
  ValidatingAdmissionPolicyProcessor (option DClient) NamespaceSelectorMap
    VAP VAPBinding ->
  ResultCounts -> State World ->
  (list EngineResponse * option error) * ResultCounts * State World.

Let helper :=
  applyCommandHelper checkMutateLogPath filepath_Clean os_OpenFile_trunc
    userinfo_Load UserInfo_RequestInfo CheckUserInfo variables_New newStore
    Store_SetLocal Store_SetRegistryAccess Store_AllowApiCall
    CreateClientConfigWithContext kubernetes_NewForConfig
    dynamic_NewForConfig dclient_NewClient IsGit url_Parse URL_Path
    URL_setPath URL_String GetGitBranchOrPolicyPaths memfs_New Clone
    ListYamls Load GetResourceAccordingToResourcePath exception_SelectFrom
    exception_Load ComputeRules SetInStore NamespaceSelectors Subresources
    Validate ApplyPoliciesOnResource ApplyPolicyOnResource.
Let load_all :=
  loadPolicies IsGit url_Parse URL_Path URL_setPath URL_String
    GetGitBranchOrPolicyPaths memfs_New Clone ListYamls Load.
Let apply_all :=
  applyPolicytoResource SetInStore NamespaceSelectors Subresources Validate
    ApplyPoliciesOnResource.
Let apply_vaps :=
  applyValidatingAdmissionPolicytoResource ApplyPolicyOnResource.

Lemma getMutateLogPathIsDir_shape (c : ApplyCommandConfig)
    (sk : SkippedInvalidPolicies) (st : State World) :
  exists e,
    fst (fst (getMutateLogPathIsDir checkMutateLogPath c sk st))
    = helperReturn sk e.
Proof.
  unfold getMutateLogPathIsDir.
  destruct (checkMutateLogPath _ _) as [[isDir [e|]] w]; eexists;
    reflexivity.
Qed.

Lemma cleanPreviousContent_shape (c : ApplyCommandConfig) (isDir : bool)
    (sk : SkippedInvalidPolicies) (st : State World) :
  let r := cleanPreviousContent filepath_Clean os_OpenFile_trunc c isDir sk
             st in
  (exists e, fst (fst r) = helperReturn sk e)
  /\ (snd (fst r) = c
      \/ (MutateLogPath c <> ""
          /\ snd (fst r)
             = with_MutateLogPath c (filepath_Clean (MutateLogPath c)))).
Proof.
  unfold cleanPreviousContent. cbv zeta.
  destruct (String.eqb_spec (MutateLogPath c) "") as [Hp|Hp];
    [rewrite andb_false_r;
     split; [eexists; reflexivity|left; reflexivity]|].
  destruct (negb isDir); cbn [andb negb].
  - destruct (os_OpenFile_trunc _ _) as [[e|] w]; cbn [fst snd];
      (split; [eexists; reflexivity|right; split; [exact Hp|reflexivity]]).
  - cbn [fst snd]. split; [eexists; reflexivity|left; reflexivity].
Qed.

Lemma initStoreAndClusterClient_shape (c : ApplyCommandConfig)
    (sk : SkippedInvalidPolicies) (st : State World) :
  exists e,
    fst (fst (initStoreAndClusterClient Store_SetLocal
                Store_SetRegistryAccess Store_AllowApiCall
                CreateClientConfigWithContext kubernetes_NewForConfig
                dynamic_NewForConfig dclient_NewClient c sk st))
    = helperReturn sk e.
Proof.
  unfold initStoreAndClusterClient. cbv zeta.
  destruct (Cluster c); [|eexists; reflexivity].
  destruct (CreateClientConfigWithContext _ _ _) as [[rcfg [e|]] w];
    [eexists; reflexivity|].
  destruct (kubernetes_NewForConfig _ _) as [[kc [e|]] w1];
    [eexists; reflexivity|].
  destruct (dynamic_NewForConfig _ _) as [[dc [e|]] w2];
    [eexists; reflexivity|].
  destruct (dclient_NewClient _ _ _) as [[cl [e|]] w3]; eexists; reflexivity.
Qed.

Lemma loadUserInfo_shape (c : ApplyCommandConfig) (out : Writer)
    (sk : SkippedInvalidPolicies) (st : State World) res st' :
  loadUserInfo userinfo_Load UserInfo_RequestInfo CheckUserInfo c out sk st
  = Returned (inr res, st') ->
  exists e, res = helperReturn sk (Some e).
Proof.
  unfold loadUserInfo.
  destruct (negb _); [|discriminate].
  destruct (userinfo_Load _ _) as [[info [e|]] w].
  - intros H. inversion H; subst. eexists; reflexivity.
  - destruct info; cbn; discriminate.
Qed.

(** The stages of a call that returns: it stops before the policies are
    loaded, or stops between loading and evaluation, or evaluates. *)
Lemma applyCommandHelper_stages (c : ApplyCommandConfig) (out : Writer)
    (st : State World) (run : HelperRun World) :
  helper c out st = Returned run ->
  let zero := {| skipped := []; invalid := [] |} in
  exists c1,
    (c1 = c
     \/ (MutateLogPath c <> ""
         /\ c1 = with_MutateLogPath c (filepath_Clean (MutateLogPath c))))
    /\ ((exists e,
           h_result run = helperReturn zero (Some e)
           /\ h_out run = [] /\ h_stdout run = [] /\ h_config run = c1)
        \/ exists lres gb lg0 lg1,
             load_all c1 zero lg0 = Returned (lres, gb, lg1)
             /\ h_config run = with_GitBranch c1 gb
             /\ ((exists e,
                    h_result run
                    = {| res_rc := l_rc lres;
                         res_resources := l_resources lres;
                         res_skipInvalidPolicies := l_skipInvalidPolicies lres;
                         res_responses := l_responses lres;
                         res_err := Some e |}
                    /\ h_out run = [] /\ h_stdout run = [])
                 \/ exists userInfo variables dClient isDir resources
                           exceptions st1 ares sk st2,
                      l_err lres = None
                      /\ (if inlineExceptions c1
                          then exceptions = exception_SelectFrom resources
                          else exists w,
                                 fst (exception_Load (Exception c1) w)
                                 = (exceptions, None))
                      /\ h_out run
                         = banner ComputeRules (with_GitBranch c1 gb)
                             (l_policies lres) (l_vaps lres) resources
                             exceptions
                      /\ apply_all (with_GitBranch c1 gb)
                           (Writes out (h_out run)) variables
                           (l_policies lres) resources exceptions
                           (l_skipInvalidPolicies lres) dClient userInfo
                           isDir st1
                         = (ares, sk, st2)
                      /\ ((exists e,
                             a_err ares = Some e
                             /\ h_stdout run = []
                             /\ h_result run
                                = {| res_rc := Some (a_rc ares);
                                     res_resources := a_resources ares;
                                     res_skipInvalidPolicies := sk;
                                     res_responses := a_responses ares;
                                     res_err := Some e |})
                          \/ (a_err ares = None
                              /\ exists responses2 err rc st3,
                                   apply_vaps (with_GitBranch c1 gb)
                                     (l_vaps lres) (l_vapBindings lres)
                                     (a_resources ares)
                                     (NamespaceSelectors variables)
                                     (a_rc ares) dClient st2
                                   = (responses2, err, rc, h_stdout run, st3)
                                   /\ h_result run
                                      = {| res_rc := Some rc;
                                           res_resources := a_resources ares;
                                           res_skipInvalidPolicies := sk;
                                           res_responses :=
                                             match err with
                                             | Some _ => a_responses ares
                                             | None =>
                                                 (a_responses ares
                                                  ++ responses2)%list
                                             end;
                                           res_err := err |})))).
Proof.
  intros H zero. unfold helper, applyCommandHelper in H. cbv zeta in H.
  rewrite (checkArguments_shape c) in H.
  cbn [res_err helperReturn res_skipInvalidPolicies] in H. fold zero in H.
  destruct (res_err (checkArguments c)) as [e0|].
  { inversion H; subst run. exists c. split; [left; reflexivity|]. left.
    exists e0. repeat split. }
  destruct (getMutateLogPathIsDir_shape c zero st) as [e1 He1].
  destruct (getMutateLogPathIsDir checkMutateLogPath c zero st)
    as [[res1 isDir] st1].
  cbn [fst] in He1. subst res1.
  cbn [res_err helperReturn res_skipInvalidPolicies] in H.
  destruct e1 as [e1|].
  { inversion H; subst run. exists c. split; [left; reflexivity|]. left.
    exists e1. repeat split. }
  destruct (cleanPreviousContent_shape c isDir zero st1) as [[e2 He2] Hc].
  destruct (cleanPreviousContent filepath_Clean os_OpenFile_trunc c isDir
              zero st1) as [[res2 c1] st2].
  cbn [fst snd] in He2, Hc. subst res2.
  cbn [res_err helperReturn res_skipInvalidPolicies] in H.
  exists c1. split; [exact Hc|].
  destruct e2 as [e2|].
  { inversion H; subst run. left. exists e2. repeat split. }
  destruct (loadUserInfo userinfo_Load UserInfo_RequestInfo CheckUserInfo c1
              out zero st2) as [[[userInfo|res3] st3]|m] eqn:Hu;
    cbn [bind] in H; [| |discriminate].
  2:{ apply loadUserInfo_shape in Hu. destruct Hu as [e3 ->].
      inversion H; subst run. left. exists e3. repeat split. }
  destruct (variables_New out (ValuesFile c1) (Variables c1) (world st3))
    as [[variables [e4|]] w4].
  { inversion H; subst run. left. eexists. repeat split. }
  match type of H with
  | context [initStoreAndClusterClient ?f1 ?f2 ?f3 ?f4 ?f5 ?f6 ?f7 c1 zero
               ?s] =>
      destruct (initStoreAndClusterClient_shape c1 zero s) as [e5 He5];
      destruct (initStoreAndClusterClient f1 f2 f3 f4 f5 f6 f7 c1 zero s)
        as [[res5 dClient] st5]
  end.
  cbn [fst] in He5. subst res5.
  cbn [res_err helperReturn res_skipInvalidPolicies] in H.
  destruct e5 as [e5|].
  { inversion H; subst run. left. exists e5. repeat split. }
  fold load_all in H.
  destruct (load_all c1 zero (logs st5)) as [[[lres gb] lg1]|m] eqn:Hl;
    cbn [bind] in H; [|discriminate].
  right. exists lres, gb, (logs st5), lg1. split; [exact Hl|].
  destruct (l_err lres) as [e6|] eqn:Hle.
  { inversion H; subst run. split; [reflexivity|]. left. exists e6.
    repeat split. }
  match type of H with
  | context [loadResources ?f ?a ?b ?d ?e ?g ?s] =>
      destruct (loadResources f a b d e g s) as [[resources [e7|]] st7]
  end.
  { inversion H; subst run. split; [reflexivity|]. left. eexists.
    repeat split. }
  assert (Hex : exists exceptions err8 st8,
             (if inlineExceptions (with_GitBranch c1 gb)
              then (exception_SelectFrom resources, None, st7)
              else
                let '(exceptions, err, w) :=
                  exception_Load (Exception (with_GitBranch c1 gb))
                    (world st7) in
                (exceptions, err, setWorld st7 w))
             = (exceptions, err8, st8)
             /\ (err8 = None ->
                 if inlineExceptions c1
                 then exceptions = exception_SelectFrom resources
                 else exists w,
                        fst (exception_Load (Exception c1) w)
                        = (exceptions, None))).
  { change (inlineExceptions (with_GitBranch c1 gb))
      with (inlineExceptions c1).
    change (Exception (with_GitBranch c1 gb)) with (Exception c1).
    destruct (inlineExceptions c1).
    - eexists _, _, _. split; [reflexivity|]. intros _. reflexivity.
    - destruct (exception_Load (Exception c1) (world st7))
        as [[exceptions err8] w8] eqn:Hload.
      eexists _, _, _. split; [reflexivity|]. intros ->.
      exists (world st7). rewrite Hload. reflexivity. }
  destruct Hex as (exceptions & err8 & st8 & Hex & Horigin).
  rewrite Hex in H. clear Hex.
  destruct err8 as [e8|].
  { inversion H; subst run. split; [reflexivity|]. left. eexists.
    repeat split. }
  specialize (Horigin eq_refl).
  fold apply_all in H.
  match type of H with
  | context [apply_all ?a ?b ?d ?e ?f ?g ?h ?i ?j ?k ?l] =>
      destruct (apply_all a b d e f g h i j k l) as [[ares sk] st9] eqn:Ha
  end.
  destruct (a_err ares) as [e9|] eqn:Hae.
  { inversion H; subst run. split; [reflexivity|]. right.
    exists userInfo, variables, dClient, isDir, resources, exceptions.
    eexists. exists ares, sk, st9. cbn [h_out h_stdout h_result].
    split; [reflexivity|]. split; [exact Horigin|]. split; [reflexivity|].
    split; [exact Ha|].
    left. exists e9. repeat split. exact Hae. }
  fold apply_vaps in H.
  match type of H with
  | context [apply_vaps ?a ?b ?d ?e ?f ?g ?h ?i] =>
      destruct (apply_vaps a b d e f g h i)
        as [[[[responses2 err] rc] stdout] st10] eqn:Hv
  end.
  split; [destruct err; inversion H; subst run; reflexivity|]. right.
  exists userInfo, variables, dClient, isDir, resources, exceptions.
  eexists. exists ares, sk, st9.
  split; [reflexivity|]. split; [exact Horigin|].
  split; [destruct err; inversion H; subst run; reflexivity|].
  split; [destruct err; inversion H; subst run; exact Ha|].
  right. split; [exact Hae|].
  exists responses2, err, rc, st10.
  destruct err; inversion H; subst run; cbn [h_stdout h_result];
    split; try exact Hv; reflexivity.
Qed.

Lemma load_all_cleaned (c c1 : ApplyCommandConfig)
    (sk : SkippedInvalidPolicies) (lg0 : list LogEntry) lres gb lg1 :
  (c1 = c
   \/ (MutateLogPath c <> ""
       /\ c1 = with_MutateLogPath c (filepath_Clean (MutateLogPath c)))) ->
  load_all c1 sk lg0 = Returned (lres, gb, lg1) ->
  withoutLog (load_all c sk []) = Returned (lres, gb)
  /\ l_rc lres = None /\ l_resources lres = [] /\ l_responses lres = []
  /\ l_skipInvalidPolicies lres = sk.
Proof.
  intros Hc Hl.
  assert (Heq : load_all c1 sk lg0 = load_all c sk lg0)
    by (destruct Hc as [->|[_ ->]]; reflexivity).
  rewrite Heq in Hl. split.
  - unfold load_all, loadPolicies in *.
    rewrite (loadPaths_log _ _ _ _ IsGit url_Parse URL_Path URL_setPath
               URL_String GetGitBranchOrPolicyPaths memfs_New Clone
               ListYamls Load sk (PolicyPaths c) (GitBranch c) _ [] lg0).
    rewrite Hl. reflexivity.
  - unfold load_all, loadPolicies in Hl. apply loadPaths_shape in Hl.
    destruct Hl as (H1 & H2 & H3 & H4 & _). repeat split; assumption.
Qed.

(** X14: a call of [applyCommandHelper] that returns no error returns
    counts; and a call that returns nil counts returns an error, no
    resource, no response and empty lists of skipped and invalid policies,
    and has written nothing to [out] or to standard output. *)
Theorem applyCommandHelper_counts_or_error (c : ApplyCommandConfig)
    (out : Writer) (st : State World) (run : HelperRun World) :
  helper c out st = Returned run ->
  (res_err (h_result run) = None -> res_rc (h_result run) <> None)
  /\ (res_rc (h_result run) = None ->
      res_err (h_result run) <> None
      /\ res_resources (h_result run) = []
      /\ res_responses (h_result run) = []
      /\ res_skipInvalidPolicies (h_result run)
         = {| skipped := []; invalid := [] |}
      /\ h_out run = [] /\ h_stdout run = []).
Proof.
  intros H. apply applyCommandHelper_stages in H. cbv zeta in H.
  destruct H as (c1 & Hc & [(e & Hr & Ho & Hs & _)
                           |(lres & gb & lg0 & lg1 & Hl & _ & Hrest)]).
  - rewrite Hr, Ho, Hs. cbn. split; [discriminate|].
    intros _. repeat split. discriminate.
  - destruct (load_all_cleaned c c1 _ lg0 lres gb lg1 Hc Hl)
      as (_ & L1 & L2 & L3 & L4).
    destruct Hrest as [(e & Hr & Ho & Hs)
                      |(userInfo & variables & dClient & isDir & resources
                        & exceptions & st1 & ares & sk & st2 & Hle & _ & Ho
                        & Ha
                        & [(e & Hae & Hs & Hr)
                          |(Hae & responses2 & err & rc & st3 & Hv & Hr)])].
    + rewrite Hr, Ho, Hs. cbn. rewrite L1, L2, L3, L4.
      split; [discriminate|]. intros _. repeat split. discriminate.
    + rewrite Hr. cbn. split; discriminate.
    + rewrite Hr. cbn. split; discriminate.
Qed.

(** X15: when a call of [applyCommandHelper] returns counts, the policies
    of the configuration loaded without error, and the skipped and invalid
    policies returned are the names of exactly those loaded policies that
    validation rejects, in the order loaded; the git branch of the
    configuration is then the one that [loadPolicies] computed. *)
Theorem applyCommandHelper_skips_rejected_loaded (c : ApplyCommandConfig)
    (out : Writer) (st : State World) (run : HelperRun World) :
  helper c out st = Returned run ->
  res_rc (h_result run) <> None ->
  exists lres gb,
    withoutLog (load_all c {| skipped := []; invalid := [] |} [])
    = Returned (lres, gb)
    /\ l_err lres = None
    /\ GitBranch (h_config run) = gb
    /\ skipped (res_skipInvalidPolicies (h_result run))
       = map GetName (filter (isListedSkipped Validate) (l_policies lres))
    /\ invalid (res_skipInvalidPolicies (h_result run))
       = map GetName (filter (isListedInvalid Validate) (l_policies lres)).
Proof.
  intros H Hrc. apply applyCommandHelper_stages in H. cbv zeta in H.
  destruct H as (c1 & Hc & [(e & Hr & _)
                           |(lres & gb & lg0 & lg1 & Hl & Hcfg & Hrest)]).
  { rewrite Hr in Hrc. exfalso. apply Hrc. reflexivity. }
  destruct (load_all_cleaned c c1 _ lg0 lres gb lg1 Hc Hl)
    as (Hlog & L1 & L2 & L3 & L4).
  destruct Hrest as [(e & Hr & _)
                    |(userInfo & variables & dClient & isDir & resources
                      & exceptions & st1 & ares & sk & st2 & Hle & _ & Ho
                      & Ha & Hend)].
  { rewrite Hr in Hrc. exfalso. apply Hrc. exact L1. }
  exists lres, gb. split; [exact Hlog|]. split; [exact Hle|].
  split; [rewrite Hcfg; reflexivity|].
  apply applyPolicytoResource_lists in Ha. destruct Ha as (Hs & Hi & Hres).
  rewrite L4 in Hs, Hi. cbn [skipped invalid app] in Hs, Hi.
  assert (Hfield : res_skipInvalidPolicies (h_result run) = sk).
  { destruct Hend as [(e & _ & _ & Hr)
                     |(_ & responses2 & err & rc & st3 & _ & Hr)];
      rewrite Hr; reflexivity. }
  rewrite Hfield. split; [exact Hs|exact Hi].
Qed.

(** The rule count of the summary line, short of overflow. *)
Lemma policyRulesCount_exact (policies : list PolicyInterface)
    (vs : list VAP) :
  Z.of_nat (List.length (flat_map ComputeRules policies) + List.length vs)
  <= int_max ->
  policyRulesCount ComputeRules policies vs
  = Z.of_nat (List.length (flat_map ComputeRules policies) + List.length vs).
Proof.
  unfold policyRulesCount, len. intros Hfit.
  assert (Hfold : forall ps acc,
             0 <= acc ->
             acc + Z.of_nat (List.length (flat_map ComputeRules ps))
             <= int_max ->
             fold_left
               (fun n policy =>
                  wrap_int (n + Z.of_nat (List.length (ComputeRules policy))))
               ps acc
             = acc + Z.of_nat (List.length (flat_map ComputeRules ps))).
  { induction ps as [|pol ps IHp]; intros acc Hpos Hle;
      cbn [fold_left flat_map] in *.
    - cbn. lia.
    - rewrite length_app in *. rewrite wrap_int_small.
      + rewrite IHp; lia.
      + unfold int_min, int_max in *. lia. }
  rewrite Hfold.
  - rewrite wrap_int_small; [lia|]. unfold int_min, int_max in *. lia.
  - lia.
  - lia.
Qed.

(** X16: [applyCommandHelper] writes nothing to [out] itself when one of
    [Stdin], [PolicyReport] and [GenerateExceptions] is set.  When none is
    set and the call returns counts, it writes one summary line: the number
    of rules is that of all the loaded policies, those that validation
    rejects included, plus the number of admission policies (short of
    overflow, the sum of the rules that [autogen.ComputeRules] gives for
    each); the number of resources is that of the resources returned; and
    the exceptions counted are those selected from the resources, with
    inline exceptions, or those that [exception.Load] returned for the
    configured paths: their number is written when there is one, and no
    exception is mentioned when there is none. *)
Theorem applyCommandHelper_summary_line (c : ApplyCommandConfig)
    (out : Writer) (st : State World) (run : HelperRun World) :
  helper c out st = Returned run ->
  (Stdin c || PolicyReport c || GenerateExceptions c = true ->
   h_out run = [])
  /\ (Stdin c || PolicyReport c || GenerateExceptions c = false ->
      res_rc (h_result run) <> None ->
      exists lres gb (exceptions : list PolicyException) n,
        withoutLog (load_all c {| skipped := []; invalid := [] |} [])
        = Returned (lres, gb)
        /\ (if inlineExceptions c
            then exceptions
                 = exception_SelectFrom (res_resources (h_result run))
            else exists w,
                   fst (exception_Load (Exception c) w) = (exceptions, None))
        /\ n = policyRulesCount ComputeRules (l_policies lres) (l_vaps lres)
        /\ (Z.of_nat (List.length (flat_map ComputeRules (l_policies lres))
                      + List.length (l_vaps lres)) <= int_max ->
            n = Z.of_nat (List.length
                            (flat_map ComputeRules (l_policies lres))
                          + List.length (l_vaps lres)))
        /\ h_out run
           = [nl ++ "Applying " ++ itoa n ++ " policy rule(s) to "
              ++ itoa (Z.of_nat
                         (List.length (res_resources (h_result run))))
              ++ " resource(s)"
              ++ match exceptions with
                 | [] => "..." ++ nl
                 | _ :: _ =>
                     " with "
                     ++ itoa (Z.of_nat (List.length exceptions))
                     ++ " exception(s)..." ++ nl
                 end]%string).
Proof.
  intros H. apply applyCommandHelper_stages in H. cbv zeta in H.
  assert (Hflags : forall c1 gb,
             (c1 = c
              \/ (MutateLogPath c <> ""
                  /\ c1 = with_MutateLogPath c
                            (filepath_Clean (MutateLogPath c)))) ->
             negb (Stdin (with_GitBranch c1 gb))
             && negb (PolicyReport (with_GitBranch c1 gb))
             && negb (GenerateExceptions (with_GitBranch c1 gb))
             = negb (Stdin c || PolicyReport c || GenerateExceptions c)
             /\ inlineExceptions c1 = inlineExceptions c
             /\ Exception c1 = Exception c).
  { intros c1 gb [->|[_ ->]]; cbn; rewrite !negb_orb; repeat split. }
  destruct H as (c1 & Hc & [(e & Hr & Ho & _)
                           |(lres & gb & lg0 & lg1 & Hl & _ & Hrest)]).
  { rewrite Ho, Hr. cbn. split; [reflexivity|].
    intros _ Hrc. exfalso. apply Hrc. reflexivity. }
  destruct (load_all_cleaned c c1 _ lg0 lres gb lg1 Hc Hl)
    as (Hlog & L1 & _).
  destruct Hrest as [(e & Hr & Ho & _)
                    |(userInfo & variables & dClient & isDir & resources
                      & exceptions & st1 & ares & sk & st2 & _ & Horigin
                      & Ho & Ha & Hend)].
  { rewrite Ho, Hr. cbn. split; [reflexivity|].
    intros _ Hrc. exfalso. apply Hrc. exact L1. }
  assert (Hres : res_resources (h_result run) = resources).
  { apply applyPolicytoResource_lists in Ha. destruct Ha as (_ & _ & Hres).
    destruct Hend as [(e & _ & _ & Hr)
                     |(_ & responses2 & err & rc & st3 & _ & Hr)];
      rewrite Hr; exact Hres. }
  destruct (Hflags c1 gb Hc) as (Hf & Hinl & Hexc).
  rewrite Hinl, Hexc in Horigin.
  rewrite Ho, Hres. unfold banner. rewrite Hf. split.
  - intros ->. reflexivity.
  - intros -> _. cbn [negb].
    exists lres, gb, exceptions, (policyRulesCount ComputeRules
                                    (l_policies lres) (l_vaps lres)).
    split; [exact Hlog|]. split; [exact Horigin|].
    split; [reflexivity|]. split; [apply policyRulesCount_exact|].
    unfold len. destruct exceptions as [|x exceptions]; reflexivity.
Qed.

(** X17: of the configuration, [applyCommandHelper] changes nothing but the
    mutate log path and the git branch; the path changes only when it is
    not empty, and then to its cleaned form. *)
Theorem applyCommandHelper_keeps_flags (c : ApplyCommandConfig)
    (out : Writer) (st : State World) (run : HelperRun World) :
  helper c out st = Returned run ->
  h_config run
  = with_GitBranch
      (with_MutateLogPath c (MutateLogPath (h_config run)))
      (GitBranch (h_config run))
  /\ (MutateLogPath (h_config run) = MutateLogPath c
      \/ (MutateLogPath c <> ""
          /\ MutateLogPath (h_config run)
             = filepath_Clean (MutateLogPath c))).
Proof.
  intros H. apply applyCommandHelper_stages in H. cbv zeta in H.
  destruct H as (c1 & Hc & Hrest).
  assert (Hcfg : exists gb, h_config run = with_GitBranch c1 gb).
  { destruct Hrest as [(e & _ & _ & _ & Hcfg)
                      |(lres & gb & lg0 & lg1 & _ & Hcfg & _)].
    - exists (GitBranch c1). rewrite with_GitBranch_same. exact Hcfg.
    - exists gb. exact Hcfg. }
  destruct Hcfg as [gb ->].
  destruct Hc as [->|[Hp ->]]; cbn [MutateLogPath GitBranch with_GitBranch
                                    with_MutateLogPath].
  - split; [destruct c; reflexivity|left; reflexivity].
  - split; [reflexivity|right; split; [exact Hp|reflexivity]].
Qed.

(** X18: nil user info and nil loader results are the values that
    [applyCommandHelper] and [loadPolicies] dereference without a test.
    The configuration, the writer, the policies and the resources are
    values here, so the calls spoken of are those in which none of these is
    nil (a nil policy, or a nil resource at [*resource] in
    [applyPolicytoResource], is outside this statement).  For such calls:
    when the policy paths are local and the loaders of the user info and of
    the policies return a value whenever they return no error,
    [applyCommandHelper] returns. *)
Theorem applyCommandHelper_returns (c : ApplyCommandConfig) (out : Writer)
    (st : State World) :
  (forall w,
      snd (fst (userinfo_Load (UserInfoPath c) w)) = None ->
      fst (fst (userinfo_Load (UserInfoPath c) w)) <> None) ->
  (forall p, In p (PolicyPaths c) ->
     IsGit p = false
     /\ (snd (Load None "" p) = None -> fst (Load None "" p) <> None)) ->
  exists run, helper c out st = Returned run.
Proof.
  intros Hu Hp. unfold helper, applyCommandHelper. cbv zeta.
  destruct (res_err (checkArguments c)); [eexists; reflexivity|].
  destruct (getMutateLogPathIsDir checkMutateLogPath c _ st)
    as [[res1 isDir] st1].
  destruct (res_err res1); [eexists; reflexivity|].
  destruct (cleanPreviousContent_shape c isDir
              (res_skipInvalidPolicies res1) st1) as [_ Hc].
  destruct (cleanPreviousContent filepath_Clean os_OpenFile_trunc c isDir
              (res_skipInvalidPolicies res1) st1) as [[res2 c1] st2].
  cbn [fst snd] in Hc.
  destruct (res_err res2); [eexists; reflexivity|].
  assert (Hfields : UserInfoPath c1 = UserInfoPath c
                    /\ PolicyPaths c1 = PolicyPaths c)
    by (destruct Hc as [->|[_ ->]]; split; reflexivity).
  destruct Hfields as [Hup Hpp].
  assert (Huser : exists r,
             loadUserInfo userinfo_Load UserInfo_RequestInfo CheckUserInfo
               c1 out (res_skipInvalidPolicies res2) st2 = Returned r).
  { unfold loadUserInfo. rewrite Hup.
    destruct (negb _); [|eexists; reflexivity].
    specialize (Hu (world st2)).
    destruct (userinfo_Load _ _) as [[info [e|]] w];
      [eexists; reflexivity|].
    destruct info as [info|]; [eexists; reflexivity|].
    exfalso. apply Hu; reflexivity. }
  destruct Huser as [[[userInfo|res3] st3] ->]; cbn [bind];
    [|eexists; reflexivity].
  destruct (variables_New _ _ _ _) as [[variables [e|]] w];
    [eexists; reflexivity|].
  destruct (initStoreAndClusterClient _ _ _ _ _ _ _ _ _ _)
    as [[res5 dClient] st5].
  destruct (res_err res5); [eexists; reflexivity|].
  unfold loadPolicies. rewrite Hpp.
  destruct (loadPaths_local _ _ _ _ IsGit url_Parse URL_Path URL_setPath
              URL_String GetGitBranchOrPolicyPaths memfs_New Clone ListYamls
              Load (res_skipInvalidPolicies res5) (PolicyPaths c) Hp
              (GitBranch c1) {| policies := []; vaps := []; vapBindings := [] |}
              (logs st5)) as [lg' ->].
  cbn [bind l_err l_policies l_vaps l_vapBindings l_skipInvalidPolicies
       policies vaps vapBindings app].
  destruct (loadResources _ _ _ _ _ _ _) as [[resources [e|]] st7];
    [eexists; reflexivity|].
  match goal with
  | |- context [if inlineExceptions ?x then ?a else ?b] =>
      destruct (if inlineExceptions x then a else b)
        as [[exceptions [e|]] st8]
  end; [eexists; reflexivity|].
  destruct (applyPolicytoResource _ _ _ _ _ _ _ _ _ _ _ _ _ _ _ _)
    as [[ares sk] st9].
  destruct (a_err ares); [eexists; reflexivity|].
  destruct (applyValidatingAdmissionPolicytoResource _ _ _ _ _ _ _ _ _)
    as [[[[responses2 [e|]] rc] stdout] st10]; eexists; reflexivity.
Qed.

End HelperFacts.

Lemma applyCommandHelper_counts_or_error_witness :
  exists run,
    Sample.applyHelper Sample.config Sample.stdout_writer Sample.start
    = Returned run
    /\ res_err (h_result run) = None
    /\ (res_err (h_result run) = None -> res_rc (h_result run) <> None)
    /\ (res_rc (h_result run) = None ->
        res_err (h_result run) <> None
        /\ res_resources (h_result run) = []
        /\ res_responses (h_result run) = []
        /\ res_skipInvalidPolicies (h_result run)
           = {| skipped := []; invalid := [] |}
        /\ h_out run = [] /\ h_stdout run = []).
Proof.
  eexists. split; [reflexivity|]. split; [reflexivity|].
  eapply applyCommandHelper_counts_or_error.
  exact (eq_refl : Sample.applyHelper Sample.config Sample.stdout_writer
                     Sample.start = Returned _).
Defined.

Lemma applyCommandHelper_skips_rejected_loaded_witness :
  exists run,
    Sample.applyHelper Sample.config_two_policies Sample.stdout_writer
      Sample.start
    = Returned run
    /\ skipped (res_skipInvalidPolicies (h_result run)) = ["broken"]%string
    /\ exists lres gb,
         withoutLog
           (loadPolicies Sample.isGit Sample.parseURL Sample.urlPath
              Sample.urlSetPath Sample.urlString Sample.gitBranchOrPaths
              Sample.emptyFS Sample.clone Sample.listYamls Sample.load
              Sample.config_two_policies {| skipped := []; invalid := [] |}
              [])
         = Returned (lres, gb)
         /\ l_err lres = None
         /\ GitBranch (h_config run) = gb
         /\ skipped (res_skipInvalidPolicies (h_result run))
            = map GetName
                (filter (isListedSkipped Sample.validate) (l_policies lres))
         /\ invalid (res_skipInvalidPolicies (h_result run))
            = map GetName
                (filter (isListedInvalid Sample.validate) (l_policies lres)).
Proof.
  eexists. split; [reflexivity|]. split; [reflexivity|].
  eapply applyCommandHelper_skips_rejected_loaded.
  - exact (eq_refl : Sample.applyHelper Sample.config_two_policies
                       Sample.stdout_writer Sample.start = Returned _).
  - discriminate.
Defined.

Lemma applyCommandHelper_summary_line_witness :
  exists run,
    Sample.applyHelper Sample.config_with_exception Sample.stdout_writer
      Sample.start
    = Returned run
    /\ h_out run
       = [nl ++ "Applying 4 policy rule(s) to 1 resource(s) with 1 exception(s)..." ++ nl]%string
    /\ (Stdin Sample.config_with_exception
        || PolicyReport Sample.config_with_exception
        || GenerateExceptions Sample.config_with_exception = true ->
        h_out run = [])
    /\ (Stdin Sample.config_with_exception
        || PolicyReport Sample.config_with_exception
        || GenerateExceptions Sample.config_with_exception = false ->
        res_rc (h_result run) <> None ->
        exists lres gb (exceptions : list unit) n,
          withoutLog
            (loadPolicies Sample.isGit Sample.parseURL Sample.urlPath
               Sample.urlSetPath Sample.urlString Sample.gitBranchOrPaths
               Sample.emptyFS Sample.clone Sample.listYamls Sample.load
               Sample.config_with_exception {| skipped := []; invalid := [] |}
               [])
          = Returned (lres, gb)
          /\ (if inlineExceptions Sample.config_with_exception
              then exceptions
                   = Sample.selectExceptions (res_resources (h_result run))
              else exists w,
                     fst (Sample.loadExceptions
                            (Exception Sample.config_with_exception) w)
                     = (exceptions, None))
          /\ n = policyRulesCount Sample.computeRules (l_policies lres)
                   (l_vaps lres)
          /\ (Z.of_nat (List.length
                          (flat_map Sample.computeRules (l_policies lres))
                        + List.length (l_vaps lres)) <= int_max ->
              n = Z.of_nat (List.length
                              (flat_map Sample.computeRules (l_policies lres))
                            + List.length (l_vaps lres)))
          /\ h_out run
             = [nl ++ "Applying " ++ itoa n ++ " policy rule(s) to "
                ++ itoa (Z.of_nat
                           (List.length (res_resources (h_result run))))
                ++ " resource(s)"
                ++ match exceptions with
                   | [] => "..." ++ nl
                   | _ :: _ =>
                       " with "
                       ++ itoa (Z.of_nat (List.length exceptions))
                       ++ " exception(s)..." ++ nl
                   end]%string).
Proof.
  eexists. split; [reflexivity|]. split; [reflexivity|].
  eapply applyCommandHelper_summary_line.
  exact (eq_refl : Sample.applyHelper Sample.config_with_exception
                     Sample.stdout_writer Sample.start = Returned _).
Defined.

Lemma applyCommandHelper_keeps_flags_witness :
  exists run,
    Sample.applyHelper
      (with_MutateLogPath Sample.config "mutate.log") Sample.stdout_writer
      Sample.start
    = Returned run
    /\ h_config run
       = with_GitBranch
           (with_MutateLogPath
              (with_MutateLogPath Sample.config "mutate.log")
              (MutateLogPath (h_config run)))
           (GitBranch (h_config run))
    /\ (MutateLogPath (h_config run)
        = MutateLogPath (with_MutateLogPath Sample.config "mutate.log")
        \/ (MutateLogPath (with_MutateLogPath Sample.config "mutate.log")
            <> ""
            /\ MutateLogPath (h_config run)
               = Sample.cleanPath
                   (MutateLogPath
                      (with_MutateLogPath Sample.config "mutate.log")))).
Proof.
  eexists. split; [reflexivity|].
  eapply applyCommandHelper_keeps_flags.
  exact (eq_refl : Sample.applyHelper
                     (with_MutateLogPath Sample.config "mutate.log")
                     Sample.stdout_writer Sample.start = Returned _).
Defined.

Lemma applyCommandHelper_returns_witness :
  exists run,
    Sample.applyHelper Sample.config_two_policies Sample.stdout_writer
      Sample.start
    = Returned run.
Proof.
  unfold Sample.applyHelper. apply applyCommandHelper_returns.
  - intros w _. discriminate.
  - intros p [<-|[<-|[]]]; (split; [reflexivity|intros _; discriminate]).
Defined.
